(** * Heart Attack Prediction API: normalisation, batch prediction, statistics

    A shallow embedding of [app/model.py] ([HeartAttackModel]) and of the
    statistics block of [app/main.py] ([predict_from_csv]).

    Conventions of the embedding:
    - a [float64] is an exact rational or NaN ([None]); infinities and
      rounding error of binary floating point are not modelled, so a sum, a
      mean or a variance below is the exact value of the reduction: what is
      proved of them is which reduction is computed, not how the rounded
      result compares with the values;
    - an [int64] is an integer ([Z]); the one place where the code makes
      one from a float, [astype(int)], is modelled with the [int64] range;
    - text is an ASCII [string]; [str.lower] maps ['A'..'Z'] to ['a'..'z'];
    - a pandas DataFrame is an ordered list of labelled columns together with
      the length of its index; DataFrames are mutable objects living in a
      store and are passed around by reference. *)

From Stdlib Require Import List String Ascii Bool Arith ZArith QArith Qround Qabs Qminmax.
From Stdlib Require Import Sorted Permutation Lia Lqa.
From Stdlib Require Reals Qreals Lra.
Import ListNotations.

Local Open Scope string_scope.
Local Open Scope Z_scope.
Local Open Scope Q_scope.

(** ** Text *)

Module Text.

(** [str.lower] on one ASCII character. *)
Definition lower_ascii (c : ascii) : ascii :=
  let n := nat_of_ascii c in
  if (65 <=? n)%nat && (n <=? 90)%nat then ascii_of_nat (n + 32) else c.

(** [str.lower]. *)
Fixpoint lower (s : string) : string :=
  match s with
  | EmptyString => EmptyString
  | String c s' => String (lower_ascii c) (lower s')
  end.

(** [x in xs] for a list of labels. *)
Fixpoint mem (x : string) (xs : list string) : bool :=
  match xs with
  | [] => false
  | y :: ys => String.eqb x y || mem x ys
  end.

End Text.

(** ** Numbers: float64 values, medians, rounding *)

Module Num.

(** A float64 cell: [None] is NaN. *)
Definition float64 := option Q.

(** [Series.dropna] on the values of a float column. *)
Fixpoint dropna (vals : list float64) : list Q :=
  match vals with
  | [] => []
  | Some q :: r => q :: dropna r
  | None :: r => dropna r
  end.

(** Insertion into an ascending list. *)
Fixpoint insert (x : Q) (l : list Q) : list Q :=
  match l with
  | [] => [x]
  | y :: r => if Qle_bool x y then x :: l else y :: insert x r
  end.

(** Ascending sort of the non-missing values. *)
Fixpoint sort (l : list Q) : list Q :=
  match l with
  | [] => []
  | x :: r => insert x (sort r)
  end.

(** The median of an ascending list: the middle value, or the mean of the
    two middle values; NaN when there is no value. *)
Definition middle (s : list Q) : float64 :=
  let n := List.length s in
  match n with
  | O => None
  | _ =>
    if Nat.even n
    then Some ((nth (n / 2 - 1) s 0 + nth (n / 2) s 0) / 2)
    else Some (nth (n / 2) s 0)
  end.

(** [Series.median()] of a float column: NaN cells are skipped. *)
Definition median (vals : list float64) : float64 := middle (sort (dropna vals)).

(** [Series.fillna(value)] on a float column; filling with NaN changes nothing. *)
Definition fillna (value : float64) (vals : list float64) : list float64 :=
  map (fun v => match v with Some q => Some q | None => value end) vals.

(** [Series.isnull().any()] on a float column. *)
Definition any_null (vals : list float64) : bool :=
  existsb (fun v => match v with None => true | Some _ => false end) vals.

(** numpy's rounding of one value: to the nearest integer, ties to even. *)
Definition round_half_even (q : Q) : Z :=
  let f := Qfloor q in
  let d := q - inject_Z f in
  match Qcompare d (1 # 2) with
  | Lt => f
  | Gt => (f + 1)%Z
  | Eq => if Z.even f then f else (f + 1)%Z
  end.

(** [Series.round()] on a float column (the values stay floats). *)
Definition round (vals : list float64) : list float64 :=
  map (option_map (fun q => inject_Z (round_half_even q))) vals.

End Num.

(** ** pandas: Series, DataFrames, and the store they live in *)

Module Pandas.

(** A Python object held by a column of dtype [object]: text, [None], or a
    float NaN (what a text column of a parsed CSV or a one-row frame built
    from a JSON object holds). *)
Inductive pyobj :=
| PyStr (s : string)
| PyNone
| PyNaN.

Inductive dtype := object | int64 | float64 | bool_.

(** A column, by dtype. *)
Inductive Series :=
| ObjectSeries (vals : list pyobj)
| Int64Series (vals : list Z)
| Float64Series (vals : list Num.float64)
| BoolSeries (vals : list bool).

Definition dtype_of (s : Series) : dtype :=
  match s with
  | ObjectSeries _ => object
  | Int64Series _ => int64
  | Float64Series _ => float64
  | BoolSeries _ => bool_
  end.

(** Membership of a dtype in [np.number]; bool is not a number dtype. *)
Definition is_number (d : dtype) : bool :=
  match d with
  | int64 | float64 => true
  | object | bool_ => false
  end.

Definition size (s : Series) : nat :=
  match s with
  | ObjectSeries v => List.length v
  | Int64Series v => List.length v
  | Float64Series v => List.length v
  | BoolSeries v => List.length v
  end.

(** A DataFrame: the length of its index and its labelled columns, in
    order; labels may repeat. *)
Record DataFrame := mkFrame {
  index_len : nat;
  cols : list (string * Series)
}.

(** [df.columns]. *)
Definition columns (df : DataFrame) : list string := map fst (cols df).

(** What [df[label]] evaluates to: a Series when the label names one column,
    a DataFrame of the homonymous columns when it names several. *)
Inductive Selection :=
| OneColumn (s : Series)
| ManyColumns (ss : list Series).

Inductive exn :=
| KeyError (key : string)
| AttributeError (attr : string)
| ValueError (msg : string)
| IntCastingNaNError
| IndexError
| FileNotFoundError (path : string)
| Raised (msg : string).   (* raised by a collaborator: unpickling, the classifier *)

(** [Series.astype(str)] on the objects of an object column. *)
Definition str (o : pyobj) : string :=
  match o with
  | PyStr s => s
  | PyNone => "None"
  | PyNaN => "nan"
  end.

(** [dict.get] on a dict literal with text keys. *)
Fixpoint dict_get {V : Type} (d : list (string * V)) (k : string) : option V :=
  match d with
  | [] => None
  | (k', v) :: r => if String.eqb k k' then Some v else dict_get r k
  end.

(** [Series.map(d)] for a dict [d] of integers: unmapped values become NaN. *)
Definition map_dict (d : list (string * Z)) (vals : list string) : list Num.float64 :=
  map (fun s => option_map inject_Z (dict_get d s)) vals.

(** The range of [int64], the type that [astype(int)] produces. *)
Definition int64_min : Z := (-9223372036854775808)%Z.
Definition int64_max : Z := 9223372036854775807%Z.

(** An integer stored as [int64] by the float-to-integer conversion: a
    value outside the range does not raise, the conversion gives the least
    [int64] (what the conversion instruction of x86-64 returns). *)
Definition cast_int64 (z : Z) : Z :=
  if ((int64_min <=? z) && (z <=? int64_max))%Z then z else int64_min.

(** Conversion of one float to int: NaN cannot be converted; a finite value
    is truncated toward zero and stored as [int64]. *)
Definition int_of_float (v : Num.float64) : exn + Z :=
  match v with
  | None => inl IntCastingNaNError
  | Some q => inr (cast_int64 (if Qle_bool 0 q then Qfloor q else Qceiling q))
  end.

(** [Series.astype(int)] on a float column. *)
Fixpoint astype_int (vals : list Num.float64) : exn + list Z :=
  match vals with
  | [] => inr []
  | v :: r =>
    match int_of_float v with
    | inl e => inl e
    | inr z =>
      match astype_int r with
      | inl e => inl e
      | inr zs => inr (z :: zs)
      end
    end
  end.

(** The columns of [df] labelled [label], in order. *)
Definition labelled (label : string) (df : DataFrame) : list Series :=
  map snd (filter (fun c => String.eqb (fst c) label) (cols df)).

(** [df[label]] as a value. *)
Definition select (label : string) (df : DataFrame) : exn + Selection :=
  match labelled label df with
  | [] => inl (KeyError label)
  | [s] => inr (OneColumn s)
  | ss => inr (ManyColumns ss)
  end.

(** [df[label] = s] as a frame update: every column with that label is
    replaced in place; a new label is appended. *)
Definition with_column (label : string) (s : Series) (df : DataFrame) : DataFrame :=
  if Text.mem label (columns df)
  then mkFrame (index_len df)
         (map (fun c => if String.eqb (fst c) label then (label, s) else c) (cols df))
  else mkFrame (index_len df) (cols df ++ [(label, s)])%list.

(** [df.drop(columns=labels, errors='ignore')] as a value. *)
Definition without_columns (labels : list string) (df : DataFrame) : DataFrame :=
  mkFrame (index_len df) (filter (fun c => negb (Text.mem (fst c) labels)) (cols df)).

(** [df.select_dtypes(include=[np.number]).columns]. *)
Definition number_columns (df : DataFrame) : list string :=
  map fst (filter (fun c => is_number (dtype_of (snd c))) (cols df)).

(** [sel.dtype]: a DataFrame has no attribute [dtype]. *)
Definition dtype_sel (sel : Selection) : exn + dtype :=
  match sel with
  | OneColumn s => inr (dtype_of s)
  | ManyColumns _ => inl (AttributeError "dtype")
  end.

(** [Series.isnull().any()]. *)
Definition isnull_any (s : Series) : bool :=
  match s with
  | ObjectSeries v =>
      existsb (fun o => match o with PyStr _ => false | _ => true end) v
  | Float64Series v => Num.any_null v
  | Int64Series _ | BoolSeries _ => false
  end.

(** The truth value of [sel.isnull().any()] in an [if]: for a DataFrame
    the result of [any()] is a Series, whose truth value is ambiguous. *)
Definition truth_isnull_any (sel : Selection) : exn + bool :=
  match sel with
  | OneColumn s => inr (isnull_any s)
  | ManyColumns _ => inl (ValueError "The truth value of a Series is ambiguous")
  end.

(** *** Reductions of a float column (NaN cells are skipped) *)

Definition total (l : list Q) : Q := fold_right Qplus 0 l.

Definition count (l : list Q) : Q := inject_Z (Z.of_nat (List.length l)).

(** [Series.mean()]: the exact quotient, rounding aside. *)
Definition mean (vals : list Num.float64) : Num.float64 :=
  match Num.dropna vals with
  | [] => None
  | l => Some (total l / count l)
  end.

(** [Series.min()]. *)
Definition min (vals : list Num.float64) : Num.float64 :=
  match Num.dropna vals with
  | [] => None
  | x :: r => Some (fold_left Qmin r x)
  end.

(** [Series.max()]. *)
Definition max (vals : list Num.float64) : Num.float64 :=
  match Num.dropna vals with
  | [] => None
  | x :: r => Some (fold_left Qmax r x)
  end.

(** [Series.var(ddof)]: the sum of squared deviations from the mean over
    [n - ddof]; NaN when [n <= ddof]. *)
Definition var (ddof : nat) (vals : list Num.float64) : Num.float64 :=
  let l := Num.dropna vals in
  if (List.length l <=? ddof)%nat then None
  else
    let m := total l / count l in
    Some (total (map (fun x => (x - m) * (x - m)) l)
          / inject_Z (Z.of_nat (List.length l - ddof))).

(** [Series.std(ddof)], whose default in pandas is [ddof=1]: the square
    root of [var], as a real number. *)
Definition std (ddof : nat) (vals : list Num.float64) : option Rdefinitions.R :=
  option_map (fun v => R_sqrt.sqrt (Rdefinitions.Q2R v)) (var ddof vals).

(** [(s > x).sum()]: a comparison with NaN is false. *)
Definition count_gt (x : Q) (vals : list Num.float64) : nat :=
  List.length (filter (fun v => match v with Some q => negb (Qle_bool q x) | None => false end) vals).

(** [(s <= x).sum()]. *)
Definition count_le (x : Q) (vals : list Num.float64) : nat :=
  List.length (filter (fun v => match v with Some q => Qle_bool q x | None => false end) vals).

(** *** The store *)

Definition loc := nat.
Definition store := list DataFrame.

(** Computations that read and write the store and may raise. *)
Definition M (A : Type) : Type := store -> (exn + A) * store.

Definition ret {A} (a : A) : M A := fun st => (inr a, st).
Definition raise {A} (e : exn) : M A := fun st => (inl e, st).
Definition bind {A B} (m : M A) (k : A -> M B) : M B :=
  fun st =>
    match m st with
    | (inl e, st') => (inl e, st')
    | (inr a, st') => k a st'
    end.
Definition lift {A} (r : exn + A) : M A :=
  match r with
  | inl e => raise e
  | inr a => ret a
  end.

Fixpoint update (st : store) (l : loc) (df : DataFrame) : store :=
  match st, l with
  | [], _ => []
  | _ :: r, O => df :: r
  | x :: r, S l' => x :: update r l' df
  end.

(** *** DataFrame objects in the store *)

Definition deref (l : loc) : M DataFrame :=
  fun st =>
    match nth_error st l with
    | Some df => (inr df, st)
    | None => (inl (Raised "dangling reference"), st)
    end.

(** A new DataFrame object. *)
Definition alloc (df : DataFrame) : M loc :=
  fun st => (inr (List.length st), (st ++ [df])%list).

(** In-place replacement of the content of an object. *)
Definition assign (l : loc) (df : DataFrame) : M unit :=
  fun st => (inr tt, update st l df).

(** [df.copy()]: a new object with the same content. *)
Definition copy (l : loc) : M loc :=
  bind (deref l) alloc.

(** [df.columns]. *)
Definition get_columns (l : loc) : M (list string) :=
  bind (deref l) (fun df => ret (columns df)).

(** [df.columns = labels]: in place; the number of labels must match. *)
Definition set_columns (l : loc) (labels : list string) : M unit :=
  bind (deref l) (fun df =>
    if Nat.eqb (List.length labels) (List.length (cols df))
    then assign l (mkFrame (index_len df) (combine labels (map snd (cols df))))
    else raise (ValueError "Length mismatch")).

(** [df.drop(columns=labels, errors='ignore')]: a new object. *)
Definition drop (l : loc) (labels : list string) : M loc :=
  bind (deref l) (fun df => alloc (without_columns labels df)).

(** [df[label]]. *)
Definition getitem (l : loc) (label : string) : M Selection :=
  bind (deref l) (fun df => lift (select label df)).

(** [df[label] = s]: in place. *)
Definition setitem (l : loc) (label : string) (s : Series) : M unit :=
  bind (deref l) (fun df => assign l (with_column label s df)).

(** [df.select_dtypes(include=[np.number]).columns]. *)
Definition select_number_columns (l : loc) : M (list string) :=
  bind (deref l) (fun df => ret (number_columns df)).

(** [len(df)]. *)
Definition len (l : loc) : M nat :=
  bind (deref l) (fun df => ret (index_len df)).

(** [pd.DataFrame(d)] for a dict [d] of 1-D arrays: a new object; the arrays
    must have one length. *)
Definition frame_of_dict (d : list (string * Series)) : exn + DataFrame :=
  match d with
  | [] => inr (mkFrame 0 [])
  | (_, s) :: r =>
    if forallb (fun c => Nat.eqb (size (snd c)) (size s)) r
    then inr (mkFrame (size s) d)
    else inl (ValueError "All arrays must be of the same length")
  end.

(** [try: m except Exception as e: h e]. *)
Definition try_except {A} (m : M A) (h : exn -> M A) : M A :=
  fun st =>
    match m st with
    | (inl e, st') => h e st'
    | (inr a, st') => (inr a, st')
    end.

(** [for x in xs: body]. *)
Fixpoint for_each {A} (xs : list A) (body : A -> M unit) : M unit :=
  match xs with
  | [] => ret tt
  | x :: r => bind (body x) (fun _ => for_each r body)
  end.

(** [range(n)] as an integer column. *)
Definition range (n : nat) : Series := Int64Series (map Z.of_nat (seq 0 n)).

End Pandas.

Declare Scope pandas_scope.
Delimit Scope pandas_scope with pandas.
Notation "x <- m ;; k" := (Pandas.bind m (fun x => k))
  (at level 61, m at next level, right associativity) : pandas_scope.
Notation "m ;; k" := (Pandas.bind m (fun _ => k))
  (at level 61, right associativity) : pandas_scope.

(** ** app/model.py *)

Module Model.
Import Pandas.
Local Open Scope pandas_scope.

(** The 2-D array returned by [predict_proba]: one row per sample. *)
Record ndarray2 := mkArray2 {
  n_columns : nat;
  rows : list (list Num.float64)
}.

(** [a[:, j]]. *)
Definition column (j : nat) (a : ndarray2) : exn + list Num.float64 :=
  if (j <? n_columns a)%nat
  then inr (map (fun r => nth j r None) (rows a))
  else inl IndexError.

(** A stage of a pipeline, as far as the code looks into it. *)
Record Step := mkStep {
  step_type : string;
  has_feature_importances_ : bool;
  get_feature_names_out : option (exn + list string)
}.

(** The deserialised artifact, by the capabilities the code probes. An
    absent attribute is [None] (or [false]). *)
Record Artifact := mkArtifact {
  type_name : string;
  py_len : option nat;                      (* [__len__], which decides truthiness *)
  feature_names_in_ : option (list string);
  named_steps : option (list (string * Step));
  has_get_params : bool;
  predict_proba : option (DataFrame -> exn + ndarray2);
  predict : DataFrame -> exn + list Num.float64
}.

(** [bool(model)]. *)
Definition truthy (m : Artifact) : bool :=
  match py_len m with
  | Some O => false
  | _ => true
  end.

Record HeartAttackModel := mkModel {
  model_path : string;
  model : Artifact;
  feature_names : list string
}.

(** [HeartAttackModel.load_model] (run by [__init__]); [joblib_load path] is
    [None] when no file exists at [path], and otherwise what [joblib.load]
    does. An exception is logged and raised again. *)
Definition load_model (joblib_load : string -> option (exn + Artifact))
    (path : string) : exn + HeartAttackModel :=
  match joblib_load path with
  | None => inl (FileNotFoundError path)
  | Some (inl e) => inl e
  | Some (inr m) =>
    match feature_names_in_ m with
    | Some names => inr (mkModel path m names)
    | None =>
      match named_steps m with
      | None => inl (AttributeError "named_steps")
      | Some steps =>
        if match dict_get steps "classifier" with
           | Some c => has_feature_importances_ c
           | None => false
           end
        then
          match dict_get steps "preprocessor" with
          | None => inl (KeyError "preprocessor")
          | Some pre =>
            match get_feature_names_out pre with
            | None => inl (AttributeError "get_feature_names_out")
            | Some (inl e) => inl e
            | Some (inr names) => inr (mkModel path m names)
            end
          end
        else inr (mkModel path m [])
      end
    end
  end.

(** The dict returned by [get_model_info]; [features_count] is [None] for
    the text "unknown"; the last two keys may be absent. *)
Record ModelInfo := mkInfo {
  info_model_path : string;
  info_model_type : string;
  features_count : option nat;
  model_loaded : bool;
  pipeline_steps : option (list string);
  classifier_type : option string
}.

(** [HeartAttackModel.get_model_info]. *)
Definition get_model_info (self : HeartAttackModel) : exn + ModelInfo :=
  let m := model self in
  let count :=
    match feature_names self with
    | [] => None
    | names => Some (List.length names)
    end in
  if truthy m then
    let steps := option_map (map fst) (named_steps m) in
    if has_get_params m then
      match named_steps m with
      | None => inl (AttributeError "named_steps")
      | Some st =>
        let ty :=
          match dict_get st "classifier" with
          | Some c => step_type c
          | None => type_name m
          end in
        inr (mkInfo (model_path self) (type_name m) count true steps (Some ty))
      end
    else inr (mkInfo (model_path self) (type_name m) count true steps None)
  else inr (mkInfo (model_path self) (type_name m) count true None None).

Definition drop_cols : list string := ["unnamed:_0"; "id"; "income"].

Definition gender_map : list (string * Z) :=
  [("male", 0%Z); ("female", 1%Z); ("1.0", 0%Z); ("0.0", 1%Z); ("1", 0%Z); ("0", 1%Z)].

Definition binary_cols : list string :=
  ["diabetes"; "family_history"; "smoking"; "obesity";
   "alcohol_consumption"; "previous_heart_problems"; "medication_use"].

(** [s.astype(str).str.lower().map(gender_map).fillna(0).astype(int)] on the
    objects of an object column. *)
Definition encode_gender (vals : list pyobj) : exn + list Z :=
  astype_int (Num.fillna (Some 0) (map_dict gender_map (map Text.lower (map str vals)))).

(** [s.fillna(s.median()).round().astype(int)] on a float column. *)
Definition coerce_binary (vals : list Num.float64) : exn + list Z :=
  astype_int (Num.round (Num.fillna (Num.median vals) vals)).

(** The gender step on the frame at [df_processed]. *)
Definition gender_step (df_processed : loc) : M unit :=
  names <- get_columns df_processed ;;
  if Text.mem "gender" names then
    sel <- getitem df_processed "gender" ;;
    match sel with
    | ManyColumns _ => raise (AttributeError "dtype")
    | OneColumn (ObjectSeries vals) =>
      encoded <- lift (encode_gender vals) ;;
      setitem df_processed "gender" (Int64Series encoded)
    | OneColumn _ => ret tt
    end
  else ret tt.

(** The body of the loop over [binary_cols]. *)
Definition binary_step (df_processed : loc) (col : string) : M unit :=
  names <- get_columns df_processed ;;
  if Text.mem col names then
    sel <- getitem df_processed col ;;
    match sel with
    | ManyColumns _ => raise (AttributeError "dtype")
    | OneColumn (Float64Series vals) =>
      ints <- lift (coerce_binary vals) ;;
      setitem df_processed col (Int64Series ints)
    | OneColumn _ => ret tt
    end
  else ret tt.

(** The body of the loop over the number columns; only a float column can
    hold a null. *)
Definition fill_step (df_processed : loc) (col : string) : M unit :=
  sel <- getitem df_processed col ;;
  has_null <- lift (truth_isnull_any sel) ;;
  if has_null then
    match sel with
    | OneColumn (Float64Series vals) =>
      setitem df_processed col (Float64Series (Num.fillna (Num.median vals) vals))
    | _ => ret tt
    end
  else ret tt.

(** [HeartAttackModel.preprocess_data]. *)
Definition preprocess_data (df : loc) : M loc :=
  df_processed <- copy df ;;
  names <- get_columns df_processed ;;
  set_columns df_processed (map Text.lower names) ;;
  names <- get_columns df_processed ;;
  df_processed <- drop df_processed (filter (fun col => Text.mem col names) drop_cols) ;;
  gender_step df_processed ;;
  for_each binary_cols (binary_step df_processed) ;;
  numeric_cols <- select_number_columns df_processed ;;
  for_each numeric_cols (fill_step df_processed) ;;
  ret df_processed.

(** [df['id'].values] as a 1-D array for the result frame. *)
Definition id_values (sel : Selection) : exn + Series :=
  match sel with
  | OneColumn s => inr s
  | ManyColumns _ => inl (ValueError "Per-column arrays must each be 1-dimensional")
  end.

(** [HeartAttackModel.predict_batch]. *)
Definition predict_batch (self : HeartAttackModel) (df : loc) : M loc :=
  df_processed <- preprocess_data df ;;
  X <- deref df_processed ;;
  predictions <-
    match predict_proba (model self) with
    | Some proba => probabilities <- lift (proba X) ;; lift (column 1 probabilities)
    | None => lift (predict (model self) X)
    end ;;
  names <- get_columns df ;;
  ids <-
    (if Text.mem "id" names
     then sel <- getitem df "id" ;; lift (id_values sel)
     else n <- len df ;; ret (range n)) ;;
  result <- lift (frame_of_dict [("id", ids); ("prediction", Float64Series predictions)]) ;;
  alloc result.

(** [s.iloc[0]] on the prediction column. *)
Definition iloc0 (sel : Selection) : exn + Num.float64 :=
  match sel with
  | OneColumn (Float64Series (v :: _)) => inr v
  | _ => inl IndexError
  end.

(** [HeartAttackModel.predict_single]. *)
Definition predict_single (self : HeartAttackModel) (df : loc) : M Num.float64 :=
  result_df <- predict_batch self df ;;
  sel <- getitem result_df "prediction" ;;
  lift (iloc0 sel).

End Model.

(** ** app/main.py *)

Module Main.
Import Pandas.
Local Open Scope pandas_scope.

(** The [statistics] dict of the batch response. *)
Record Statistics := mkStatistics {
  mean : Num.float64;
  min : Num.float64;
  max : Num.float64;
  std : option Rdefinitions.R;
  risk_count : nat;
  no_risk_count : nat
}.

(** The dict literal of [predict_from_csv], over the values of
    [predictions_df['prediction']]. *)
Definition statistics (prediction : list Num.float64) : Statistics :=
  {| mean := Pandas.mean prediction;
     min := Pandas.min prediction;
     max := Pandas.max prediction;
     std := Pandas.std 1 prediction;
     risk_count := count_gt (1 # 2) prediction;
     no_risk_count := count_le (1 # 2) prediction |}.

Inductive HTTPException :=
| HTTP503                      (* no model loaded *)
| HTTP400                      (* not a .csv file name *)
| HTTP500 (cause : exn).       (* anything raised while processing *)

Record BatchPredictionResponse := mkResponse {
  processed : nat;
  predictions : DataFrame;
  response_statistics : Statistics
}.

(** [filename.endswith('.csv')]. *)
Definition endswith_csv (filename : string) : bool :=
  let n := String.length filename in
  (4 <=? n)%nat && String.eqb (substring (n - 4) 4 filename) ".csv".

(** [predict_from_csv]; [parsed] is what [pd.read_csv] makes of the upload.
    The writing of the download file is left out. *)
Definition predict_from_csv (model : option Model.HeartAttackModel)
    (filename : string) (parsed : exn + DataFrame)
  : M (HTTPException + BatchPredictionResponse) :=
  match model with
  | None => ret (inl HTTP503)
  | Some m =>
    if negb (endswith_csv filename) then ret (inl HTTP400)
    else
      try_except
        (frame <- lift parsed ;;
         df <- alloc frame ;;
         predictions_df <- Model.predict_batch m df ;;
         result <- deref predictions_df ;;
         sel <- getitem predictions_df "prediction" ;;
         match sel with
         | OneColumn (Float64Series prediction) =>
           ret (inr (mkResponse (index_len result) result (statistics prediction)))
         | _ => raise (Raised "prediction is not a float column")
         end)
        (fun e => ret (inl (HTTP500 e)))
  end.

End Main.

(** ** The normalisation, column by column

    What sections 4.1 and 4.2 of the specification say [preprocess_data] and
    [predict_batch] compute, written as pure functions of the input frame;
    the theorems below relate the code to them. *)

Module Spec.
Import Pandas.

(** Step 1: every label lower-cased. *)
Definition lowered (df : DataFrame) : DataFrame :=
  mkFrame (index_len df) (map (fun c => (Text.lower (fst c), snd c)) (cols df)).

(** Step 2: the columns [unnamed:_0], [id], [income] removed. *)
Definition pruned (df : DataFrame) : DataFrame :=
  without_columns Model.drop_cols (lowered df).

(** Step 3, one cell: the table, and 0 for what it does not map. *)
Definition gender_code (o : pyobj) : Z :=
  match dict_get Model.gender_map (Text.lower (str o)) with
  | Some z => z
  | None => 0%Z
  end.

(** Steps 4 and 5, one cell: a missing value is replaced by the median of
    the column. *)
Definition impute (vals : list Num.float64) (v : Num.float64) : Num.float64 :=
  match v with
  | Some q => Some q
  | None => Num.median vals
  end.

(** Step 4, one cell: imputed, rounded to an integer, stored as [int64]. *)
Definition binary_code (vals : list Num.float64) (v : Num.float64) : Z :=
  match impute vals v with
  | Some q => cast_int64 (Num.round_half_even q)
  | None => 0%Z
  end.

Definition encode (s : Series) : Series :=
  match s with
  | ObjectSeries vals => Int64Series (map gender_code vals)
  | _ => s
  end.

Definition coerce (s : Series) : Series :=
  match s with
  | Float64Series vals => Int64Series (map (binary_code vals) vals)
  | _ => s
  end.

Definition fill (s : Series) : Series :=
  match s with
  | Float64Series vals => Float64Series (map (impute vals) vals)
  | _ => s
  end.

(** Steps 3 to 6 on one labelled column. *)
Definition normalise_column (c : string * Series) : string * Series :=
  let (label, s) := c in
  match s with
  | ObjectSeries _ => if String.eqb label "gender" then (label, encode s) else c
  | Float64Series _ =>
    if Text.mem label Model.binary_cols then (label, coerce s) else (label, fill s)
  | _ => c
  end.

Definition frame_map (g : string * Series -> string * Series) (df : DataFrame) : DataFrame :=
  mkFrame (index_len df) (map g (cols df)).

(** The normalised frame. *)
Definition normalised (df : DataFrame) : DataFrame :=
  frame_map normalise_column (pruned df).

(** [g] applied to the columns labelled [x]. *)
Definition at_label (x : string) (g : Series -> Series) (c : string * Series)
  : string * Series :=
  if String.eqb (fst c) x then (fst c, g (snd c)) else c.

(** No label repeats. *)
Fixpoint distinct (labels : list string) : bool :=
  match labels with
  | [] => true
  | x :: r => negb (Text.mem x r) && distinct r
  end.

(** A float column can be cast to integers after imputation: it has no
    missing value, or it has a value to take the median of. *)
Definition coercible (vals : list Num.float64) : bool :=
  negb (Num.any_null vals) || negb (Nat.eqb (List.length (Num.dropna vals)) 0).

Definition coercible_column (c : string * Series) : bool :=
  match snd c with
  | Float64Series vals => negb (Text.mem (fst c) Model.binary_cols) || coercible vals
  | _ => true
  end.

(** Frames that [preprocess_data] normalises without raising (a sufficient
    condition): after case folding and pruning no label repeats, and no
    float column of the binary set has a missing value and no value. *)
Definition ready (df : DataFrame) : bool :=
  distinct (columns (pruned df)) && forallb coercible_column (cols (pruned df)).

(** The output of the classifier on the feature matrix [X]. *)
Definition scores (m : Model.Artifact) (X : DataFrame) : exn + list Num.float64 :=
  match Model.predict_proba m with
  | Some proba =>
    match proba X with
    | inl e => inl e
    | inr a => Model.column 1 a
    end
  | None => Model.predict m X
  end.

(** The row identifiers: the [id] column of the raw input, else the row
    numbers. *)
Definition identifiers (df : DataFrame) : exn + Series :=
  if Text.mem "id" (columns df) then
    match select "id" df with
    | inl e => inl e
    | inr sel => Model.id_values sel
    end
  else inr (range (index_len df)).

(** The sum of the squared deviations of [l] from its mean. *)
Definition squared_deviations (l : list Q) : Q :=
  let m := total l / count l in
  total (map (fun x => (x - m) * (x - m)) l).

(** The population standard deviation (ddof=0): divisor [n]. *)
Definition population_std (l : list Q) : Rdefinitions.R :=
  R_sqrt.sqrt (Rdefinitions.Q2R (squared_deviations l / count l)).

(** The sample standard deviation (ddof=1): divisor [n - 1]. *)
Definition sample_std (l : list Q) : Rdefinitions.R :=
  R_sqrt.sqrt (Rdefinitions.Q2R (squared_deviations l / (count l - 1))).

(** The number of values of [l] strictly above [x], and the number of the
    others. *)
Definition above (x : Q) (l : list Q) : nat :=
  List.length (filter (fun p => if Qlt_le_dec x p then true else false) l).

Definition not_above (x : Q) (l : list Q) : nat :=
  List.length (filter (fun p => if Qlt_le_dec x p then false else true) l).

(** A median of the values [l]: the middle of an ascending arrangement. *)
Definition is_median (l : list Q) (m : Q) : Prop :=
  exists s : list Q, Permutation s l /\ Sorted Qle s /\ Num.middle s = Some m.



(** The result frame of [predict_batch] for the raw input [df]: the
    classifier is given the normalised frame; the identifiers come from the
    raw one. *)
Definition predict_frame (m : Model.Artifact) (df : DataFrame) : exn + DataFrame :=
  match scores m (normalised df) with
  | inl e => inl e
  | inr predictions =>
    match identifiers df with
    | inl e => inl e
    | inr ids => frame_of_dict [("id", ids); ("prediction", Float64Series predictions)]
    end
  end.

End Spec.

(** ** Scenarios of section 8 of the specification *)

Module Scenario.
Import Pandas.

(** One patient: [{age:55, cholesterol:240, heart_rate:72, gender:"male",
    diabetes:1.0}]. *)
Definition patient : DataFrame :=
  mkFrame 1
    [("age", Int64Series [55%Z]); ("cholesterol", Int64Series [240%Z]);
     ("heart_rate", Int64Series [72%Z]); ("gender", ObjectSeries [PyStr "male"]);
     ("diabetes", Float64Series [Some 1])].

(** Four rows with [diabetes] values [1.0, NaN, 0.0, 1.0]. *)
Definition diabetes_batch : DataFrame :=
  mkFrame 4
    [("age", Int64Series [55%Z; 61%Z; 47%Z; 70%Z]);
     ("diabetes", Float64Series [Some 1; None; Some 0; Some 1])].

(** An input with the columns [Unnamed:_0] and [ID]. *)
Definition exported : DataFrame :=
  mkFrame 2
    [("Unnamed:_0", Int64Series [0%Z; 1%Z]); ("ID", Int64Series [17%Z; 42%Z]);
     ("Age", Int64Series [55%Z; 61%Z])].

(** An input with an [id] column in lower case. *)
Definition identified : DataFrame :=
  mkFrame 2
    [("id", Int64Series [17%Z; 42%Z]); ("Age", Int64Series [55%Z; 61%Z])].

(** An upload with a header and no row. *)
Definition empty_batch : DataFrame :=
  mkFrame 0 [("age", ObjectSeries []); ("gender", ObjectSeries [])].

(** The probabilities [0.2, 0.6, 0.9, 0.4]. *)
Definition probabilities : list Q := [2 # 10; 6 # 10; 9 # 10; 4 # 10].

(** A classifier with probability output: 0.3 and 0.7 for every row. *)
Definition constant_classifier : Model.Artifact :=
  Model.mkArtifact "Pipeline" (Some 2%nat) (Some ["age"]) None true
    (Some (fun X =>
             inr (Model.mkArray2 2
                    (map (fun _ => [Some (3 # 10); Some (7 # 10)])
                         (seq 0 (index_len X))))))
    (fun X => inr (map (fun _ => Some 1) (seq 0 (index_len X)))).

(** A classifier without probability output, whose decision output is a
    score: 7 for every row. *)
Definition scoring_classifier : Model.Artifact :=
  Model.mkArtifact "LinearSVC" None (Some ["age"]) None true None
    (fun X => inr (map (fun _ => Some 7) (seq 0 (index_len X)))).

(** A bare estimator fitted on an array: no feature names, not a pipeline. *)
Definition bare_estimator : Model.Artifact :=
  Model.mkArtifact "LogisticRegression" None None None true
    (Some (fun X => inr (Model.mkArray2 2 [])))
    (fun X => inr []).

End Scenario.

(** ** Footprint of a computation

    [grows_from base m post]: run in a store that extends [base], the
    computation [m] leaves the objects of [base] as they are (it may add
    objects, and change the ones added), and what it returns satisfies
    [post]. *)

Module Footprint.
Import Pandas.

Definition grows_from (base : store) {A} (m : M A) (post : A -> Prop) : Prop :=
  forall ext : store,
    exists ext' : store,
      snd (m (base ++ ext)%list) = (base ++ ext')%list
      /\ forall a, fst (m (base ++ ext)%list) = inr a -> post a.

(** A reference to an object that is not one of [base]. *)
Definition fresh (base : store) (l : loc) : Prop := (List.length base <= l)%nat.

End Footprint.

(** ** app/main.py: the other endpoints *)

Module Endpoints.
Import Pandas.
Local Open Scope pandas_scope.

(** A value of the JSON object posted to [/predict/single]: text, a
    number, a boolean or null. *)
Inductive json :=
| JStr (s : string)
| JInt (z : Z)
| JFloat (v : Num.float64)
| JBool (b : bool)
| JNull.

(** The one-cell column pandas infers for a value. *)
Definition cell (v : json) : Series :=
  match v with
  | JStr s => ObjectSeries [PyStr s]
  | JInt z => Int64Series [z]
  | JFloat x => Float64Series [x]
  | JBool b => BoolSeries [b]
  | JNull => ObjectSeries [PyNone]
  end.

(** [pd.DataFrame([data])]: one row, one column per key, in key order. The
    keys of [data] are distinct, as those of a dict are. *)
Definition frame_of_record (data : list (string * json)) : DataFrame :=
  mkFrame 1 (map (fun kv => (fst kv, cell (snd kv))) data).

(** What an endpoint ends with when it does not return: an [HTTPException]
    it raised itself, or an exception nothing handled. *)
Inductive failure :=
| HTTPException (status_code : nat) (cause : option exn)
| Unhandled (e : exn).

Record PredictionResponse := mkPrediction {
  patient_id : string;
  prediction : Num.float64;
  risk_level : string;
  confidence : Num.float64
}.

(** [prediction > 0.5]; false for NaN. *)
Definition above_half (prediction : Num.float64) : bool :=
  match prediction with
  | Some p => negb (Qle_bool p (1 # 2))
  | None => false
  end.

(** [abs(prediction - 0.5) * 2]. *)
Definition confidence_of (prediction : Num.float64) : Num.float64 :=
  option_map (fun p => Qabs (p - (1 # 2)) * 2) prediction.

(** The endpoint [predict_single] of main.py. [as_str] is the validation of
    the [patient_id] field by the response schema, which declares it [str]. *)
Definition predict_single (model : option Model.HeartAttackModel)
    (as_str : json -> exn + string) (data : list (string * json))
  : M (failure + PredictionResponse) :=
  match model with
  | None => ret (inl (HTTPException 503 None))
  | Some m =>
    try_except
      (df <- alloc (frame_of_record data) ;;
       prediction <- Model.predict_single m df ;;
       id <- lift (as_str (match dict_get data "id" with
                           | Some v => v
                           | None => JStr "unknown"
                           end)) ;;
       ret (inr (mkPrediction id prediction
                   (if above_half prediction then "Высокий" else "Низкий")
                   (confidence_of prediction))))
      (fun e => ret (inl (HTTPException 400 (Some e))))
  end.




End Endpoints.

(** ** Shapes of frames *)

Module Shape.
Import Pandas.

(** Every column has one cell per row of the index. *)
Definition well_formed (df : DataFrame) : bool :=
  forallb (fun c => Nat.eqb (size (snd c)) (index_len df)) (cols df).

(** A capital letter of ASCII. *)
Definition capital (c : ascii) : bool :=
  let n := nat_of_ascii c in (65 <=? n)%nat && (n <=? 90)%nat.

Fixpoint no_capital (s : string) : bool :=
  match s with
  | EmptyString => true
  | String c r => negb (capital c) && no_capital r
  end.

(** No label has a capital letter. *)
Definition lower_case (labels : list string) : bool := forallb no_capital labels.

End Shape.

(** ** A pipeline artifact *)

Module Fixture.


(** Six patients whose [Gender] column is text in mixed case, with an
    unknown value, [None] and NaN. *)
Definition genders : Pandas.DataFrame :=
  Pandas.mkFrame 6
    [("Age", Pandas.Int64Series [55; 61; 47; 70; 38; 66]%Z);
     ("Gender",
      Pandas.ObjectSeries
        [Pandas.PyStr "MALE"; Pandas.PyStr "Female"; Pandas.PyStr "0";
         Pandas.PyStr "unknown"; Pandas.PyNone; Pandas.PyNaN])].



End Fixture.

(** * Properties *)

Local Open Scope list_scope.

(** ** Labels *)

Lemma mem_In (x : string) (xs : list string) : Text.mem x xs = true <-> In x xs.
Proof.
  induction xs as [|y ys IH]; simpl.
  - split; [discriminate | tauto].
  - rewrite orb_true_iff, IH, String.eqb_eq. split; intros [H|H]; auto.
Qed.

Lemma mem_false_In (x : string) (xs : list string) : Text.mem x xs = false <-> ~ In x xs.
Proof.
  rewrite <- mem_In. destruct (Text.mem x xs); split; congruence.
Qed.

Lemma distinct_NoDup (labels : list string) : Spec.distinct labels = true <-> NoDup labels.
Proof.
  induction labels as [|x r IH]; simpl.
  - split; [constructor | reflexivity].
  - rewrite andb_true_iff, negb_true_iff, mem_false_In, IH.
    split; [intros [H1 H2]; now constructor | inversion 1; auto].
Qed.

(** ** The store *)

Section Store.
Import Pandas.
Local Open Scope nat_scope.

Lemma update_length (st : store) (l : loc) (df : DataFrame) :
  List.length (update st l df) = List.length st.
Proof.
  revert l; induction st as [|x r IH]; intros [|l]; simpl; auto.
Qed.

Lemma update_app_l (base ext : store) (l : loc) (df : DataFrame) :
  (List.length base <= l)%nat ->
  update (base ++ ext) l df = base ++ update ext (l - List.length base) df.
Proof.
  revert l; induction base as [|x r IH]; intros l H; simpl in *.
  - now rewrite Nat.sub_0_r.
  - destruct l as [|l]; [lia|]. simpl. f_equal. apply IH. lia.
Qed.

Lemma nth_error_update (st : store) (l : loc) (df : DataFrame) :
  (l < List.length st)%nat -> nth_error (update st l df) l = Some df.
Proof.
  revert l; induction st as [|x r IH]; intros [|l] H; simpl in *; try lia; auto.
  apply IH. lia.
Qed.

Lemma update_update (st : store) (l : loc) (a b : DataFrame) :
  update (update st l a) l b = update st l b.
Proof.
  revert l; induction st as [|x r IH]; intros [|l]; simpl; auto.
  now rewrite IH.
Qed.

Lemma update_same (st : store) (l : loc) (df : DataFrame) :
  nth_error st l = Some df -> update st l df = st.
Proof.
  revert l; induction st as [|x r IH]; intros [|l] H; simpl in *; try discriminate.
  - congruence.
  - f_equal. now apply IH.
Qed.

Lemma nth_error_Some_length (st : store) (l : loc) (df : DataFrame) :
  nth_error st l = Some df -> (l < List.length st)%nat.
Proof.
  intros H. apply nth_error_Some. congruence.
Qed.

End Store.

(** ** Footprints *)

Section Footprints.
Import Pandas Footprint.
Local Open Scope nat_scope.
Variable base : store.

Lemma grows_ret {A} (a : A) (post : A -> Prop) :
  post a -> grows_from base (ret a) post.
Proof.
  intros H ext. exists ext. split; [reflexivity|].
  simpl. intros a' E. now inversion E; subst.
Qed.

Lemma grows_raise {A} (e : exn) (post : A -> Prop) :
  grows_from base (raise e) post.
Proof.
  intros ext. exists ext. split; [reflexivity|]. simpl. discriminate.
Qed.

Lemma grows_lift {A} (r : exn + A) :
  grows_from base (lift r) (fun _ => True).
Proof.
  destruct r; [apply grows_raise | now apply grows_ret].
Qed.

Lemma grows_bind {A B} (m : M A) (k : A -> M B) (P : A -> Prop) (Q : B -> Prop) :
  grows_from base m P ->
  (forall a, P a -> grows_from base (k a) Q) ->
  grows_from base (bind m k) Q.
Proof.
  intros Hm Hk ext. unfold bind.
  destruct (Hm ext) as (ext1 & E1 & P1).
  destruct (m (base ++ ext)) as [[e|a] st1]; simpl in *; subst st1.
  - exists ext1. split; [reflexivity | discriminate].
  - apply (Hk a (P1 a eq_refl) ext1).
Qed.

Lemma grows_weaken {A} (m : M A) (P Q : A -> Prop) :
  grows_from base m P -> (forall a, P a -> Q a) -> grows_from base m Q.
Proof.
  intros Hm HPQ ext. destruct (Hm ext) as (ext1 & E1 & P1).
  exists ext1. split; auto.
Qed.

Lemma grows_deref (l : loc) : grows_from base (deref l) (fun _ => True).
Proof.
  intros ext. exists ext. unfold deref.
  destruct (nth_error (base ++ ext) l); simpl; auto.
Qed.

Lemma grows_alloc (df : DataFrame) : grows_from base (alloc df) (fresh base).
Proof.
  intros ext. exists (ext ++ [df]). unfold alloc, fresh. simpl. split.
  - now rewrite app_assoc.
  - intros a E. inversion E. rewrite length_app. lia.
Qed.

Lemma grows_assign (l : loc) (df : DataFrame) :
  fresh base l -> grows_from base (assign l df) (fun _ => True).
Proof.
  intros H ext. exists (update ext (l - List.length base) df).
  unfold assign. simpl. split; [now apply update_app_l | auto].
Qed.

Lemma grows_try_except {A} (m : M A) (h : exn -> M A) (P : A -> Prop) :
  grows_from base m P ->
  (forall e, grows_from base (h e) P) ->
  grows_from base (try_except m h) P.
Proof.
  intros Hm Hh ext. unfold try_except.
  destruct (Hm ext) as (ext1 & E1 & P1).
  destruct (m (base ++ ext)) as [[e|a] st1]; simpl in *; subst st1.
  - apply (Hh e ext1).
  - exists ext1. split; [reflexivity|]. intros a' E. inversion E; subst. now apply P1.
Qed.

Lemma grows_for_each {A} (xs : list A) (body : A -> M unit) :
  (forall x, grows_from base (body x) (fun _ => True)) ->
  grows_from base (for_each xs body) (fun _ => True).
Proof.
  intros Hb. induction xs as [|x r IH]; simpl.
  - now apply grows_ret.
  - eapply grows_bind; [apply Hb | intros; apply IH].
Qed.

End Footprints.

Create HintDb footprint.
#[local] Hint Resolve grows_deref grows_alloc grows_lift grows_raise : footprint.

(** Splits a computation at its binds and closes the leaves. *)
Ltac footprint :=
  repeat first
    [ solve [eauto with footprint]
    | apply grows_ret; solve [auto]
    | apply grows_assign; solve [auto]
    | eapply grows_bind; [solve [eauto with footprint] | intros ? ?]
    | eapply grows_weaken; [solve [eauto with footprint] | solve [auto]]
    | match goal with
      | |- Footprint.grows_from _ (if ?b then _ else _) _ => destruct b
      | |- Footprint.grows_from _ (match ?x with _ => _ end) _ => destruct x
      end ].

Section FootprintsOfPandas.
Import Pandas Footprint.
Local Open Scope nat_scope.
Variable base : store.

Lemma grows_copy (l : loc) : grows_from base (copy l) (fresh base).
Proof. unfold copy. footprint. Qed.

Lemma grows_get_columns (l : loc) : grows_from base (get_columns l) (fun _ => True).
Proof. unfold get_columns. footprint. Qed.

Lemma grows_set_columns (l : loc) (labels : list string) :
  fresh base l -> grows_from base (set_columns l labels) (fun _ => True).
Proof. intros H. unfold set_columns. footprint. Qed.

Lemma grows_drop (l : loc) (labels : list string) :
  grows_from base (drop l labels) (fresh base).
Proof. unfold drop. footprint. Qed.

Lemma grows_getitem (l : loc) (label : string) :
  grows_from base (getitem l label) (fun _ => True).
Proof. unfold getitem. footprint. Qed.

Lemma grows_setitem (l : loc) (label : string) (s : Series) :
  fresh base l -> grows_from base (setitem l label s) (fun _ => True).
Proof. intros H. unfold setitem. footprint. Qed.

Lemma grows_select_number_columns (l : loc) :
  grows_from base (select_number_columns l) (fun _ => True).
Proof. unfold select_number_columns. footprint. Qed.

Lemma grows_len (l : loc) : grows_from base (len l) (fun _ => True).
Proof. unfold len. footprint. Qed.

End FootprintsOfPandas.

#[local] Hint Resolve grows_copy grows_get_columns grows_set_columns grows_drop
  grows_getitem grows_setitem grows_select_number_columns grows_len : footprint.

Section FootprintsOfModel.
Import Pandas Footprint Model.
Local Open Scope nat_scope.
Variable base : store.

Lemma grows_gender_step (l : loc) :
  fresh base l -> grows_from base (gender_step l) (fun _ => True).
Proof. intros H. unfold gender_step. footprint. Qed.

Lemma grows_binary_step (l : loc) (col : string) :
  fresh base l -> grows_from base (binary_step l col) (fun _ => True).
Proof. intros H. unfold binary_step. footprint. Qed.

Lemma grows_fill_step (l : loc) (col : string) :
  fresh base l -> grows_from base (fill_step l col) (fun _ => True).
Proof. intros H. unfold fill_step. footprint. Qed.

Lemma grows_preprocess_data (df : loc) :
  grows_from base (preprocess_data df) (fresh base).
Proof.
  unfold preprocess_data.
  eapply grows_bind; [apply grows_copy | intros p Hp].
  eapply grows_bind; [apply grows_get_columns | intros names _].
  eapply grows_bind; [now apply grows_set_columns | intros _ _].
  eapply grows_bind; [apply grows_get_columns | intros names' _].
  eapply grows_bind; [apply grows_drop | intros q Hq].
  eapply grows_bind; [now apply grows_gender_step | intros _ _].
  eapply grows_bind;
    [apply grows_for_each; intros; now apply grows_binary_step | intros _ _].
  eapply grows_bind; [apply grows_select_number_columns | intros numeric_cols _].
  eapply grows_bind;
    [apply grows_for_each; intros; now apply grows_fill_step | intros _ _].
  now apply grows_ret.
Qed.

Lemma grows_predict_batch (self : HeartAttackModel) (df : loc) :
  grows_from base (predict_batch self df) (fresh base).
Proof.
  unfold predict_batch.
  eapply grows_bind; [apply grows_preprocess_data | intros p Hp].
  eapply grows_bind; [apply grows_deref | intros X _].
  eapply grows_bind with (P := fun _ => True); [footprint | intros predictions _].
  eapply grows_bind; [apply grows_get_columns | intros names _].
  eapply grows_bind with (P := fun _ => True); [footprint | intros ids _].
  eapply grows_bind; [apply grows_lift | intros result _].
  apply grows_alloc.
Qed.

Lemma grows_predict_single (self : HeartAttackModel) (df : loc) :
  grows_from base (predict_single self df) (fun _ => True).
Proof.
  unfold predict_single.
  eapply grows_bind; [apply grows_predict_batch | intros r _].
  footprint.
Qed.

End FootprintsOfModel.

(** ** Cells and columns *)

Section Cells.
Import Pandas.

Lemma int_of_float_Z (z : Z) :
  int_of_float (Some (inject_Z z)) = inr (cast_int64 z).
Proof.
  unfold int_of_float. destruct (Qle_bool 0 (inject_Z z)).
  - now rewrite Qfloor_Z.
  - now rewrite Qceiling_Z.
Qed.



Lemma gender_map_codes (k : string) (z : Z) :
  dict_get Model.gender_map k = Some z -> z = 0%Z \/ z = 1%Z.
Proof.
  unfold Model.gender_map. cbn [dict_get].
  repeat (destruct (String.eqb k _); [intros E; injection E as <-; auto|]).
  discriminate.
Qed.

Lemma encode_gender_spec (vals : list pyobj) :
  Model.encode_gender vals = inr (map Spec.gender_code vals).
Proof.
  unfold Model.encode_gender, map_dict, Num.fillna.
  induction vals as [|o r IH]; [reflexivity|].
  cbn [map astype_int]. rewrite IH. unfold Spec.gender_code.
  destruct (dict_get Model.gender_map (Text.lower (str o))) as [z|] eqn:E;
    cbn [option_map].
  - rewrite int_of_float_Z.
    now destruct (gender_map_codes _ _ E) as [-> | ->].
  - reflexivity.
Qed.

Lemma astype_int_round_fillna (m : Num.float64) (vs : list Num.float64) :
  (m = None -> Num.any_null vs = false) ->
  astype_int (Num.round (Num.fillna m vs))
  = inr (map (fun v =>
               match match v with Some q => Some q | None => m end with
               | Some q => cast_int64 (Num.round_half_even q)
               | None => 0%Z
               end) vs).
Proof.
  unfold Num.round, Num.fillna.
  induction vs as [|v r IH]; intros H; [reflexivity|].
  cbn [map astype_int].
  assert (Hr : m = None -> Num.any_null r = false).
  { intros E. specialize (H E). simpl in H. now apply orb_false_elim in H. }
  rewrite (IH Hr).
  destruct v as [q|]; cbn [option_map].
  - now rewrite int_of_float_Z.
  - destruct m as [q|]; cbn [option_map].
    + now rewrite int_of_float_Z.
    + specialize (H eq_refl). discriminate.
Qed.

Lemma insert_length (x : Q) (l : list Q) :
  List.length (Num.insert x l) = S (List.length l).
Proof.
  induction l as [|y r IH]; simpl; [reflexivity|].
  destruct (Qle_bool x y); simpl; auto.
Qed.

Lemma sort_length (l : list Q) : List.length (Num.sort l) = List.length l.
Proof.
  induction l as [|x r IH]; simpl; [reflexivity|].
  now rewrite insert_length, IH.
Qed.

Lemma median_some (vals : list Num.float64) :
  Nat.eqb (List.length (Num.dropna vals)) 0 = false -> Num.median vals <> None.
Proof.
  unfold Num.median, Num.middle. rewrite sort_length.
  destruct (List.length (Num.dropna vals)); [discriminate|].
  intros _. destruct (Nat.even (S n)); discriminate.
Qed.

Lemma coerce_binary_spec (vals : list Num.float64) :
  Spec.coercible vals = true ->
  Model.coerce_binary vals = inr (map (Spec.binary_code vals) vals).
Proof.
  intros H. unfold Model.coerce_binary.
  rewrite astype_int_round_fillna; [reflexivity|].
  intros E. unfold Spec.coercible in H.
  apply orb_true_iff in H. destruct H as [H|H].
  - now apply negb_true_iff in H.
  - apply negb_true_iff in H. now apply median_some in H.
Qed.

Lemma impute_no_null (m : list Num.float64) (vals : list Num.float64) :
  Num.any_null vals = false -> map (Spec.impute m) vals = vals.
Proof.
  induction vals as [|v r IH]; simpl; [reflexivity|].
  intros H. apply orb_false_elim in H. destruct H as [Hv Hr].
  rewrite (IH Hr). now destruct v.
Qed.

Lemma fillna_impute (vals : list Num.float64) :
  Num.fillna (Num.median vals) vals = map (Spec.impute vals) vals.
Proof. reflexivity. Qed.

End Cells.

(** ** Frames whose labels are distinct *)

Section Columns.
Import Pandas Spec.

Lemma frame_eta (f : DataFrame) : mkFrame (index_len f) (cols f) = f.
Proof. now destruct f. Qed.

Lemma frame_map_id (g : string * Series -> string * Series) (f : DataFrame) :
  (forall c, In c (cols f) -> g c = c) -> frame_map g f = f.
Proof.
  intros H. unfold frame_map. rewrite <- (frame_eta f) at 3. f_equal.
  rewrite <- (map_id (cols f)) at 2. now apply map_ext_in.
Qed.

Lemma columns_at_label (x : string) (g : Series -> Series) (f : DataFrame) :
  columns (frame_map (at_label x g) f) = columns f.
Proof.
  unfold columns, frame_map. simpl. rewrite map_map. apply map_ext.
  intros c. unfold at_label. now destruct (String.eqb (fst c) x).
Qed.

Lemma mem_columns (x : string) (f : DataFrame) :
  Text.mem x (columns f) = true -> exists s, In (x, s) (cols f).
Proof.
  rewrite mem_In. unfold columns. rewrite in_map_iff.
  intros ([y s] & E & H). simpl in E. subst y. now exists s.
Qed.

Lemma label_determines (cs : list (string * Series)) (x : string) (s s' : Series) :
  NoDup (map fst cs) -> In (x, s) cs -> In (x, s') cs -> s = s'.
Proof.
  induction cs as [|c r IH]; simpl; [tauto|].
  inversion 1 as [|? ? Hn Hr]; subst.
  intros [E|H1] [E'|H2]; subst.
  - congruence.
  - exfalso. apply Hn. apply (in_map fst) in H2. exact H2.
  - exfalso. apply Hn. apply (in_map fst) in H1. exact H1.
  - now apply IH.
Qed.

Lemma filter_none {A} (p : A -> bool) (l : list A) :
  (forall a, In a l -> p a = false) -> filter p l = [].
Proof.
  induction l as [|a r IH]; simpl; intros H; [reflexivity|].
  rewrite (H a) by auto. apply IH. auto.
Qed.

Lemma labelled_unique (f : DataFrame) (x : string) (s : Series) :
  NoDup (columns f) -> In (x, s) (cols f) -> labelled x f = [s].
Proof.
  unfold labelled, columns. induction (cols f) as [|c r IH]; simpl; [tauto|].
  inversion 1 as [|? ? Hn Hr]; subst. intros [E|H1].
  - subst c. simpl. rewrite String.eqb_refl. simpl. f_equal.
    replace (filter (fun c => String.eqb (fst c) x) r) with (@nil (string * Series));
      [reflexivity|].
    symmetry. apply filter_none.
    intros c Hc. apply String.eqb_neq.
    intros E. apply Hn. simpl. rewrite <- E. now apply in_map.
  - destruct (String.eqb (fst c) x) eqn:E.
    + exfalso. apply String.eqb_eq in E. apply Hn. rewrite E.
      apply (in_map fst) in H1. exact H1.
    + now apply IH.
Qed.

Lemma select_unique (f : DataFrame) (x : string) (s : Series) :
  NoDup (columns f) -> In (x, s) (cols f) -> select x f = inr (OneColumn s).
Proof.
  intros Hn Hin. unfold select. now rewrite (labelled_unique f x s).
Qed.

Lemma with_column_at (f : DataFrame) (x : string) (s : Series) (g : Series -> Series) :
  NoDup (columns f) -> In (x, s) (cols f) ->
  with_column x (g s) f = frame_map (at_label x g) f.
Proof.
  intros Hn Hin. unfold with_column.
  assert (Hm : Text.mem x (columns f) = true).
  { apply mem_In. apply (in_map fst) in Hin. exact Hin. }
  rewrite Hm. unfold frame_map. f_equal. apply map_ext_in.
  intros [y s'] Hc. unfold at_label. simpl.
  destruct (String.eqb y x) eqn:E; [|reflexivity].
  apply String.eqb_eq in E. subst y.
  now rewrite (label_determines (cols f) x s s').
Qed.

Lemma at_label_absent (f : DataFrame) (x : string) (g : Series -> Series) :
  Text.mem x (columns f) = false -> frame_map (at_label x g) f = f.
Proof.
  intros H. apply frame_map_id. intros c Hc. unfold at_label.
  destruct (String.eqb (fst c) x) eqn:E; [|reflexivity].
  apply String.eqb_eq in E. apply mem_false_In in H. exfalso. apply H.
  rewrite <- E. now apply in_map.
Qed.

Lemma at_label_fixed (f : DataFrame) (x : string) (s : Series) (g : Series -> Series) :
  NoDup (columns f) -> In (x, s) (cols f) -> g s = s ->
  frame_map (at_label x g) f = f.
Proof.
  intros Hn Hin Hg. apply frame_map_id. intros [y s'] Hc. unfold at_label. simpl.
  destruct (String.eqb y x) eqn:E; [|reflexivity].
  apply String.eqb_eq in E. subst y.
  rewrite <- (label_determines (cols f) x s s') by assumption. now rewrite Hg.
Qed.

End Columns.

(** ** Running the code on a frame of the store *)

Section Runs.
Import Pandas Spec Model.
Local Open Scope nat_scope.

Variables (st : store) (p : loc) (f : DataFrame).
Hypothesis at_p : nth_error st p = Some f.

Lemma run_bind {A B} (m : M A) (k : A -> M B) (a : A) (st0 st1 : store) :
  m st0 = (inr a, st1) -> bind m k st0 = k a st1.
Proof. intros E. unfold bind. now rewrite E. Qed.

Lemma run_deref : deref p st = (inr f, st).
Proof. unfold deref. now rewrite at_p. Qed.

Lemma run_get_columns : get_columns p st = (inr (columns f), st).
Proof. unfold get_columns. now rewrite (run_bind _ _ _ _ _ run_deref). Qed.

Lemma run_getitem (x : string) (sel : Selection) :
  select x f = inr sel -> getitem p x st = (inr sel, st).
Proof.
  intros E. unfold getitem. rewrite (run_bind _ _ _ _ _ run_deref). now rewrite E.
Qed.

Lemma run_setitem (x : string) (s : Series) :
  setitem p x s st = (inr tt, update st p (with_column x s f)).
Proof. unfold setitem. now rewrite (run_bind _ _ _ _ _ run_deref). Qed.

Lemma run_select_number_columns :
  select_number_columns p st = (inr (number_columns f), st).
Proof. unfold select_number_columns. now rewrite (run_bind _ _ _ _ _ run_deref). Qed.

Lemma unchanged (g : string * Series -> string * Series) :
  frame_map g f = f -> (inr tt, st) = (@inr exn unit tt, update st p (frame_map g f)).
Proof. intros E. rewrite E. now rewrite update_same. Qed.

Hypothesis distinct_labels : NoDup (columns f).

Lemma gender_step_run :
  gender_step p st = (inr tt, update st p (frame_map (at_label "gender" encode) f)).
Proof.
  unfold gender_step. rewrite (run_bind _ _ _ _ _ run_get_columns).
  destruct (Text.mem "gender" (columns f)) eqn:Hm.
  - destruct (mem_columns _ _ Hm) as [s Hin].
    rewrite (run_bind _ _ _ _ _ (run_getitem _ _ (select_unique _ _ _ distinct_labels Hin))).
    destruct s as [vals|vals|vals|vals];
      try (apply unchanged; now apply (at_label_fixed f _ _ encode distinct_labels Hin)).
    rewrite encode_gender_spec. cbn [lift]. unfold ret at 1.
    erewrite run_bind by reflexivity. rewrite run_setitem.
    now rewrite <- (with_column_at f _ (ObjectSeries vals) encode distinct_labels Hin).
  - apply unchanged. now apply at_label_absent.
Qed.

Lemma binary_step_run (x : string) :
  In x binary_cols ->
  forallb coercible_column (cols f) = true ->
  binary_step p x st = (inr tt, update st p (frame_map (at_label x coerce) f)).
Proof.
  intros Hx Hc. unfold binary_step. rewrite (run_bind _ _ _ _ _ run_get_columns).
  destruct (Text.mem x (columns f)) eqn:Hm.
  - destruct (mem_columns _ _ Hm) as [s Hin].
    rewrite (run_bind _ _ _ _ _ (run_getitem _ _ (select_unique _ _ _ distinct_labels Hin))).
    destruct s as [vals|vals|vals|vals];
      try (apply unchanged; now apply (at_label_fixed f _ _ coerce distinct_labels Hin)).
    assert (Hv : coercible vals = true).
    { rewrite forallb_forall in Hc. specialize (Hc _ Hin).
      unfold coercible_column in Hc. cbn [fst snd] in Hc.
      apply mem_In in Hx. now rewrite Hx in Hc. }
    rewrite (coerce_binary_spec _ Hv). cbn [lift]. unfold ret at 1.
    erewrite run_bind by reflexivity. rewrite run_setitem.
    now rewrite <- (with_column_at f _ (Float64Series vals) coerce distinct_labels Hin).
  - apply unchanged. now apply at_label_absent.
Qed.

Lemma fill_step_run (x : string) :
  In x (columns f) ->
  fill_step p x st = (inr tt, update st p (frame_map (at_label x fill) f)).
Proof.
  intros Hx. apply mem_In in Hx. destruct (mem_columns _ _ Hx) as [s Hin].
  unfold fill_step.
  rewrite (run_bind _ _ _ _ _ (run_getitem _ _ (select_unique _ _ _ distinct_labels Hin))).
  cbn [truth_isnull_any lift]. unfold ret at 1. erewrite run_bind by reflexivity.
  destruct (isnull_any s) eqn:Hnull.
  - destruct s as [vals|vals|vals|vals];
      try (apply unchanged; now apply (at_label_fixed f _ _ fill distinct_labels Hin)).
    rewrite run_setitem. rewrite fillna_impute.
    now rewrite <- (with_column_at f _ (Float64Series vals) fill distinct_labels Hin).
  - apply unchanged. apply (at_label_fixed f _ _ fill distinct_labels Hin).
    destruct s as [vals|vals|vals|vals]; try reflexivity.
    simpl in *. now rewrite impute_no_null.
Qed.

End Runs.

(** ** The loops *)

Section Loops.
Import Pandas Spec Model.
Local Open Scope nat_scope.

Lemma for_each_run (p : loc) (g : Series -> Series) (body : string -> M unit)
    (P : DataFrame -> Prop) (xs : list string) :
  (forall x f, P f -> P (frame_map (at_label x g) f)) ->
  forall (st : store) (f : DataFrame),
  (forall x st' f', In x xs -> nth_error st' p = Some f' -> P f' ->
     body x st' = (inr tt, update st' p (frame_map (at_label x g) f'))) ->
  nth_error st p = Some f -> P f ->
  for_each xs body st
  = (inr tt, update st p (fold_left (fun f x => frame_map (at_label x g) f) xs f)).
Proof.
  intros Hpres. induction xs as [|x r IH]; intros st f Hbody Hat HP; simpl.
  - unfold ret. now rewrite update_same.
  - erewrite run_bind by (apply Hbody; [now left | eassumption | assumption]).
    rewrite (IH _ (frame_map (at_label x g) f)).
    + now rewrite update_update.
    + intros y st' f' Hy. apply Hbody. now right.
    + apply nth_error_update. now apply nth_error_Some_length in Hat.
    + now apply Hpres.
Qed.

Lemma fold_frame_map (g : Series -> Series) (xs : list string) (f : DataFrame) :
  fold_left (fun f x => frame_map (at_label x g) f) xs f
  = frame_map (fun c => fold_left (fun c x => at_label x g c) xs c) f.
Proof.
  revert f. induction xs as [|x r IH]; intros f; simpl.
  - symmetry. now apply frame_map_id.
  - rewrite IH. unfold frame_map. simpl. now rewrite map_map.
Qed.

Lemma fold_at_label (g : Series -> Series) (xs : list string) (c : string * Series) :
  NoDup xs ->
  fold_left (fun c x => at_label x g c) xs c
  = if Text.mem (fst c) xs then (fst c, g (snd c)) else c.
Proof.
  intros Hn. revert c. induction Hn as [|x r Hx Hr IH]; intros c; simpl.
  - reflexivity.
  - rewrite IH. unfold at_label. destruct (String.eqb (fst c) x) eqn:E; simpl.
    + apply String.eqb_eq in E. subst x.
      apply mem_false_In in Hx. now rewrite Hx.
    + reflexivity.
Qed.

(** The frame after a loop that applies [g] to the columns labelled in [xs]. *)
Lemma loop_frame (g : Series -> Series) (xs : list string) (f : DataFrame) :
  NoDup xs ->
  fold_left (fun f x => frame_map (at_label x g) f) xs f
  = frame_map (fun c => if Text.mem (fst c) xs then (fst c, g (snd c)) else c) f.
Proof.
  intros Hn. rewrite fold_frame_map. unfold frame_map. f_equal.
  apply map_ext. intros c. now apply fold_at_label.
Qed.

Lemma columns_frame_map (h : string * Series -> string * Series) (f : DataFrame) :
  (forall c, fst (h c) = fst c) -> columns (frame_map h f) = columns f.
Proof.
  intros H. unfold columns, frame_map. simpl. rewrite map_map. now apply map_ext.
Qed.

Lemma fst_at_label (x : string) (g : Series -> Series) (c : string * Series) :
  fst (at_label x g c) = fst c.
Proof. unfold at_label. now destruct (String.eqb (fst c) x). Qed.

(** A step that makes no new float column keeps the frame castable. *)
Lemma coercible_at_label (x : string) (g : Series -> Series) (f : DataFrame) :
  (forall s vals, g s = Float64Series vals -> s = Float64Series vals) ->
  forallb coercible_column (cols f) = true ->
  forallb coercible_column (cols (frame_map (at_label x g) f)) = true.
Proof.
  intros Hg. unfold frame_map. simpl. rewrite !forallb_forall.
  intros H c Hc. apply in_map_iff in Hc. destruct Hc as (c0 & E & Hc0). subst c.
  specialize (H _ Hc0). unfold at_label. destruct (String.eqb (fst c0) x); [|exact H].
  unfold coercible_column in *. cbn [fst snd].
  destruct (g (snd c0)) as [v|v|v|v] eqn:Eg; try reflexivity.
  apply Hg in Eg. now rewrite Eg in H.
Qed.

Lemma encode_no_float (s : Series) (vals : list Num.float64) :
  encode s = Float64Series vals -> s = Float64Series vals.
Proof. destruct s; simpl; congruence. Qed.

Lemma coerce_no_float (s : Series) (vals : list Num.float64) :
  coerce s = Float64Series vals -> s = Float64Series vals.
Proof. destruct s; simpl; congruence. Qed.

Lemma mem_number_columns (f : DataFrame) (c : string * Series) :
  NoDup (columns f) -> In c (cols f) ->
  Text.mem (fst c) (number_columns f) = is_number (dtype_of (snd c)).
Proof.
  intros Hn Hc. destruct (is_number (dtype_of (snd c))) eqn:E.
  - apply mem_In. unfold number_columns. apply in_map. apply filter_In. now split.
  - apply mem_false_In. unfold number_columns. intros H.
    apply in_map_iff in H. destruct H as ([y s'] & Ey & H').
    apply filter_In in H'. destruct H' as [Hin Hnum]. simpl in Ey, Hnum.
    destruct c as [x s]. simpl in *. subst y.
    rewrite (label_determines _ _ _ _ Hn Hc Hin) in E. congruence.
Qed.

Lemma number_columns_NoDup (f : DataFrame) :
  NoDup (columns f) -> NoDup (number_columns f).
Proof.
  unfold columns, number_columns. induction (cols f) as [|c r IH]; simpl.
  - constructor.
  - inversion 1 as [|? ? Hc Hr]; subst.
    destruct (is_number (dtype_of (snd c))); simpl; [|now apply IH].
    constructor; [|now apply IH].
    intros Hin. apply Hc. apply in_map_iff in Hin. destruct Hin as (c' & E & Hin).
    apply filter_In in Hin. rewrite <- E. apply in_map. tauto.
Qed.

Lemma number_columns_incl (f : DataFrame) (x : string) :
  In x (number_columns f) -> In x (columns f).
Proof.
  unfold number_columns, columns. rewrite !in_map_iff.
  intros (c & E & H). apply filter_In in H. exists c. tauto.
Qed.

End Loops.

(** ** [preprocess_data] computes the normalised frame *)

Section Normalisation.
Import Pandas Spec Model.
Local Open Scope nat_scope.

Lemma combine_lower (cs : list (string * Series)) :
  combine (map Text.lower (map fst cs)) (map snd cs)
  = map (fun c => (Text.lower (fst c), snd c)) cs.
Proof. induction cs as [|c r IH]; simpl; congruence. Qed.

Lemma mem_filter (q : string -> bool) (x : string) (l : list string) :
  Text.mem x (filter q l) = Text.mem x l && q x.
Proof.
  apply Bool.eq_iff_eq_true.
  rewrite andb_true_iff, !mem_In, filter_In. tauto.
Qed.

Lemma drop_present (f : DataFrame) :
  without_columns (filter (fun col => Text.mem col (columns f)) drop_cols) f
  = without_columns drop_cols f.
Proof.
  unfold without_columns. f_equal. apply filter_ext_in. intros c Hc.
  rewrite mem_filter.
  assert (H : Text.mem (fst c) (columns f) = true).
  { apply mem_In. now apply in_map. }
  now rewrite H, andb_true_r.
Qed.

Lemma normalise_column_steps (c : string * Series) :
  let c1 := at_label "gender" encode c in
  let c2 := if Text.mem (fst c1) binary_cols then (fst c1, coerce (snd c1)) else c1 in
  (fst c2, fill (snd c2)) = normalise_column c.
Proof.
  destruct c as [n s]. unfold at_label, normalise_column. cbn [fst snd].
  destruct (String.eqb n "gender") eqn:E.
  - apply String.eqb_eq in E. subst n. destruct s; reflexivity.
  - destruct s; cbn [fst snd]; destruct (Text.mem n binary_cols); reflexivity.
Qed.

Lemma frame_map_ext_in (g h : string * Series -> string * Series) (f : DataFrame) :
  (forall c, In c (cols f) -> g c = h c) -> frame_map g f = frame_map h f.
Proof. intros H. unfold frame_map. f_equal. now apply map_ext_in. Qed.

Lemma frame_map_compose (g h : string * Series -> string * Series) (f : DataFrame) :
  frame_map g (frame_map h f) = frame_map (fun c => g (h c)) f.
Proof. unfold frame_map. simpl. now rewrite map_map. Qed.

Lemma nth_error_last (st : store) (df : DataFrame) :
  nth_error (st ++ [df]) (List.length st) = Some df.
Proof. rewrite nth_error_app2 by lia. now rewrite Nat.sub_diag. Qed.

Lemma run_copy (st : store) (l : loc) (f : DataFrame) :
  nth_error st l = Some f -> copy l st = (inr (List.length st), st ++ [f]).
Proof. intros H. unfold copy. now rewrite (run_bind _ _ _ _ _ (run_deref _ _ _ H)). Qed.

Lemma run_lower_columns (st : store) (f : DataFrame) :
  set_columns (List.length st) (map Text.lower (columns f)) (st ++ [f])
  = (inr tt, st ++ [lowered f]).
Proof.
  unfold set_columns. rewrite (run_bind _ _ _ _ _ (run_deref _ _ _ (nth_error_last st f))).
  unfold columns. rewrite !length_map, Nat.eqb_refl. unfold assign.
  rewrite update_app_l by lia. rewrite Nat.sub_diag. simpl.
  now rewrite combine_lower.
Qed.

Lemma run_drop (st : store) (f : DataFrame) :
  drop (List.length st) (filter (fun col => Text.mem col (columns f)) drop_cols) (st ++ [f])
  = (inr (S (List.length st)), st ++ [f; without_columns drop_cols f]).
Proof.
  unfold drop. rewrite (run_bind _ _ _ _ _ (run_deref _ _ _ (nth_error_last st f))).
  unfold alloc. rewrite drop_present, length_app, <- app_assoc. simpl.
  now rewrite Nat.add_1_r.
Qed.

Lemma ready_pruned (f : DataFrame) :
  ready f = true ->
  NoDup (columns (pruned f)) /\ forallb coercible_column (cols (pruned f)) = true.
Proof.
  unfold ready. rewrite andb_true_iff, distinct_NoDup. tauto.
Qed.

Theorem preprocess_data_spec (st : store) (l : loc) (f : DataFrame) :
  nth_error st l = Some f -> ready f = true ->
  preprocess_data l st
  = (inr (S (List.length st)), st ++ [lowered f; normalised f]).
Proof.
  intros Hat Hready. destruct (ready_pruned f Hready) as [Hn Hc].
  set (q := S (List.length st)).
  set (st2 := st ++ [lowered f; pruned f]).
  assert (Hq : nth_error st2 q = Some (pruned f)).
  { unfold st2, q. rewrite nth_error_app2 by lia.
    now replace (S (List.length st) - List.length st) with 1 by lia. }
  assert (Hlen : q < List.length st2).
  { now apply nth_error_Some_length in Hq. }
  set (f1 := frame_map (at_label "gender" encode) (pruned f)).
  assert (Hn1 : NoDup (columns f1)).
  { unfold f1. now rewrite columns_at_label. }
  assert (Hc1 : forallb coercible_column (cols f1) = true).
  { apply coercible_at_label; [apply encode_no_float | exact Hc]. }
  set (f2 := fold_left (fun f x => frame_map (at_label x coerce) f) binary_cols f1).
  assert (E2 : f2 = frame_map
            (fun c => if Text.mem (fst c) binary_cols then (fst c, coerce (snd c)) else c) f1).
  { apply loop_frame. apply distinct_NoDup. reflexivity. }
  assert (Hn2 : NoDup (columns f2)).
  { rewrite E2, columns_frame_map; [exact Hn1|].
    intros c. now destruct (Text.mem (fst c) binary_cols). }
  set (f3 := fold_left (fun f x => frame_map (at_label x fill) f) (number_columns f2) f2).
  unfold preprocess_data.
  rewrite (run_bind _ _ _ _ _ (run_copy _ _ _ Hat)).
  rewrite (run_bind _ _ _ _ _ (run_get_columns _ _ _ (nth_error_last st f))).
  rewrite (run_bind _ _ _ _ _ (run_lower_columns st f)).
  rewrite (run_bind _ _ _ _ _ (run_get_columns _ _ _ (nth_error_last st (lowered f)))).
  rewrite (run_bind _ _ _ _ _ (run_drop st (lowered f))).
  fold (pruned f). fold st2. fold q.
  rewrite (run_bind _ _ _ _ _ (gender_step_run _ _ _ Hq Hn)). fold f1.
  assert (H1 : nth_error (update st2 q f1) q = Some f1) by now apply nth_error_update.
  erewrite run_bind.
  2:{ apply (for_each_run q coerce (binary_step q)
               (fun f => NoDup (columns f) /\ forallb coercible_column (cols f) = true)
               binary_cols) with (f := f1).
      - intros x f' [Hx Hy]. split.
        + now rewrite columns_at_label.
        + apply coercible_at_label; [apply coerce_no_float | exact Hy].
      - intros x st' f' Hx Hat' [Hx' Hy']. now apply binary_step_run.
      - exact H1.
      - now split. }
  fold f2. rewrite update_update.
  assert (H2 : nth_error (update st2 q f2) q = Some f2) by now apply nth_error_update.
  rewrite (run_bind _ _ _ _ _ (run_select_number_columns _ _ _ H2)).
  erewrite run_bind.
  2:{ apply (for_each_run q fill (fill_step q)
               (fun f => NoDup (columns f) /\ columns f = columns f2)
               (number_columns f2)) with (f := f2).
      - intros x f' [Hx Hy]. rewrite columns_at_label. now split.
      - intros x st' f' Hx Hat' [Hx' Hy']. apply fill_step_run; try assumption.
        rewrite Hy'. now apply number_columns_incl.
      - exact H2.
      - now split. }
  fold f3. rewrite update_update. unfold ret. f_equal.
  unfold st2. rewrite update_app_l by (unfold q; lia).
  replace (q - List.length st) with 1 by (unfold q; lia). simpl. do 3 f_equal.
  unfold f3. rewrite loop_frame by now apply number_columns_NoDup.
  rewrite (frame_map_ext_in _ (fun c => (fst c, fill (snd c)))).
  2:{ intros c Hin. rewrite (mem_number_columns f2 c Hn2 Hin).
      destruct c as [n s]. cbn [fst snd]. now destruct s. }
  rewrite E2. unfold f1, normalised. rewrite !frame_map_compose.
  apply frame_map_ext_in. intros c _. now rewrite <- normalise_column_steps.
Qed.

End Normalisation.

(** ** [predict_batch] computes the result frame *)

Section Prediction.
Import Pandas Spec Model.
Local Open Scope nat_scope.

Variables (self : HeartAttackModel) (st : store) (l : loc) (f : DataFrame).
Hypothesis at_l : nth_error st l = Some f.
Hypothesis is_ready : ready f = true.

Theorem predict_batch_spec :
  predict_batch self l st
  = match predict_frame (model self) f with
    | inl e => (inl e, st ++ [lowered f; normalised f])
    | inr result =>
      (inr (List.length st + 2), st ++ [lowered f; normalised f; result])
    end.
Proof.
  set (st1 := st ++ [lowered f; normalised f]).
  assert (HX : nth_error st1 (S (List.length st)) = Some (normalised f)).
  { unfold st1. rewrite nth_error_app2 by lia.
    now replace (S (List.length st) - List.length st) with 1 by lia. }
  assert (Hf : nth_error st1 l = Some f).
  { unfold st1. rewrite nth_error_app1; [exact at_l|].
    now apply nth_error_Some_length in at_l. }
  assert (Hlen : List.length st1 = List.length st + 2).
  { unfold st1. rewrite length_app. reflexivity. }
  unfold predict_batch.
  rewrite (run_bind _ _ _ _ _ (preprocess_data_spec _ _ _ at_l is_ready)). fold st1.
  rewrite (run_bind _ _ _ _ _ (run_deref _ _ _ HX)).
  assert (Halloc : forall predictions ids,
    bind (lift (frame_of_dict [("id", ids); ("prediction", Float64Series predictions)]))
         alloc st1
    = match frame_of_dict [("id", ids); ("prediction", Float64Series predictions)] with
      | inl e => (inl e, st1)
      | inr result => (inr (List.length st + 2), st ++ [lowered f; normalised f; result])
      end).
  { intros predictions ids. unfold bind.
    destruct (frame_of_dict _) as [e|result]; [reflexivity|].
    cbn [lift]. unfold ret, alloc. rewrite Hlen. unfold st1.
    now rewrite <- app_assoc. }
  assert (Hrest : forall predictions,
    bind (get_columns l) (fun names =>
      bind (if Text.mem "id" names
            then bind (getitem l "id") (fun sel => lift (id_values sel))
            else bind (len l) (fun n => ret (range n)))
           (fun ids =>
              bind (lift (frame_of_dict
                            [("id", ids); ("prediction", Float64Series predictions)]))
                   alloc)) st1
    = match identifiers f with
      | inl e => (inl e, st1)
      | inr ids =>
        match frame_of_dict [("id", ids); ("prediction", Float64Series predictions)] with
        | inl e => (inl e, st1)
        | inr result => (inr (List.length st + 2), st ++ [lowered f; normalised f; result])
        end
      end).
  { intros predictions. rewrite (run_bind _ _ _ _ _ (run_get_columns _ _ _ Hf)).
    unfold identifiers. destruct (Text.mem "id" (columns f)).
    - unfold getitem. unfold bind at 1. unfold bind at 1. unfold bind at 1.
      rewrite (run_deref _ _ _ Hf).
      destruct (select "id" f) as [e|sel]; [reflexivity|].
      cbn [lift]. unfold ret at 1.
      destruct (id_values sel) as [e|ids]; [reflexivity|].
      cbn [lift]. unfold ret at 1. apply Halloc.
    - unfold len. unfold bind at 1. unfold bind at 1. unfold bind at 1.
      rewrite (run_deref _ _ _ Hf).
      unfold ret at 1. unfold ret at 1. apply Halloc. }
  unfold predict_frame, scores.
  destruct (predict_proba (model self)) as [proba|].
  - unfold bind at 1. unfold bind at 1.
    destruct (proba (normalised f)) as [e|a]; [reflexivity|].
    cbn [lift]. unfold ret at 1.
    destruct (column 1 a) as [e|predictions]; [reflexivity|].
    cbn [lift]. unfold ret at 1. rewrite Hrest.
    now destruct (identifiers f).
  - unfold bind at 1.
    destruct (predict (model self) (normalised f)) as [e|predictions]; [reflexivity|].
    cbn [lift]. unfold ret at 1. rewrite Hrest.
    now destruct (identifiers f).
Qed.

End Prediction.

(** ** Sorting and medians *)

Section Medians.

Lemma insert_perm (x : Q) (l : list Q) : Permutation (Num.insert x l) (x :: l).
Proof.
  induction l as [|y r IH]; simpl; [reflexivity|].
  destruct (Qle_bool x y); [reflexivity|].
  rewrite IH. apply perm_swap.
Qed.

Lemma sort_perm (l : list Q) : Permutation (Num.sort l) l.
Proof.
  induction l as [|x r IH]; simpl; [reflexivity|].
  rewrite insert_perm. now constructor.
Qed.

Lemma insert_hd (x a : Q) (l : list Q) :
  a <= x -> HdRel Qle a l -> HdRel Qle a (Num.insert x l).
Proof.
  intros Hax H. destruct l as [|y r]; simpl.
  - now constructor.
  - destruct (Qle_bool x y); constructor; [exact Hax | now inversion H].
Qed.

Lemma insert_sorted (x : Q) (l : list Q) : Sorted Qle l -> Sorted Qle (Num.insert x l).
Proof.
  induction 1 as [|y r Hr IH Hy]; simpl.
  - repeat constructor.
  - destruct (Qle_bool x y) eqn:E.
    + apply Qle_bool_iff in E. repeat constructor; assumption.
    + constructor; [exact IH|]. apply insert_hd; [|exact Hy].
      apply Qlt_le_weak. apply Qnot_le_lt. intros H.
      apply Qle_bool_iff in H. congruence.
Qed.

Lemma sort_sorted (l : list Q) : Sorted Qle (Num.sort l).
Proof.
  induction l as [|x r IH]; simpl; [constructor | now apply insert_sorted].
Qed.

Lemma median_is_median (vals : list Num.float64) (m : Q) :
  Num.median vals = Some m -> Spec.is_median (Num.dropna vals) m.
Proof.
  intros H. exists (Num.sort (Num.dropna vals)).
  split; [apply sort_perm | split; [apply sort_sorted | exact H]].
Qed.




End Medians.

(** ** The normalised frame *)

Section Normalised.
Import Pandas Spec Model.

Lemma lower_ascii_idem (c : ascii) : Text.lower_ascii (Text.lower_ascii c) = Text.lower_ascii c.
Proof. destruct c as [[] [] [] [] [] [] [] []]; reflexivity. Qed.

Lemma lower_idem (s : string) : Text.lower (Text.lower s) = Text.lower s.
Proof.
  induction s as [|c s IH]; simpl; [reflexivity|].
  now rewrite lower_ascii_idem, IH.
Qed.

Lemma columns_pruned (f : DataFrame) :
  columns (pruned f)
  = filter (fun n => negb (Text.mem n drop_cols)) (map Text.lower (columns f)).
Proof.
  unfold pruned, without_columns, lowered, columns. cbn [cols].
  induction (cols f) as [|c r IH]; [reflexivity|].
  cbn [map filter fst]. destruct (negb (Text.mem (Text.lower (fst c)) drop_cols)).
  - cbn [map fst]. now rewrite IH.
  - exact IH.
Qed.

Lemma fst_normalise_column (c : string * Series) : fst (normalise_column c) = fst c.
Proof.
  destruct c as [n s]. unfold normalise_column.
  destruct s; try reflexivity.
  - now destruct (String.eqb n "gender").
  - now destruct (Text.mem n binary_cols).
Qed.

Lemma columns_normalised (f : DataFrame) : columns (normalised f) = columns (pruned f).
Proof. apply columns_frame_map. apply fst_normalise_column. Qed.

Lemma In_pruned (f : DataFrame) (n : string) (s : Series) :
  In (n, s) (cols f) -> Text.mem (Text.lower n) drop_cols = false ->
  In (Text.lower n, s) (cols (pruned f)).
Proof.
  intros Hin Hkeep. unfold pruned, without_columns, lowered. cbn [cols].
  apply filter_In. split.
  - apply in_map_iff. exists (n, s). now split.
  - cbn [fst]. now rewrite Hkeep.
Qed.

Lemma In_normalised (f : DataFrame) (c : string * Series) :
  In c (cols (pruned f)) -> In (normalise_column c) (cols (normalised f)).
Proof. intros H. unfold normalised, frame_map. cbn [cols]. now apply in_map. Qed.

Lemma normalised_distinct (f : DataFrame) :
  ready f = true -> NoDup (columns (normalised f)).
Proof.
  intros H. rewrite columns_normalised. now destruct (ready_pruned f H).
Qed.

Lemma normalised_labels (f : DataFrame) :
  columns (normalised f)
  = filter (fun n => negb (Text.mem n drop_cols)) (map Text.lower (columns f)).
Proof. rewrite columns_normalised. apply columns_pruned. Qed.

Lemma dropped_label_absent (f : DataFrame) (n : string) :
  In (Text.lower n) drop_cols ->
  ~ In n (columns (normalised f)) /\ ~ In (Text.lower n) (columns (normalised f)).
Proof.
  intros Hn. rewrite normalised_labels. apply mem_In in Hn.
  split; intros H; apply filter_In in H; destruct H as [H1 H2].
  - apply in_map_iff in H1. destruct H1 as (n0 & E0 & _).
    rewrite <- E0, lower_idem in Hn. rewrite <- E0, Hn in H2. discriminate.
  - rewrite Hn in H2. discriminate.
Qed.

(** The column of the normalised frame that comes from a column of the raw
    frame whose folded label survives the pruning. *)
Lemma select_normalised (f : DataFrame) (n : string) (s : Series) :
  ready f = true -> In (n, s) (cols f) -> Text.mem (Text.lower n) drop_cols = false ->
  select (Text.lower n) (normalised f)
  = inr (OneColumn (snd (normalise_column (Text.lower n, s)))).
Proof.
  intros Hr Hin Hkeep. apply select_unique; [now apply normalised_distinct|].
  pose proof (In_normalised f _ (In_pruned f n s Hin Hkeep)) as H.
  rewrite (surjective_pairing (normalise_column (Text.lower n, s))) in H.
  now rewrite fst_normalise_column in H.
Qed.

End Normalised.

(** ** Normalisation of gender, binary fields and labels *)

Section NormalisationFacts.
Import Pandas Spec Model.

Lemma dict_get_None {V} (d : list (string * V)) (k : string) :
  (forall v, ~ In (k, v) d) -> dict_get d k = None.
Proof.
  induction d as [|[k' v'] r IH]; intros H; simpl; [reflexivity|].
  destruct (String.eqb k k') eqn:E.
  - apply String.eqb_eq in E. subst k'. exfalso. apply (H v'). now left.
  - apply IH. intros v Hv. apply (H v). now right.
Qed.

Lemma binary_not_dropped (x : string) :
  In x binary_cols -> Text.mem x drop_cols = false.
Proof.
  unfold binary_cols. simpl.
  intros H. repeat (destruct H as [<-|H]; [reflexivity|]). contradiction.
Qed.

Lemma Forall2_map_r {A B} (R : A -> B -> Prop) (g : A -> B) (l : list A) :
  (forall a, In a l -> R a (g a)) -> Forall2 R l (map g l).
Proof.
  induction l as [|a r IH]; intros H; simpl; constructor.
  - apply H. now left.
  - apply IH. intros b Hb. apply H. now right.
Qed.


End NormalisationFacts.

(** C3. A [gender] column of dtype object (whatever the case of its label)
    comes out of the normalisation as the integers given by the table
    male->0, female->1, "1.0"->0, "0.0"->1, "1"->0, "0"->1 applied to the
    lower-cased text of each cell, so that "FEMALE" and "Female" become 1
    like "female"; lower-casing changes the letters A to Z and nothing
    else; a cell these six keys do not map, [None] and NaN included,
    becomes 0; "male" becomes 0. *)
Theorem gender_encoding (st : Pandas.store) (df : Pandas.loc) (f : Pandas.DataFrame)
    (n : string) (vals : list Pandas.pyobj) :
  nth_error st df = Some f ->
  Spec.ready f = true ->
  In (n, Pandas.ObjectSeries vals) (Pandas.cols f) ->
  Text.lower n = "gender" ->
  exists f' : Pandas.DataFrame,
    Model.preprocess_data df st = (inr (S (List.length st)), st ++ [Spec.lowered f; f'])
    /\ Pandas.select "gender" f'
       = inr (Pandas.OneColumn (Pandas.Int64Series (map Spec.gender_code vals)))
    /\ (forall t z,
          In (Text.lower t, z)
             [("male", 0%Z); ("female", 1%Z); ("1.0", 0%Z); ("0.0", 1%Z);
              ("1", 0%Z); ("0", 1%Z)] ->
          Spec.gender_code (Pandas.PyStr t) = z)
    /\ (forall o,
          (forall z,
             ~ In (Text.lower (Pandas.str o), z)
                  [("male", 0%Z); ("female", 1%Z); ("1.0", 0%Z); ("0.0", 1%Z);
                   ("1", 0%Z); ("0", 1%Z)]) ->
          Spec.gender_code o = 0%Z)
    /\ Spec.gender_code Pandas.PyNone = 0%Z
    /\ Spec.gender_code Pandas.PyNaN = 0%Z
    /\ Spec.gender_code (Pandas.PyStr "male") = 0%Z
    /\ Spec.gender_code (Pandas.PyStr "FEMALE") = 1%Z
    /\ Spec.gender_code (Pandas.PyStr "Female") = 1%Z
    /\ Spec.gender_code (Pandas.PyStr "feMALE") = 1%Z
    /\ Spec.gender_code (Pandas.PyStr "MALE") = 0%Z
    /\ Spec.gender_code (Pandas.PyStr "other") = 0%Z
    /\ Spec.gender_code (Pandas.PyStr "2") = 0%Z
    /\ Text.lower "AZ@[ Female az`{ 0.0" = "az@[ female az`{ 0.0".
Proof.
  intros Hat Hready Hin Hn. exists (Spec.normalised f).
  split; [now apply preprocess_data_spec|].
  split.
  { rewrite <- Hn. rewrite (select_normalised f n _ Hready Hin) by now rewrite Hn.
    now rewrite Hn. }
  split.
  { intros t z H. unfold Spec.gender_code. cbn [Pandas.str].
    simpl in H.
    repeat (destruct H as [H|H]; [injection H as <- <-; reflexivity|]).
    contradiction. }
  split.
  { intros o H. unfold Spec.gender_code.
    rewrite dict_get_None; [reflexivity|]. exact H. }
  repeat split.
Qed.

Lemma gender_encoding_witness :
  (exists f' : Pandas.DataFrame,
     Model.preprocess_data 0%nat [Scenario.patient]
     = (inr 2%nat, [Scenario.patient; Spec.lowered Scenario.patient; f'])
     /\ Pandas.select "gender" f' = inr (Pandas.OneColumn (Pandas.Int64Series [0%Z])))
  /\ (exists f' : Pandas.DataFrame,
        Model.preprocess_data 0%nat [Fixture.genders]
        = (inr 2%nat, [Fixture.genders; Spec.lowered Fixture.genders; f'])
        /\ Pandas.select "gender" f'
           = inr (Pandas.OneColumn (Pandas.Int64Series [0; 1; 1; 0; 0; 0]%Z))).
Proof.
  split.
  - destruct (gender_encoding [Scenario.patient] 0%nat Scenario.patient "gender"
                [Pandas.PyStr "male"] eq_refl eq_refl
                (or_intror (or_intror (or_intror (or_introl eq_refl)))) eq_refl)
      as (f' & H1 & H2 & _).
    exists f'. split; [exact H1 | exact H2].
  - destruct (gender_encoding [Fixture.genders] 0%nat Fixture.genders "Gender"
                [Pandas.PyStr "MALE"; Pandas.PyStr "Female"; Pandas.PyStr "0";
                 Pandas.PyStr "unknown"; Pandas.PyNone; Pandas.PyNaN]
                eq_refl eq_refl (or_intror (or_introl eq_refl)) eq_refl)
      as (f' & H1 & H2 & _).
    exists f'. split; [exact H1 | exact H2].
Defined.




(** C8. The normalised frame has the lower-cased labels of the input
    without [unnamed:_0], [id] and [income]: a column whose label is one of
    these in any casing is absent from it, and an input with none of them
    is normalised all the same, every column kept. *)
Theorem column_pruning (st : Pandas.store) (df : Pandas.loc) (f : Pandas.DataFrame) :
  nth_error st df = Some f ->
  Spec.ready f = true ->
  exists f' : Pandas.DataFrame,
    Model.preprocess_data df st = (inr (S (List.length st)), st ++ [Spec.lowered f; f'])
    /\ Pandas.columns f'
       = filter (fun n => negb (Text.mem n ["unnamed:_0"; "id"; "income"]))
           (map Text.lower (Pandas.columns f))
    /\ (forall n, In (Text.lower n) ["unnamed:_0"; "id"; "income"] ->
          ~ In n (Pandas.columns f') /\ ~ In (Text.lower n) (Pandas.columns f'))
    /\ ((forall n, In n (Pandas.columns f) ->
           ~ In (Text.lower n) ["unnamed:_0"; "id"; "income"]) ->
        Pandas.columns f' = map Text.lower (Pandas.columns f)).
Proof.
  intros Hat Hready. exists (Spec.normalised f).
  split; [now apply preprocess_data_spec|].
  pose proof (normalised_labels f) as E.
  split; [exact E|]. split.
  - intros n Hn. now apply dropped_label_absent.
  - intros Hnone. rewrite E.
    apply forallb_filter_id. apply forallb_forall. intros x Hx.
    apply in_map_iff in Hx. destruct Hx as (n0 & <- & Hn0).
    apply negb_true_iff. apply mem_false_In. now apply Hnone.
Qed.

Lemma column_pruning_witness :
  exists f' : Pandas.DataFrame,
    Model.preprocess_data 0%nat [Scenario.exported]
    = (inr 2%nat, [Scenario.exported; Spec.lowered Scenario.exported; f'])
    /\ Pandas.columns f' = ["age"]
    /\ ~ In "Unnamed:_0" (Pandas.columns f') /\ ~ In "unnamed:_0" (Pandas.columns f')
    /\ ~ In "ID" (Pandas.columns f') /\ ~ In "id" (Pandas.columns f').
Proof.
  destruct (column_pruning [Scenario.exported] 0%nat Scenario.exported eq_refl eq_refl)
    as (f' & H1 & H2 & H3 & _).
  exists f'. split; [exact H1|]. split; [exact H2|].
  pose proof (H3 "Unnamed:_0" (or_introl eq_refl)) as [Ha Hb].
  pose proof (H3 "ID" (or_intror (or_introl eq_refl))) as [Hc Hd].
  repeat split; assumption.
Defined.

(** ** Batch and single prediction *)

Section PredictionFacts.
Import Pandas Spec Model.
Local Open Scope nat_scope.

Lemma size_range (n : nat) : size (range n) = n.
Proof. unfold range, size. now rewrite length_map, length_seq. Qed.

Lemma frame_of_dict_ok (ids : Series) (predictions : list Num.float64) :
  List.length predictions = size ids ->
  frame_of_dict [("id", ids); ("prediction", Float64Series predictions)]
  = inr (mkFrame (size ids) [("id", ids); ("prediction", Float64Series predictions)]).
Proof.
  intros H. unfold frame_of_dict. cbn [forallb snd size]. rewrite H.
  now rewrite Nat.eqb_refl.
Qed.

Lemma identifiers_without_id (f : DataFrame) :
  ~ In "id" (columns f) -> identifiers f = inr (range (index_len f)).
Proof.
  intros H. unfold identifiers. apply mem_false_In in H. now rewrite H.
Qed.

End PredictionFacts.

(** C6. [predict_single] is [predict_batch] followed by the selection of
    the first prediction: on a frame the normalisation accepts, when the
    batch path raises the single path raises the same error, and when the
    batch path returns a result the single path returns the first value of
    its prediction column, with the same effect on the store. *)
Theorem single_is_first_of_batch (self : Model.HeartAttackModel) (st : Pandas.store)
    (df : Pandas.loc) (f : Pandas.DataFrame) :
  nth_error st df = Some f ->
  Spec.ready f = true ->
  match Spec.predict_frame (Model.model self) f with
  | inl e =>
    Model.predict_batch self df st = (inl e, st ++ [Spec.lowered f; Spec.normalised f])
    /\ Model.predict_single self df st
       = (inl e, st ++ [Spec.lowered f; Spec.normalised f])
  | inr result =>
    exists (ids : Pandas.Series) (predictions : list Num.float64),
      Pandas.cols result
      = [("id", ids); ("prediction", Pandas.Float64Series predictions)]
      /\ Model.predict_batch self df st
         = (inr (List.length st + 2)%nat,
            st ++ [Spec.lowered f; Spec.normalised f; result])
      /\ Model.predict_single self df st
         = (match predictions with
            | first :: _ => inr first
            | [] => inl Pandas.IndexError
            end,
            st ++ [Spec.lowered f; Spec.normalised f; result])
  end.
Proof.
  intros Hat Hready.
  pose proof (predict_batch_spec self st df f Hat Hready) as Hb.
  unfold Model.predict_single.
  destruct (Spec.predict_frame (Model.model self) f) as [e|result] eqn:E.
  - split; [exact Hb|]. unfold Pandas.bind at 1. now rewrite Hb.
  - assert (Hcols : exists ids predictions,
              Pandas.cols result
              = [("id", ids); ("prediction", Pandas.Float64Series predictions)]).
    { unfold Spec.predict_frame in E.
      destruct (Spec.scores (Model.model self) (Spec.normalised f)) as [e|predictions];
        [discriminate|].
      destruct (Spec.identifiers f) as [e|ids]; [discriminate|].
      exists ids, predictions. unfold Pandas.frame_of_dict in E.
      destruct (forallb _ _); [|discriminate]. now injection E as <-. }
    destruct Hcols as (ids & predictions & Hcols).
    exists ids, predictions. split; [exact Hcols|]. split; [exact Hb|].
    rewrite (run_bind _ _ _ _ _ Hb).
    assert (Hr : nth_error (st ++ [Spec.lowered f; Spec.normalised f; result])
                   (List.length st + 2) = Some result).
    { rewrite nth_error_app2 by lia.
      now replace (List.length st + 2 - List.length st)%nat with 2%nat by lia. }
    assert (Hsel : Pandas.select "prediction" result
                   = inr (Pandas.OneColumn (Pandas.Float64Series predictions))).
    { unfold Pandas.select, Pandas.labelled. now rewrite Hcols. }
    rewrite (run_bind _ _ _ _ _ (run_getitem _ _ _ Hr _ _ Hsel)).
    now destruct predictions.
Qed.

Lemma single_is_first_of_batch_witness :
  Model.predict_single (Model.mkModel "best_model.pkl" Scenario.constant_classifier ["age"])
    0%nat [Scenario.patient]
  = (inr (Some (7 # 10)),
     [Scenario.patient; Spec.lowered Scenario.patient; Spec.normalised Scenario.patient;
      Pandas.mkFrame 1
        [("id", Pandas.Int64Series [0%Z]);
         ("prediction", Pandas.Float64Series [Some (7 # 10)])]]).
Proof.
  pose proof (single_is_first_of_batch
                (Model.mkModel "best_model.pkl" Scenario.constant_classifier ["age"])
                [Scenario.patient] 0%nat Scenario.patient eq_refl eq_refl) as H.
  cbv beta iota delta [Spec.predict_frame] in H.
  change (Spec.scores _ _) with (@inr Pandas.exn _ [Some (7 # 10)]) in H.
  change (Spec.identifiers _) with (@inr Pandas.exn _ (Pandas.Int64Series [0%Z])) in H.
  cbv beta iota in H.
  change (Pandas.frame_of_dict _)
    with (@inr Pandas.exn _
            (Pandas.mkFrame 1
               [("id", Pandas.Int64Series [0%Z]);
                ("prediction", Pandas.Float64Series [Some (7 # 10)])])) in H.
  cbv beta iota in H.
  destruct H as (ids & predictions & Hcols & _ & Hs).
  injection Hcols as <- <-. exact Hs.
Defined.

(** C7. With a classifier that has [predict_proba], the prediction of each
    row is the entry of index 1 of its row of the probability output;
    without it, the predictions are the output of [predict] as it is. *)
Theorem prediction_source (self : Model.HeartAttackModel) (st : Pandas.store)
    (df : Pandas.loc) (f : Pandas.DataFrame) (ids : Pandas.Series) :
  nth_error st df = Some f ->
  Spec.ready f = true ->
  Spec.identifiers f = inr ids ->
  (forall proba a,
     Model.predict_proba (Model.model self) = Some proba ->
     proba (Spec.normalised f) = inr a ->
     (1 < Model.n_columns a)%nat ->
     List.length (Model.rows a) = Pandas.size ids ->
     Model.predict_batch self df st
     = (inr (List.length st + 2)%nat,
        st ++ [Spec.lowered f; Spec.normalised f;
               Pandas.mkFrame (Pandas.size ids)
                 [("id", ids);
                  ("prediction",
                   Pandas.Float64Series (map (fun row => nth 1 row None) (Model.rows a)))]]))
  /\ (forall decisions,
        Model.predict_proba (Model.model self) = None ->
        Model.predict (Model.model self) (Spec.normalised f) = inr decisions ->
        List.length decisions = Pandas.size ids ->
        Model.predict_batch self df st
        = (inr (List.length st + 2)%nat,
           st ++ [Spec.lowered f; Spec.normalised f;
                  Pandas.mkFrame (Pandas.size ids)
                    [("id", ids); ("prediction", Pandas.Float64Series decisions)]])).
Proof.
  intros Hat Hready Hids.
  pose proof (predict_batch_spec self st df f Hat Hready) as Hb.
  unfold Spec.predict_frame, Spec.scores in Hb. rewrite Hids in Hb.
  split.
  - intros proba a Hp Ha Hcol Hlen. rewrite Hp, Ha in Hb.
    unfold Model.column in Hb. apply Nat.ltb_lt in Hcol. rewrite Hcol in Hb.
    rewrite frame_of_dict_ok in Hb by now rewrite length_map. exact Hb.
  - intros decisions Hp Hd Hlen. rewrite Hp, Hd in Hb.
    rewrite frame_of_dict_ok in Hb by assumption. exact Hb.
Qed.

Lemma prediction_source_witness :
  Model.predict_batch (Model.mkModel "best_model.pkl" Scenario.constant_classifier ["age"])
    0%nat [Scenario.patient]
  = (inr 3%nat,
     [Scenario.patient; Spec.lowered Scenario.patient; Spec.normalised Scenario.patient;
      Pandas.mkFrame 1
        [("id", Pandas.Int64Series [0%Z]);
         ("prediction", Pandas.Float64Series [Some (7 # 10)])]])
  /\ Model.predict_batch (Model.mkModel "best_model.pkl" Scenario.scoring_classifier ["age"])
       0%nat [Scenario.patient]
     = (inr 3%nat,
        [Scenario.patient; Spec.lowered Scenario.patient; Spec.normalised Scenario.patient;
         Pandas.mkFrame 1
           [("id", Pandas.Int64Series [0%Z]);
            ("prediction", Pandas.Float64Series [Some 7])]]).
Proof.
  split.
  - exact (proj1 (prediction_source
                    (Model.mkModel "best_model.pkl" Scenario.constant_classifier ["age"])
                    [Scenario.patient] 0%nat Scenario.patient (Pandas.Int64Series [0%Z])
                    eq_refl eq_refl eq_refl)
             _ _ eq_refl eq_refl (le_n 2) eq_refl).
  - exact (proj2 (prediction_source
                    (Model.mkModel "best_model.pkl" Scenario.scoring_classifier ["age"])
                    [Scenario.patient] 0%nat Scenario.patient (Pandas.Int64Series [0%Z])
                    eq_refl eq_refl eq_refl)
             _ eq_refl eq_refl eq_refl).
Defined.

(** C9. Neither [preprocess_data] nor [predict_batch] changes an object that
    was in the store when it was called, the raw input frame included,
    whether it returns or raises: the store afterwards is the store before
    followed by new objects. So the identifiers [predict_batch] reads after
    the normalisation are those of the raw frame: when the raw frame has one
    [id] column, its values are the [id] column of the result. *)
Theorem raw_input_is_not_mutated (self : Model.HeartAttackModel) (st : Pandas.store)
    (df : Pandas.loc) :
  (exists ext, snd (Model.preprocess_data df st) = st ++ ext)
  /\ (exists ext, snd (Model.predict_batch self df st) = st ++ ext)
  /\ nth_error (snd (Model.preprocess_data df st)) df = nth_error st df
  /\ nth_error (snd (Model.predict_batch self df st)) df = nth_error st df
  /\ (forall f ids result,
        nth_error st df = Some f ->
        Spec.ready f = true ->
        Pandas.select "id" f = inr (Pandas.OneColumn ids) ->
        Spec.predict_frame (Model.model self) f = inr result ->
        Model.predict_batch self df st
        = (inr (List.length st + 2)%nat,
           st ++ [Spec.lowered f; Spec.normalised f; result])
        /\ Pandas.select "id" result = inr (Pandas.OneColumn ids)).
Proof.
  destruct (grows_preprocess_data st df []) as (ext1 & E1 & _).
  destruct (grows_predict_batch st self df []) as (ext2 & E2 & _).
  rewrite app_nil_r in E1, E2.
  assert (Hsame : forall ext st',
            st' = st ++ ext ->
            (nth_error st df = None -> st' = st) ->
            nth_error st' df = nth_error st df).
  { intros ext st' E Hnone. destruct (nth_error st df) as [f|] eqn:Hat.
    - rewrite E, nth_error_app1; [exact Hat|]. now apply nth_error_Some_length in Hat.
    - now rewrite (Hnone eq_refl). }
  split; [now exists ext1|]. split; [now exists ext2|]. split; [|split].
  - apply (Hsame ext1 _ E1). intros Hnone.
    unfold Model.preprocess_data, Pandas.copy, Pandas.bind, Pandas.deref.
    now rewrite Hnone.
  - apply (Hsame ext2 _ E2). intros Hnone.
    unfold Model.predict_batch, Model.preprocess_data, Pandas.copy, Pandas.bind,
      Pandas.deref.
    now rewrite Hnone.
  - intros f ids result Hat Hready Hid Hres.
    pose proof (predict_batch_spec self st df f Hat Hready) as Hb.
    rewrite Hres in Hb. split; [exact Hb|].
    unfold Spec.predict_frame in Hres.
    destruct (Spec.scores (Model.model self) (Spec.normalised f)) as [e|predictions];
      [discriminate|].
    unfold Spec.identifiers in Hres. rewrite Hid in Hres.
    destruct (Text.mem "id" (Pandas.columns f)) eqn:Hm.
    + cbn [Model.id_values] in Hres. unfold Pandas.frame_of_dict in Hres.
      destruct (forallb _ _); [|discriminate]. now injection Hres as <-.
    + exfalso. apply mem_false_In in Hm. apply Hm.
      unfold Pandas.select in Hid.
      destruct (Pandas.labelled "id" f) as [|s r] eqn:El; [discriminate|].
      assert (Hs : In s (Pandas.labelled "id" f)) by (rewrite El; now left).
      unfold Pandas.labelled in Hs. apply in_map_iff in Hs.
      destruct Hs as (c & _ & Hc). apply filter_In in Hc. destruct Hc as [Hc Hl].
      apply String.eqb_eq in Hl. rewrite <- Hl. unfold Pandas.columns. now apply in_map.
Qed.

Lemma raw_input_is_not_mutated_witness :
  Model.predict_batch (Model.mkModel "best_model.pkl" Scenario.constant_classifier ["age"])
    0%nat [Scenario.identified]
  = (inr 3%nat,
     [Scenario.identified; Spec.lowered Scenario.identified;
      Spec.normalised Scenario.identified;
      Pandas.mkFrame 2
        [("id", Pandas.Int64Series [17%Z; 42%Z]);
         ("prediction", Pandas.Float64Series [Some (7 # 10); Some (7 # 10)])]])
  /\ Pandas.columns (Spec.normalised Scenario.identified) = ["age"].
Proof.
  split; [|reflexivity].
  exact (proj1 (proj2 (proj2 (proj2 (proj2
           (raw_input_is_not_mutated
              (Model.mkModel "best_model.pkl" Scenario.constant_classifier ["age"])
              [Scenario.identified] 0%nat))))
           Scenario.identified (Pandas.Int64Series [17%Z; 42%Z]) _
           eq_refl eq_refl eq_refl eq_refl)).
Defined.

(** C10. The identifiers are looked up under the label [id] as it is
    spelled in the raw frame: when no raw label is exactly [id], a column
    whose label only folds to [id] (such as [ID]) is absent from the
    feature matrix and its values are not the identifiers; the identifiers
    of the result are the row numbers 0 .. n-1. *)
Theorem identifier_lookup_is_case_sensitive (self : Model.HeartAttackModel)
    (st : Pandas.store) (df : Pandas.loc) (f : Pandas.DataFrame)
    (n : string) (values : Pandas.Series) (predictions : list Num.float64) :
  nth_error st df = Some f ->
  Spec.ready f = true ->
  In (n, values) (Pandas.cols f) ->
  Text.lower n = "id" ->
  ~ In "id" (Pandas.columns f) ->
  Spec.scores (Model.model self) (Spec.normalised f) = inr predictions ->
  List.length predictions = Pandas.index_len f ->
  ~ In "id" (Pandas.columns (Spec.normalised f))
  /\ ~ In n (Pandas.columns (Spec.normalised f))
  /\ Model.predict_batch self df st
     = (inr (List.length st + 2)%nat,
        st ++ [Spec.lowered f; Spec.normalised f;
               Pandas.mkFrame (Pandas.index_len f)
                 [("id", Pandas.Int64Series (map Z.of_nat (seq 0 (Pandas.index_len f))));
                  ("prediction", Pandas.Float64Series predictions)]]).
Proof.
  intros Hat Hready Hin Hn Hnoid Hscores Hlen.
  assert (Hdrop : In (Text.lower n) Model.drop_cols).
  { rewrite Hn. right. now left. }
  destruct (dropped_label_absent f n Hdrop) as [Ha Hb]. rewrite Hn in Hb.
  split; [exact Hb|]. split; [exact Ha|].
  rewrite (predict_batch_spec self st df f Hat Hready).
  unfold Spec.predict_frame. rewrite Hscores.
  rewrite (identifiers_without_id f Hnoid).
  rewrite frame_of_dict_ok by now rewrite size_range.
  now rewrite size_range.
Qed.

Lemma identifier_lookup_is_case_sensitive_witness :
  Model.predict_batch (Model.mkModel "best_model.pkl" Scenario.constant_classifier ["age"])
    0%nat [Scenario.exported]
  = (inr 3%nat,
     [Scenario.exported; Spec.lowered Scenario.exported; Spec.normalised Scenario.exported;
      Pandas.mkFrame 2
        [("id", Pandas.Int64Series [0%Z; 1%Z]);
         ("prediction", Pandas.Float64Series [Some (7 # 10); Some (7 # 10)])]])
  /\ ~ In "ID" (Pandas.columns (Spec.normalised Scenario.exported)).
Proof.
  destruct (identifier_lookup_is_case_sensitive
              (Model.mkModel "best_model.pkl" Scenario.constant_classifier ["age"])
              [Scenario.exported] 0%nat Scenario.exported "ID"
              (Pandas.Int64Series [17%Z; 42%Z]) [Some (7 # 10); Some (7 # 10)]
              eq_refl eq_refl (or_intror (or_introl eq_refl)) eq_refl)
    as (_ & Hn & Hb).
  - simpl. intros [H|[H|[H|H]]]; try discriminate; exact H.
  - reflexivity.
  - reflexivity.
  - split; [exact Hb | exact Hn].
Defined.

(** C2 (the code departs from it). An artifact that has neither
    [feature_names_in_] nor [named_steps] is deserialised and then
    [load_model] raises AttributeError; an artifact with feature names and
    [get_params] but no [named_steps] loads, and [get_model_info] raises
    AttributeError on it. *)
Theorem load_model_needs_named_steps :
  Model.load_model (fun _ => Some (inr Scenario.bare_estimator)) "models/best_model.pkl"
  = inl (Pandas.AttributeError "named_steps")
  /\ Model.load_model (fun _ => Some (inr Scenario.scoring_classifier))
       "models/best_model.pkl"
     = inr (Model.mkModel "models/best_model.pkl" Scenario.scoring_classifier ["age"])
  /\ Model.get_model_info
       (Model.mkModel "models/best_model.pkl" Scenario.scoring_classifier ["age"])
     = inl (Pandas.AttributeError "named_steps").
Proof. repeat split. Qed.

(** ** Statistics of a batch *)

Section StatisticsFacts.
Import Pandas Spec.

Lemma dropna_Some (l : list Q) : Num.dropna (map Some l) = l.
Proof. induction l as [|x r IH]; simpl; congruence. Qed.

Lemma Qmin_cases (x y : Q) : Qmin x y = x \/ Qmin x y = y.
Proof. unfold Qmin, GenericMinMax.gmin. destruct (Qcompare x y); auto. Qed.

Lemma Qmax_cases (x y : Q) : Qmax x y = x \/ Qmax x y = y.
Proof. unfold Qmax, GenericMinMax.gmax. destruct (Qcompare x y); auto. Qed.

Lemma fold_Qmin_least (r : list Q) (x : Q) :
  In (fold_left Qmin r x) (x :: r)
  /\ forall y, In y (x :: r) -> fold_left Qmin r x <= y.
Proof.
  revert x. induction r as [|a r IH]; intros x; simpl.
  - split; [now left|]. intros y [<-|[]]. apply Qle_refl.
  - destruct (IH (Qmin x a)) as [Hin Hle]. split.
    + destruct Hin as [E|Hin]; [|now right; right].
      rewrite <- E. destruct (Qmin_cases x a) as [->| ->]; auto.
    + intros y [<-|[<-|Hy]].
      * eapply Qle_trans; [apply Hle; now left | apply Q.le_min_l].
      * eapply Qle_trans; [apply Hle; now left | apply Q.le_min_r].
      * apply Hle. now right.
Qed.

Lemma fold_Qmax_greatest (r : list Q) (x : Q) :
  In (fold_left Qmax r x) (x :: r)
  /\ forall y, In y (x :: r) -> y <= fold_left Qmax r x.
Proof.
  revert x. induction r as [|a r IH]; intros x; simpl.
  - split; [now left|]. intros y [<-|[]]. apply Qle_refl.
  - destruct (IH (Qmax x a)) as [Hin Hle]. split.
    + destruct Hin as [E|Hin]; [|now right; right].
      rewrite <- E. destruct (Qmax_cases x a) as [->| ->]; auto.
    + intros y [<-|[<-|Hy]].
      * eapply Qle_trans; [apply Q.le_max_l | apply Hle; now left].
      * eapply Qle_trans; [apply Q.le_max_r | apply Hle; now left].
      * apply Hle. now right.
Qed.

Lemma count_gt_above (x : Q) (l : list Q) : count_gt x (map Some l) = above x l.
Proof.
  unfold count_gt, above. induction l as [|p r IH]; [reflexivity|].
  cbn [map filter]. destruct (Qlt_le_dec x p) as [H|H].
  - apply Qlt_not_le in H. destruct (Qle_bool p x) eqn:E.
    + apply Qle_bool_iff in E. contradiction.
    + cbn [negb List.length]. now rewrite IH.
  - apply Qle_bool_iff in H. rewrite H. exact IH.
Qed.

Lemma count_le_not_above (x : Q) (l : list Q) :
  count_le x (map Some l) = not_above x l.
Proof.
  unfold count_le, not_above. induction l as [|p r IH]; [reflexivity|].
  cbn [map filter]. destruct (Qlt_le_dec x p) as [H|H].
  - apply Qlt_not_le in H. destruct (Qle_bool p x) eqn:E.
    + apply Qle_bool_iff in E. contradiction.
    + exact IH.
  - apply Qle_bool_iff in H. rewrite H. cbn [List.length]. now rewrite IH.
Qed.

Lemma above_not_above (x : Q) (l : list Q) :
  (above x l + not_above x l)%nat = List.length l.
Proof.
  unfold above, not_above. induction l as [|p r IH]; [reflexivity|].
  cbn [filter]. destruct (Qlt_le_dec x p); cbn [List.length]; lia.
Qed.

Lemma count_positive (l : list Q) : l <> [] -> 0 < count l.
Proof.
  intros H. unfold count. destruct l as [|x r]; [contradiction|].
  change 0 with (inject_Z 0). rewrite <- Zlt_Qlt. simpl. lia.
Qed.

Lemma var_sample (l : list Q) :
  (2 <= List.length l)%nat ->
  exists v, var 1 (map Some l) = Some v /\ v == squared_deviations l / (count l - 1).
Proof.
  intros H. unfold var. rewrite dropna_Some.
  destruct (List.length l <=? 1)%nat eqn:E; [apply Nat.leb_le in E; lia|].
  eexists. split; [reflexivity|]. unfold squared_deviations, count.
  apply Qdiv_comp; [reflexivity|].
  rewrite Nat2Z.inj_sub by lia. unfold Z.sub.
  rewrite inject_Z_plus, inject_Z_opp. reflexivity.
Qed.

End StatisticsFacts.

(** C1 (amended). For a non-empty sequence of probabilities the statistics
    record has the fields mean, min, max, std, risk_count, no_risk_count:
    the arithmetic mean, the least and the greatest value, the sample
    standard deviation (ddof=1: divisor n - 1, NaN for a single value), the
    number of values strictly above 0.5 and the number of values at most
    0.5; the two counts add up to the length. *)
Theorem batch_statistics (l : list Q) :
  l <> [] ->
  let s := Main.statistics (map Some l) in
  (exists m, Main.mean s = Some m /\ m * Pandas.count l == Pandas.total l)
  /\ (exists lo, Main.min s = Some lo /\ In lo l /\ forall p, In p l -> lo <= p)
  /\ (exists hi, Main.max s = Some hi /\ In hi l /\ forall p, In p l -> p <= hi)
  /\ Main.std s
     = (if Nat.eqb (List.length l) 1 then None else Some (Spec.sample_std l))
  /\ Main.risk_count s = Spec.above (1 # 2) l
  /\ Main.no_risk_count s = Spec.not_above (1 # 2) l
  /\ (Main.risk_count s + Main.no_risk_count s)%nat = List.length l.
Proof.
  intros Hne. cbv zeta. unfold Main.statistics.
  cbn [Main.mean Main.min Main.max Main.std Main.risk_count Main.no_risk_count].
  unfold Pandas.mean, Pandas.min, Pandas.max. rewrite !dropna_Some.
  rewrite count_gt_above, count_le_not_above.
  destruct l as [|x r]; [contradiction|].
  split.
  { eexists. split; [reflexivity|].
    rewrite Qmult_comm. apply Qmult_div_r.
    intros E. pose proof (count_positive (x :: r) Hne) as H. rewrite E in H.
    now apply Qlt_irrefl in H. }
  split.
  { eexists. split; [reflexivity|]. apply fold_Qmin_least. }
  split.
  { eexists. split; [reflexivity|]. apply fold_Qmax_greatest. }
  split.
  { unfold Pandas.std. destruct r as [|y r].
    - reflexivity.
    - destruct (var_sample (x :: y :: r)) as (v & Ev & Hv); [simpl; lia|].
      rewrite Ev. cbn [option_map List.length Nat.eqb]. unfold Spec.sample_std.
      do 2 f_equal. now apply Qreals.Qeq_eqR. }
  split; [reflexivity|]. split; [reflexivity|].
  apply above_not_above.
Qed.

Lemma batch_statistics_witness :
  Scenario.probabilities <> []
  /\ (exists m, Main.mean (Main.statistics (map Some Scenario.probabilities)) = Some m
               /\ m == 525 # 1000)
  /\ Main.min (Main.statistics (map Some Scenario.probabilities)) = Some (2 # 10)
  /\ Main.max (Main.statistics (map Some Scenario.probabilities)) = Some (9 # 10)
  /\ Main.risk_count (Main.statistics (map Some Scenario.probabilities)) = 2%nat
  /\ Main.no_risk_count (Main.statistics (map Some Scenario.probabilities)) = 2%nat.
Proof.
  assert (Hne : Scenario.probabilities <> []) by discriminate.
  split; [exact Hne|].
  destruct (batch_statistics Scenario.probabilities Hne)
    as ((m & Em & Hm) & _ & _ & _ & Hrisk & Hno & _).
  split.
  - exists m. split; [exact Em|].
    apply (Qmult_inj_r _ _ (Pandas.count Scenario.probabilities)); [discriminate|].
    rewrite Hm. reflexivity.
  - repeat split; first [exact Hrisk | exact Hno | reflexivity].
Defined.

(** C1 as stated fails on the standard deviation: for the probabilities
    0.2, 0.6, 0.9, 0.4 the [std] of the record is not the population
    standard deviation. *)
Lemma std_is_not_population :
  Main.std (Main.statistics (map Some Scenario.probabilities))
  <> Some (Spec.population_std Scenario.probabilities).
Proof.
  unfold Main.statistics. cbn [Main.std]. unfold Pandas.std.
  destruct (var_sample Scenario.probabilities) as (v & Ev & Hv); [simpl; lia|].
  rewrite Ev. cbn [option_map]. unfold Spec.population_std. intros H.
  injection H as H. apply R_sqrt.sqrt_inj in H.
  - apply Qreals.eqR_Qeq in H. rewrite Hv in H. vm_compute in H. discriminate.
  - rewrite <- RMicromega.Q2R_0. apply Qreals.Qle_Rle. rewrite Hv. vm_compute. discriminate.
  - rewrite <- RMicromega.Q2R_0. apply Qreals.Qle_Rle. vm_compute. discriminate.
Qed.

(** C5 (amended). Summarizing a sequence with no value, the empty one in
    particular, raises nothing: the record has NaN for mean, min, max and
    std, and 0 for both counts. *)
Theorem empty_statistics (n : nat) :
  Main.statistics (repeat None n) = Main.mkStatistics None None None None 0 0
  /\ Main.statistics [] = Main.mkStatistics None None None None 0 0.
Proof.
  split; [|reflexivity].
  assert (Hd : Num.dropna (repeat None n) = []).
  { induction n as [|n IH]; [reflexivity | exact IH]. }
  assert (Hgt : Pandas.count_gt (1 # 2) (repeat None n) = 0%nat).
  { clear Hd. unfold Pandas.count_gt. induction n as [|n IH]; [reflexivity | exact IH]. }
  assert (Hle : Pandas.count_le (1 # 2) (repeat None n) = 0%nat).
  { clear Hd Hgt. unfold Pandas.count_le.
    induction n as [|n IH]; [reflexivity | exact IH]. }
  unfold Main.statistics, Pandas.mean, Pandas.min, Pandas.max, Pandas.std, Pandas.var.
  now rewrite Hd, Hgt, Hle.
Qed.

(** C5 as stated fails: an upload without rows, scored by a classifier
    that returns one probability per row, is answered with a statistics
    record, not with an error. *)
Lemma empty_batch_is_summarised :
  fst (Main.predict_from_csv
         (Some (Model.mkModel "best_model.pkl" Scenario.constant_classifier ["age"]))
         "upload.csv" (inr Scenario.empty_batch) [])
  = inr (inr (Main.mkResponse 0
                (Pandas.mkFrame 0
                   [("id", Pandas.Int64Series []);
                    ("prediction", Pandas.Float64Series [])])
                (Main.mkStatistics None None None None 0 0))).
Proof. reflexivity. Qed.

(** ** Inputs on which the normalisation raises *)

(** A float column of the binary set without any value cannot be cast. *)
Example entirely_missing_binary_column :
  fst (Model.preprocess_data 0%nat
         [Pandas.mkFrame 2 [("diabetes", Pandas.Float64Series [None; None])]])
  = inl Pandas.IntCastingNaNError.
Proof. reflexivity. Qed.

(** Two labels that fold to [gender]: the selection is a DataFrame. *)
Example homonymous_gender_columns :
  fst (Model.preprocess_data 0%nat
         [Pandas.mkFrame 1
            [("Gender", Pandas.ObjectSeries [Pandas.PyStr "male"]);
             ("gender", Pandas.ObjectSeries [Pandas.PyStr "female"])]])
  = inl (Pandas.AttributeError "dtype").
Proof. reflexivity. Qed.

(** Two number columns whose labels fold to one. *)
Example homonymous_number_columns :
  fst (Model.preprocess_data 0%nat
         [Pandas.mkFrame 1
            [("Age", Pandas.Int64Series [55%Z]); ("age", Pandas.Int64Series [56%Z])]])
  = inl (Pandas.ValueError "The truth value of a Series is ambiguous").
Proof. reflexivity. Qed.

(** ** Small checks *)

Example lower_ID : Text.lower "Unnamed:_0" = "unnamed:_0" /\ Text.lower "ID" = "id".
Proof. split; reflexivity. Qed.

Example median_diabetes :
  Num.median [Some 1; None; Some 0; Some 1] = Some 1.
Proof. reflexivity. Qed.

Example round_ties :
  map Num.round_half_even [1#2; 3#2; 5#2; -1#2; 7#10; -7#10] = [0; 2; 2; 0; 1; -1]%Z.
Proof. reflexivity. Qed.

(** * Further properties of the code *)

(** ** More on the normalised frame *)

Section NormalisedColumns.
Import Pandas Spec Model.

Lemma size_normalise_column (c : string * Series) :
  size (snd (normalise_column c)) = size (snd c).
Proof.
  destruct c as [n s]. unfold normalise_column. destruct s; try reflexivity.
  - destruct (String.eqb n "gender"); cbn [snd encode size]; [apply length_map | reflexivity].
  - destruct (Text.mem n binary_cols); cbn [snd coerce fill size]; apply length_map.
Qed.

(** Where a column of the normalised frame comes from. *)
Lemma In_normalised_inv (f : DataFrame) (c' : string * Series) :
  In c' (cols (normalised f)) ->
  exists n s,
    In (n, s) (cols f) /\ Text.mem (Text.lower n) drop_cols = false
    /\ c' = normalise_column (Text.lower n, s).
Proof.
  unfold normalised, frame_map, pruned, without_columns, lowered. cbn [cols].
  intros H. apply in_map_iff in H. destruct H as (c & <- & H).
  apply filter_In in H. destruct H as [H Hkeep].
  apply in_map_iff in H. destruct H as ([n s] & <- & H).
  exists n, s. cbn [fst snd] in *. apply negb_true_iff in Hkeep. now repeat split.
Qed.

Lemma median_none (vals : list Num.float64) :
  Num.median vals = None <-> Num.dropna vals = [].
Proof.
  split.
  - intros H. destruct (Num.dropna vals) as [|x r] eqn:E; [reflexivity|].
    exfalso. apply (median_some vals); [now rewrite E | exact H].
  - intros H. unfold Num.median. now rewrite H.
Qed.

Lemma any_null_impute (vals l : list Num.float64) :
  Num.any_null (map (impute vals) l) = true -> Num.median vals = None.
Proof.
  induction l as [|v r IH]; simpl; [discriminate|].
  intros H. apply orb_true_iff in H. destruct H as [H|H]; [|now apply IH].
  destruct v as [q|]; simpl in H; [discriminate|].
  now destruct (Num.median vals).
Qed.

Lemma impute_without_median (vals l : list Num.float64) :
  Num.median vals = None -> map (impute vals) l = l.
Proof.
  intros H. induction l as [|v r IH]; simpl; [reflexivity|].
  rewrite IH. destruct v; simpl; [reflexivity | now rewrite H].
Qed.

Lemma dropna_nil_any_null (vals : list Num.float64) :
  vals <> [] -> Num.dropna vals = [] -> Num.any_null vals = true.
Proof.
  destruct vals as [|[q|] r]; simpl; [contradiction | discriminate | reflexivity].
Qed.

End NormalisedColumns.

(** X1. A float column outside the binary set keeps its float dtype: its
    present values are unchanged and each missing one becomes the median of
    the present values of the column in this batch; when the column has no
    value at all it stays entirely missing. *)
Theorem numeric_imputation (st : Pandas.store) (df : Pandas.loc) (f : Pandas.DataFrame)
    (n : string) (vals : list Num.float64) :
  nth_error st df = Some f ->
  Spec.ready f = true ->
  In (n, Pandas.Float64Series vals) (Pandas.cols f) ->
  Text.mem (Text.lower n) Model.binary_cols = false ->
  Text.mem (Text.lower n) Model.drop_cols = false ->
  exists (f' : Pandas.DataFrame) (filled : list Num.float64),
    Model.preprocess_data df st = (inr (S (List.length st)), st ++ [Spec.lowered f; f'])
    /\ Pandas.select (Text.lower n) f'
       = inr (Pandas.OneColumn (Pandas.Float64Series filled))
    /\ Forall2
         (fun v w =>
            match v with
            | Some q => w = Some q
            | None =>
              match w with
              | Some m => Spec.is_median (Num.dropna vals) m
              | None => Num.dropna vals = []
              end
            end) vals filled.
Proof.
  intros Hat Hready Hin Hbin Hkeep.
  exists (Spec.normalised f), (map (Spec.impute vals) vals).
  split; [now apply preprocess_data_spec|]. split.
  - rewrite (select_normalised f n _ Hready Hin Hkeep).
    unfold Spec.normalise_column. now rewrite Hbin.
  - apply Forall2_map_r. intros [q|] _; cbn [Spec.impute]; [reflexivity|].
    destruct (Num.median vals) as [m|] eqn:E.
    + now apply median_is_median.
    + now apply median_none.
Qed.

Lemma numeric_imputation_witness :
  exists f' : Pandas.DataFrame,
    Model.preprocess_data 0%nat
      [Pandas.mkFrame 3 [("BMI", Pandas.Float64Series [Some (22 # 1); None; Some (30 # 1)])]]
    = (inr 2%nat,
       [Pandas.mkFrame 3 [("BMI", Pandas.Float64Series [Some (22 # 1); None; Some (30 # 1)])];
        Pandas.mkFrame 3 [("bmi", Pandas.Float64Series [Some (22 # 1); None; Some (30 # 1)])];
        f'])
    /\ Pandas.select "bmi" f'
       = inr (Pandas.OneColumn
                (Pandas.Float64Series [Some (22 # 1); Some (52 # 2); Some (30 # 1)])).
Proof.
  destruct (numeric_imputation
              [Pandas.mkFrame 3
                 [("BMI", Pandas.Float64Series [Some (22 # 1); None; Some (30 # 1)])]]
              0%nat _ "BMI" [Some (22 # 1); None; Some (30 # 1)]
              eq_refl eq_refl (or_introl eq_refl) eq_refl eq_refl)
    as (f' & filled & H1 & _).
  exists f'. split; [exact H1|].
  assert (E : Model.preprocess_data 0%nat
                [Pandas.mkFrame 3
                   [("BMI", Pandas.Float64Series [Some (22 # 1); None; Some (30 # 1)])]]
              = (inr 2%nat,
                 [Pandas.mkFrame 3
                    [("BMI", Pandas.Float64Series [Some (22 # 1); None; Some (30 # 1)])];
                  Pandas.mkFrame 3
                    [("bmi", Pandas.Float64Series [Some (22 # 1); None; Some (30 # 1)])];
                  Pandas.mkFrame 3
                    [("bmi",
                      Pandas.Float64Series [Some (22 # 1); Some (52 # 2); Some (30 # 1)])]]))
    by reflexivity.
  rewrite E in H1. injection H1 as <-. reflexivity.
Defined.

(** X2. Integer and boolean columns, and text columns other than [gender],
    come out of the normalisation exactly as they went in (under their
    lower-cased label), unless the label is one of the pruned ones. *)
Theorem other_columns_pass_through (st : Pandas.store) (df : Pandas.loc)
    (f : Pandas.DataFrame) (n : string) (s : Pandas.Series) :
  nth_error st df = Some f ->
  Spec.ready f = true ->
  In (n, s) (Pandas.cols f) ->
  Text.mem (Text.lower n) Model.drop_cols = false ->
  (Pandas.dtype_of s = Pandas.int64 \/ Pandas.dtype_of s = Pandas.bool_
   \/ (Pandas.dtype_of s = Pandas.object /\ Text.lower n <> "gender")) ->
  exists f' : Pandas.DataFrame,
    Model.preprocess_data df st = (inr (S (List.length st)), st ++ [Spec.lowered f; f'])
    /\ Pandas.select (Text.lower n) f' = inr (Pandas.OneColumn s).
Proof.
  intros Hat Hready Hin Hkeep Hty. exists (Spec.normalised f).
  split; [now apply preprocess_data_spec|].
  rewrite (select_normalised f n _ Hready Hin Hkeep).
  unfold Spec.normalise_column.
  destruct s as [v|v|v|v]; destruct Hty as [H|[H|[H Hg]]]; try discriminate; try reflexivity.
  apply String.eqb_neq in Hg. now rewrite Hg.
Qed.

Lemma other_columns_pass_through_witness :
  exists f' : Pandas.DataFrame,
    Model.preprocess_data 0%nat
      [Pandas.mkFrame 1 [("Diet", Pandas.ObjectSeries [Pandas.PyStr "Vegan"])]]
    = (inr 2%nat,
       [Pandas.mkFrame 1 [("Diet", Pandas.ObjectSeries [Pandas.PyStr "Vegan"])];
        Pandas.mkFrame 1 [("diet", Pandas.ObjectSeries [Pandas.PyStr "Vegan"])]; f'])
    /\ Pandas.select "diet" f'
       = inr (Pandas.OneColumn (Pandas.ObjectSeries [Pandas.PyStr "Vegan"])).
Proof.
  apply (other_columns_pass_through
           [Pandas.mkFrame 1 [("Diet", Pandas.ObjectSeries [Pandas.PyStr "Vegan"])]]
           0%nat _ "Diet" (Pandas.ObjectSeries [Pandas.PyStr "Vegan"])
           eq_refl eq_refl (or_introl eq_refl) eq_refl).
  right. right. split; [reflexivity | discriminate].
Defined.

Section NormalisedAgain.
Import Pandas Spec Model.

Lemma fill_idem (vals : list Num.float64) :
  map (impute (map (impute vals) vals)) (map (impute vals) vals) = map (impute vals) vals.
Proof.
  destruct (Num.median vals) as [m|] eqn:E.
  - apply impute_no_null.
    destruct (Num.any_null (map (impute vals) vals)) eqn:H; [|reflexivity].
    apply any_null_impute in H. congruence.
  - now rewrite !(impute_without_median vals) by exact E.
Qed.

Lemma normalise_column_idem (c : string * Series) :
  normalise_column (normalise_column c) = normalise_column c.
Proof.
  destruct c as [n s]. destruct s as [v|v|v|v]; try reflexivity.
  - unfold normalise_column.
    destruct (String.eqb n "gender") eqn:E; cbv beta iota; cbn [encode];
      [reflexivity | now rewrite E].
  - unfold normalise_column.
    destruct (Text.mem n binary_cols) eqn:E; cbv beta iota; cbn [coerce fill];
      [reflexivity|].
    rewrite E. now rewrite fill_idem.
Qed.

Lemma normalised_lower_case (f : DataFrame) (c : string * Series) :
  In c (cols (normalised f)) ->
  Text.lower (fst c) = fst c /\ Text.mem (fst c) drop_cols = false.
Proof.
  intros H. destruct (In_normalised_inv f c H) as (n & s & _ & Hkeep & ->).
  rewrite fst_normalise_column. cbn [fst]. split; [apply lower_idem | exact Hkeep].
Qed.

Lemma lowered_fixed (f : DataFrame) :
  (forall c, In c (cols f) -> Text.lower (fst c) = fst c) -> lowered f = f.
Proof.
  intros H. unfold lowered. rewrite <- (frame_eta f) at 3. f_equal.
  rewrite <- (map_id (cols f)) at 2. apply map_ext_in. intros [n s] Hc.
  specialize (H _ Hc). cbn [fst snd] in *. now rewrite H.
Qed.

Lemma pruned_fixed (f : DataFrame) :
  (forall c, In c (cols f) ->
     Text.lower (fst c) = fst c /\ Text.mem (fst c) drop_cols = false) ->
  pruned f = f.
Proof.
  intros H. unfold pruned. rewrite lowered_fixed by (intros c Hc; now apply H).
  unfold without_columns. rewrite <- (frame_eta f) at 3. f_equal.
  apply forallb_filter_id. apply forallb_forall. intros c Hc.
  destruct (H c Hc) as [_ Hk]. now rewrite Hk.
Qed.

(** The normalised frame is a fixed point of the normalisation. *)
Lemma normalised_fixed (f : DataFrame) :
  lowered (normalised f) = normalised f
  /\ pruned (normalised f) = normalised f
  /\ normalised (normalised f) = normalised f.
Proof.
  assert (Hp : pruned (normalised f) = normalised f).
  { apply pruned_fixed. apply normalised_lower_case. }
  split; [|split; [exact Hp|]].
  - apply lowered_fixed. intros c Hc. now apply (normalised_lower_case f c).
  - unfold normalised at 1. rewrite Hp. apply frame_map_id.
    intros c Hc. destruct (In_normalised_inv f c Hc) as (n & s & _ & _ & ->).
    apply normalise_column_idem.
Qed.

Lemma normalised_ready (f : DataFrame) : ready f = true -> ready (normalised f) = true.
Proof.
  intros H. unfold ready. destruct (normalised_fixed f) as (_ & Hp & _). rewrite Hp.
  apply andb_true_iff. split.
  - apply distinct_NoDup. now apply normalised_distinct.
  - apply forallb_forall. intros c Hc.
    destruct (In_normalised_inv f c Hc) as (n & s & _ & _ & ->).
    unfold coercible_column, normalise_column.
    destruct s as [v|v|v|v]; try reflexivity.
    + now destruct (String.eqb (Text.lower n) "gender").
    + destruct (Text.mem (Text.lower n) binary_cols) eqn:E; [reflexivity|].
      cbn [fst snd fill]. now rewrite E.
Qed.

End NormalisedAgain.

Lemma lower_no_capital (s : string) : Shape.no_capital (Text.lower s) = true.
Proof.
  induction s as [|c s IH]; [reflexivity|].
  cbn [Text.lower Shape.no_capital]. rewrite IH, andb_true_r.
  destruct c as [[] [] [] [] [] [] [] []]; reflexivity.
Qed.

(** X3. The normalisation keeps the shape of the batch: the normalised frame
    has the rows of the input, its columns are the surviving columns in
    their order with as many cells each, a frame with one cell per row in
    every column stays so, and no label of it has a capital letter. *)
Theorem normalisation_keeps_shape (st : Pandas.store) (df : Pandas.loc)
    (f : Pandas.DataFrame) :
  nth_error st df = Some f ->
  Spec.ready f = true ->
  exists f' : Pandas.DataFrame,
    Model.preprocess_data df st = (inr (S (List.length st)), st ++ [Spec.lowered f; f'])
    /\ Pandas.index_len f' = Pandas.index_len f
    /\ Forall2 (fun c c' => fst c' = fst c /\ Pandas.size (snd c') = Pandas.size (snd c))
         (Pandas.cols (Spec.pruned f)) (Pandas.cols f')
    /\ (Shape.well_formed f = true -> Shape.well_formed f' = true)
    /\ Shape.lower_case (Pandas.columns f') = true.
Proof.
  intros Hat Hready. exists (Spec.normalised f).
  split; [now apply preprocess_data_spec|].
  split; [reflexivity|]. split.
  { unfold Spec.normalised, Spec.frame_map. cbn [Pandas.cols].
    apply Forall2_map_r. intros c _.
    split; [apply fst_normalise_column | apply size_normalise_column]. }
  split.
  { unfold Shape.well_formed. rewrite !forallb_forall. intros Hwf c Hc.
    destruct (In_normalised_inv f c Hc) as (n & s & Hin & _ & ->).
    rewrite size_normalise_column. exact (Hwf _ Hin). }
  unfold Shape.lower_case. apply forallb_forall. intros x Hx.
  unfold Pandas.columns in Hx. apply in_map_iff in Hx. destruct Hx as (c & <- & Hc).
  rewrite <- (proj1 (normalised_lower_case f c Hc)). apply lower_no_capital.
Qed.

Lemma normalisation_keeps_shape_witness :
  exists f' : Pandas.DataFrame,
    Model.preprocess_data 0%nat [Scenario.exported]
    = (inr 2%nat, [Scenario.exported; Spec.lowered Scenario.exported; f'])
    /\ Pandas.index_len f' = 2%nat
    /\ Shape.well_formed f' = true
    /\ Shape.lower_case (Pandas.columns f') = true.
Proof.
  destruct (normalisation_keeps_shape [Scenario.exported] 0%nat Scenario.exported
              eq_refl eq_refl) as (f' & H1 & H2 & _ & H4 & H5).
  exists f'. split; [exact H1|]. split; [exact H2|].
  split; [exact (H4 eq_refl) | exact H5].
Defined.

(** X4. After the normalisation a number column has a missing value only
    when it is a float column without any value: every other missing number
    has been imputed. *)
Theorem no_missing_number_is_left (st : Pandas.store) (df : Pandas.loc)
    (f : Pandas.DataFrame) :
  nth_error st df = Some f ->
  Spec.ready f = true ->
  exists f' : Pandas.DataFrame,
    Model.preprocess_data df st = (inr (S (List.length st)), st ++ [Spec.lowered f; f'])
    /\ forall label s,
         In (label, s) (Pandas.cols f') ->
         Pandas.is_number (Pandas.dtype_of s) = true ->
         Pandas.isnull_any s = true ->
         exists vals, s = Pandas.Float64Series vals /\ Num.dropna vals = [].
Proof.
  intros Hat Hready. exists (Spec.normalised f).
  split; [now apply preprocess_data_spec|].
  intros label s Hin Hnum Hnull.
  destruct (In_normalised_inv f _ Hin) as (n & s0 & _ & _ & E).
  unfold Spec.normalise_column in E.
  destruct s0 as [v|v|v|v].
  - destruct (String.eqb (Text.lower n) "gender"); injection E as -> ->; discriminate.
  - injection E as -> ->. discriminate.
  - destruct (Text.mem (Text.lower n) Model.binary_cols); injection E as -> ->;
      [discriminate|].
    cbn [Spec.fill Pandas.isnull_any] in Hnull. apply any_null_impute in Hnull.
    exists (map (Spec.impute v) v). split; [reflexivity|].
    rewrite (impute_without_median v v Hnull). now apply median_none.
  - injection E as -> ->. discriminate.
Qed.

Lemma no_missing_number_is_left_witness :
  exists f' : Pandas.DataFrame,
    Model.preprocess_data 0%nat [Scenario.diabetes_batch]
    = (inr 2%nat, [Scenario.diabetes_batch; Spec.lowered Scenario.diabetes_batch; f'])
    /\ forallb (fun c => negb (Pandas.isnull_any (snd c))) (Pandas.cols f') = true.
Proof.
  destruct (no_missing_number_is_left [Scenario.diabetes_batch] 0%nat
              Scenario.diabetes_batch eq_refl eq_refl) as (f' & H1 & _).
  exists f'. split; [exact H1|].
  assert (E : Model.preprocess_data 0%nat [Scenario.diabetes_batch]
              = (inr 2%nat,
                 [Scenario.diabetes_batch; Spec.lowered Scenario.diabetes_batch;
                  Spec.normalised Scenario.diabetes_batch])) by reflexivity.
  rewrite E in H1. injection H1 as <-. reflexivity.
Defined.

(** X5. The normalisation is idempotent: run on its own output it accepts
    it and returns a frame equal to it. *)
Theorem normalisation_is_idempotent (st : Pandas.store) (df : Pandas.loc)
    (f : Pandas.DataFrame) :
  nth_error st df = Some f ->
  Spec.ready f = true ->
  exists (f' : Pandas.DataFrame) (st' : Pandas.store),
    Model.preprocess_data df st = (inr (S (List.length st)), st')
    /\ nth_error st' (S (List.length st)) = Some f'
    /\ Model.preprocess_data (S (List.length st)) st'
       = (inr (S (List.length st')), st' ++ [f'; f']).
Proof.
  intros Hat Hready.
  exists (Spec.normalised f), (st ++ [Spec.lowered f; Spec.normalised f]).
  assert (Hn : nth_error (st ++ [Spec.lowered f; Spec.normalised f]) (S (List.length st))
               = Some (Spec.normalised f)).
  { rewrite nth_error_app2 by lia.
    now replace (S (List.length st) - List.length st)%nat with 1%nat by lia. }
  split; [now apply preprocess_data_spec|]. split; [exact Hn|].
  rewrite (preprocess_data_spec _ _ _ Hn (normalised_ready f Hready)).
  destruct (normalised_fixed f) as (Hl & _ & Hnn). now rewrite Hl, Hnn.
Qed.

Lemma normalisation_is_idempotent_witness :
  exists (f' : Pandas.DataFrame) (st' : Pandas.store),
    Model.preprocess_data 0%nat [Scenario.patient] = (inr 2%nat, st')
    /\ nth_error st' 2%nat = Some f'
    /\ Model.preprocess_data 2%nat st' = (inr (S (List.length st')), st' ++ [f'; f']).
Proof.
  exact (normalisation_is_idempotent [Scenario.patient] 0%nat Scenario.patient
           eq_refl eq_refl).
Defined.

(** X6. The feature matrix depends only on the input after case folding and
    pruning: two raw frames that differ in the case of their labels, or in
    their [id], [unnamed:_0] or [income] columns, are normalised to the same
    frame, so these never influence a prediction. *)
Theorem normalisation_ignores_case_and_pruned_columns (st1 st2 : Pandas.store)
    (df1 df2 : Pandas.loc) (f1 f2 : Pandas.DataFrame) :
  nth_error st1 df1 = Some f1 ->
  nth_error st2 df2 = Some f2 ->
  Spec.pruned f1 = Spec.pruned f2 ->
  Spec.ready f1 = true ->
  exists f' : Pandas.DataFrame,
    Model.preprocess_data df1 st1
    = (inr (S (List.length st1)), st1 ++ [Spec.lowered f1; f'])
    /\ Model.preprocess_data df2 st2
       = (inr (S (List.length st2)), st2 ++ [Spec.lowered f2; f']).
Proof.
  intros H1 H2 E Hready.
  assert (Hready2 : Spec.ready f2 = true).
  { unfold Spec.ready in *. now rewrite <- E. }
  exists (Spec.normalised f1). split; [now apply preprocess_data_spec|].
  rewrite (preprocess_data_spec _ _ _ H2 Hready2).
  unfold Spec.normalised. now rewrite E.
Qed.

Lemma normalisation_ignores_case_and_pruned_columns_witness :
  exists f' : Pandas.DataFrame,
    Model.preprocess_data 0%nat
      [Pandas.mkFrame 1
         [("ID", Pandas.Int64Series [17%Z]);
          ("GENDER", Pandas.ObjectSeries [Pandas.PyStr "Female"])]]
    = (inr 2%nat,
       [Pandas.mkFrame 1
          [("ID", Pandas.Int64Series [17%Z]);
           ("GENDER", Pandas.ObjectSeries [Pandas.PyStr "Female"])];
        Pandas.mkFrame 1
          [("id", Pandas.Int64Series [17%Z]);
           ("gender", Pandas.ObjectSeries [Pandas.PyStr "Female"])]; f'])
    /\ Model.preprocess_data 0%nat
         [Pandas.mkFrame 1
            [("Gender", Pandas.ObjectSeries [Pandas.PyStr "Female"]);
             ("Income", Pandas.Float64Series [None])]]
       = (inr 2%nat,
          [Pandas.mkFrame 1
             [("Gender", Pandas.ObjectSeries [Pandas.PyStr "Female"]);
              ("Income", Pandas.Float64Series [None])];
           Pandas.mkFrame 1
             [("gender", Pandas.ObjectSeries [Pandas.PyStr "Female"]);
              ("income", Pandas.Float64Series [None])]; f']).
Proof.
  exact (normalisation_ignores_case_and_pruned_columns
           [Pandas.mkFrame 1
              [("ID", Pandas.Int64Series [17%Z]);
               ("GENDER", Pandas.ObjectSeries [Pandas.PyStr "Female"])]]
           [Pandas.mkFrame 1
              [("Gender", Pandas.ObjectSeries [Pandas.PyStr "Female"]);
               ("Income", Pandas.Float64Series [None])]]
           0%nat 0%nat _ _ eq_refl eq_refl eq_refl eq_refl).
Defined.

(** ** When the normalisation raises *)

Section Raising.
Import Pandas Spec Model.
Local Open Scope nat_scope.

(** [preprocess_data] up to the pruning. *)
Lemma preprocess_data_unfold (st : store) (df : loc) (f : DataFrame) :
  nth_error st df = Some f ->
  preprocess_data df st
  = bind (gender_step (S (List.length st))) (fun _ =>
      bind (for_each binary_cols (binary_step (S (List.length st)))) (fun _ =>
        bind (select_number_columns (S (List.length st))) (fun numeric_cols =>
          bind (for_each numeric_cols (fill_step (S (List.length st)))) (fun _ =>
            ret (S (List.length st))))))
      (st ++ [lowered f; pruned f]).
Proof.
  intros Hat. unfold preprocess_data.
  rewrite (run_bind _ _ _ _ _ (run_copy _ _ _ Hat)).
  rewrite (run_bind _ _ _ _ _ (run_get_columns _ _ _ (nth_error_last st f))).
  rewrite (run_bind _ _ _ _ _ (run_lower_columns st f)).
  rewrite (run_bind _ _ _ _ _ (run_get_columns _ _ _ (nth_error_last st (lowered f)))).
  now rewrite (run_bind _ _ _ _ _ (run_drop st (lowered f))).
Qed.

Lemma bind_raises {A B} (m : M A) (k : A -> M B) (e : exn) (st : store) :
  fst (m st) = inl e -> fst (bind m k st) = inl e.
Proof.
  unfold bind. destruct (m st) as [[e'|a] st']; simpl; intros H; [congruence | discriminate].
Qed.

Lemma astype_int_null (vs : list Num.float64) :
  Num.any_null vs = true ->
  astype_int (Num.round (Num.fillna None vs)) = inl IntCastingNaNError.
Proof.
  unfold Num.round, Num.fillna. induction vs as [|v r IH]; [discriminate|].
  intros H. cbn [map astype_int]. destruct v as [q|]; cbn [option_map].
  - rewrite int_of_float_Z. now rewrite (IH H).
  - reflexivity.
Qed.

Lemma coerce_binary_fails (vals : list Num.float64) :
  coercible vals = false -> coerce_binary vals = inl IntCastingNaNError.
Proof.
  unfold coercible. intros H. apply orb_false_elim in H. destruct H as [Hn Hd].
  apply negb_false_iff in Hn. apply negb_false_iff in Hd. apply Nat.eqb_eq in Hd.
  unfold coerce_binary.
  assert (Hm : Num.median vals = None).
  { apply median_none. now destruct (Num.dropna vals). }
  rewrite Hm. now apply astype_int_null.
Qed.

Variables (st : store) (p : loc) (f : DataFrame).
Hypothesis at_p : nth_error st p = Some f.
Hypothesis distinct_labels : NoDup (columns f).

Lemma binary_step_one (x : string) :
  (forall vals, In (x, Float64Series vals) (cols f) -> coercible vals = true) ->
  binary_step p x st = (inr tt, update st p (frame_map (at_label x coerce) f)).
Proof.
  intros Hc. unfold binary_step. rewrite (run_bind _ _ _ _ _ (run_get_columns _ _ _ at_p)).
  destruct (Text.mem x (columns f)) eqn:Hm.
  - destruct (mem_columns _ _ Hm) as [s Hin].
    rewrite (run_bind _ _ _ _ _
               (run_getitem _ _ _ at_p _ _ (select_unique _ _ _ distinct_labels Hin))).
    destruct s as [vals|vals|vals|vals];
      try (apply (unchanged _ _ _ at_p);
           now apply (at_label_fixed f _ _ coerce distinct_labels Hin)).
    rewrite (coerce_binary_spec _ (Hc _ Hin)). cbn [lift]. unfold ret at 1.
    erewrite run_bind by reflexivity. rewrite (run_setitem _ _ _ at_p).
    now rewrite <- (with_column_at f _ (Float64Series vals) coerce distinct_labels Hin).
  - apply (unchanged _ _ _ at_p). now apply at_label_absent.
Qed.

Lemma binary_step_fails (x : string) (vals : list Num.float64) :
  In (x, Float64Series vals) (cols f) -> coercible vals = false ->
  binary_step p x st = (inl IntCastingNaNError, st).
Proof.
  intros Hin Hc. unfold binary_step.
  rewrite (run_bind _ _ _ _ _ (run_get_columns _ _ _ at_p)).
  assert (Hm : Text.mem x (columns f) = true).
  { apply mem_In. apply (in_map fst) in Hin. exact Hin. }
  rewrite Hm.
  rewrite (run_bind _ _ _ _ _
             (run_getitem _ _ _ at_p _ _ (select_unique _ _ _ distinct_labels Hin))).
  now rewrite (coerce_binary_fails _ Hc).
Qed.

End Raising.

Section RaisingLoop.
Import Pandas Spec Model.
Local Open Scope nat_scope.

Lemma binary_loop_fails (p : loc) (xs : list string) :
  forall (st : store) (f : DataFrame),
  nth_error st p = Some f ->
  NoDup (columns f) ->
  (exists x vals,
     In x xs /\ In (x, Float64Series vals) (cols f) /\ coercible vals = false) ->
  fst (for_each xs (binary_step p) st) = inl IntCastingNaNError.
Proof.
  induction xs as [|x0 r IH]; intros st f Hat Hn (x & vals & Hx & Hin & Hbad).
  - contradiction.
  - cbn [for_each].
    assert (Hcase : (exists vals0, In (x0, Float64Series vals0) (cols f)
                                   /\ coercible vals0 = false)
                    \/ (forall vals0, In (x0, Float64Series vals0) (cols f) ->
                                      coercible vals0 = true)).
    { destruct (Text.mem x0 (columns f)) eqn:Hm.
      - destruct (mem_columns _ _ Hm) as [s Hs].
        destruct s as [v|v|v|v];
          try (right; intros vals0 H0;
               pose proof (label_determines _ _ _ _ Hn Hs H0); discriminate).
        destruct (coercible v) eqn:Ev.
        + right. intros vals0 H0.
          pose proof (label_determines _ _ _ _ Hn Hs H0) as E. now injection E as <-.
        + left. now exists v.
      - right. intros vals0 H0. apply mem_false_In in Hm. exfalso. apply Hm.
        apply (in_map fst) in H0. exact H0. }
    destruct Hcase as [(vals0 & H0 & Hb0)|Hgood].
    + apply bind_raises. now rewrite (binary_step_fails st p f Hat Hn x0 vals0 H0 Hb0).
    + rewrite (run_bind _ _ _ _ _ (binary_step_one st p f Hat Hn x0 Hgood)).
      apply (IH _ (frame_map (at_label x0 coerce) f)).
      * apply nth_error_update. now apply nth_error_Some_length in Hat.
      * now rewrite columns_at_label.
      * assert (Hne : x <> x0).
        { intros ->. rewrite (Hgood _ Hin) in Hbad. discriminate. }
        exists x, vals. split; [|split; [|exact Hbad]].
        -- destruct Hx as [E|Hx]; [congruence | exact Hx].
        -- unfold frame_map. cbn [cols]. apply in_map_iff. exists (x, Float64Series vals).
           split; [|exact Hin]. unfold at_label. cbn [fst].
           apply String.eqb_neq in Hne. now rewrite Hne.
Qed.

Lemma labelled_pruned_gender (f : DataFrame) :
  labelled "gender" (pruned f) = labelled "gender" (lowered f).
Proof.
  unfold labelled, pruned, without_columns. cbn [cols]. f_equal.
  induction (cols (lowered f)) as [|c r IH]; [reflexivity|]. cbn [filter].
  destruct (String.eqb (fst c) "gender") eqn:E.
  - assert (Hk : negb (Text.mem (fst c) drop_cols) = true).
    { apply String.eqb_eq in E. now rewrite E. }
    rewrite Hk. cbn [filter]. rewrite E. now rewrite IH.
  - destruct (negb (Text.mem (fst c) drop_cols)); [|exact IH].
    cbn [filter]. now rewrite E.
Qed.

End RaisingLoop.

(** X7. When the labels are distinct after folding and pruning, a float
    column of the binary set that has rows but no value makes the
    normalisation raise IntCastingNaNError: together with the theorems above,
    the normalisation of such a frame returns exactly when no such column
    exists. *)
Theorem entirely_missing_binary_column_raises (st : Pandas.store) (df : Pandas.loc)
    (f : Pandas.DataFrame) (n : string) (vals : list Num.float64) :
  nth_error st df = Some f ->
  Spec.distinct (Pandas.columns (Spec.pruned f)) = true ->
  In (n, Pandas.Float64Series vals) (Pandas.cols f) ->
  In (Text.lower n) Model.binary_cols ->
  vals <> [] ->
  Num.dropna vals = [] ->
  fst (Model.preprocess_data df st) = inl Pandas.IntCastingNaNError
  /\ Spec.ready f = false.
Proof.
  intros Hat Hd Hin Hbin Hne Hnone.
  apply distinct_NoDup in Hd.
  pose proof (In_pruned f n _ Hin (binary_not_dropped _ Hbin)) as Hp.
  assert (Hbad : Spec.coercible vals = false).
  { unfold Spec.coercible. rewrite (dropna_nil_any_null vals Hne Hnone).
    now rewrite Hnone. }
  split.
  - rewrite (preprocess_data_unfold st df f Hat).
    set (q := S (List.length st)).
    set (st2 := st ++ [Spec.lowered f; Spec.pruned f]).
    assert (Hq : nth_error st2 q = Some (Spec.pruned f)).
    { unfold st2, q. rewrite nth_error_app2 by lia.
      now replace (S (List.length st) - List.length st)%nat with 1%nat by lia. }
    rewrite (run_bind _ _ _ _ _ (gender_step_run _ _ _ Hq Hd)).
    apply bind_raises.
    apply (binary_loop_fails q Model.binary_cols _
             (Spec.frame_map (Spec.at_label "gender" Spec.encode) (Spec.pruned f))).
    + apply nth_error_update. now apply nth_error_Some_length in Hq.
    + now rewrite columns_at_label.
    + exists (Text.lower n), vals. split; [exact Hbin|]. split; [|exact Hbad].
      unfold Spec.frame_map. cbn [Pandas.cols]. apply in_map_iff.
      exists (Text.lower n, Pandas.Float64Series vals). split; [|exact Hp].
      unfold Spec.at_label. cbn [fst snd Spec.encode].
      now destruct (String.eqb (Text.lower n) "gender").
  - unfold Spec.ready. apply andb_false_iff. right.
    destruct (forallb Spec.coercible_column (Pandas.cols (Spec.pruned f))) eqn:E;
      [|reflexivity].
    rewrite forallb_forall in E. specialize (E _ Hp).
    unfold Spec.coercible_column in E. cbn [fst snd] in E.
    apply mem_In in Hbin. rewrite Hbin, Hbad in E. discriminate.
Qed.

Lemma entirely_missing_binary_column_raises_witness :
  fst (Model.preprocess_data 0%nat
         [Pandas.mkFrame 2
            [("Age", Pandas.Int64Series [55%Z; 61%Z]);
             ("Smoking", Pandas.Float64Series [None; None])]])
  = inl Pandas.IntCastingNaNError.
Proof.
  refine (proj1 (entirely_missing_binary_column_raises
                   [Pandas.mkFrame 2
                      [("Age", Pandas.Int64Series [55%Z; 61%Z]);
                       ("Smoking", Pandas.Float64Series [None; None])]]
                   0%nat _ "Smoking" [None; None] eq_refl eq_refl
                   (or_intror (or_introl eq_refl))
                   (or_intror (or_intror (or_introl eq_refl))) _ eq_refl)).
  discriminate.
Defined.

(** X8. Two or more columns whose labels fold to [gender] make the
    normalisation raise AttributeError, whatever they hold. *)
Theorem homonymous_gender_columns_raise (st : Pandas.store) (df : Pandas.loc)
    (f : Pandas.DataFrame) :
  nth_error st df = Some f ->
  (2 <= List.length (Pandas.labelled "gender" (Spec.lowered f)))%nat ->
  fst (Model.preprocess_data df st) = inl (Pandas.AttributeError "dtype").
Proof.
  intros Hat Hlen.
  rewrite (preprocess_data_unfold st df f Hat).
  apply bind_raises.
  assert (Hq : nth_error (st ++ [Spec.lowered f; Spec.pruned f]) (S (List.length st))
               = Some (Spec.pruned f)).
  { rewrite nth_error_app2 by lia.
    now replace (S (List.length st) - List.length st)%nat with 1%nat by lia. }
  rewrite <- labelled_pruned_gender in Hlen.
  unfold Model.gender_step.
  rewrite (run_bind _ _ _ _ _ (run_get_columns _ _ _ Hq)).
  destruct (Pandas.labelled "gender" (Spec.pruned f)) as [|s1 [|s2 r]] eqn:El;
    try (simpl in Hlen; lia).
  assert (Hm : Text.mem "gender" (Pandas.columns (Spec.pruned f)) = true).
  { apply mem_In. assert (Hs : In s1 (Pandas.labelled "gender" (Spec.pruned f)))
      by (rewrite El; now left).
    unfold Pandas.labelled in Hs. apply in_map_iff in Hs.
    destruct Hs as (c & _ & Hc). apply filter_In in Hc. destruct Hc as [Hc Hl].
    apply String.eqb_eq in Hl. rewrite <- Hl. unfold Pandas.columns. now apply in_map. }
  rewrite Hm.
  assert (Hsel : Pandas.select "gender" (Spec.pruned f)
                 = inr (Pandas.ManyColumns (s1 :: s2 :: r))).
  { unfold Pandas.select. now rewrite El. }
  now rewrite (run_bind _ _ _ _ _ (run_getitem _ _ _ Hq _ _ Hsel)).
Qed.

Lemma homonymous_gender_columns_raise_witness :
  fst (Model.preprocess_data 0%nat
         [Pandas.mkFrame 1
            [("Gender", Pandas.ObjectSeries [Pandas.PyStr "male"]);
             ("GENDER", Pandas.Int64Series [1%Z])]])
  = inl (Pandas.AttributeError "dtype").
Proof.
  exact (homonymous_gender_columns_raise
           [Pandas.mkFrame 1
              [("Gender", Pandas.ObjectSeries [Pandas.PyStr "male"]);
               ("GENDER", Pandas.Int64Series [1%Z])]]
           0%nat _ eq_refl (le_n 2)).
Defined.

(** ** More on batch prediction *)

Section BatchFacts.
Import Pandas Spec Model.
Local Open Scope nat_scope.

Lemma labelled_In (x : string) (f : DataFrame) (s : Series) :
  In s (labelled x f) -> In (x, s) (cols f).
Proof.
  unfold labelled. intros H. apply in_map_iff in H. destruct H as ([y s'] & E & H).
  apply filter_In in H. destruct H as [H Hl]. cbn [fst snd] in *.
  apply String.eqb_eq in Hl. now subst.
Qed.

Lemma identifiers_size (f : DataFrame) (ids : Series) :
  Shape.well_formed f = true -> identifiers f = inr ids -> size ids = index_len f.
Proof.
  intros Hwf H. unfold identifiers in H. destruct (Text.mem "id" (columns f)).
  - unfold select in H. destruct (labelled "id" f) as [|s [|s' r]] eqn:El;
      try discriminate.
    cbn [id_values] in H. injection H as <-.
    assert (Hin : In (("id" : string), s) (cols f)).
    { apply labelled_In. rewrite El. now left. }
    unfold Shape.well_formed in Hwf. rewrite forallb_forall in Hwf.
    specialize (Hwf _ Hin). now apply Nat.eqb_eq in Hwf.
  - injection H as <-. apply size_range.
Qed.

Lemma frame_of_dict_mismatch (ids : Series) (predictions : list Num.float64) :
  List.length predictions <> size ids ->
  frame_of_dict [("id", ids); ("prediction", Float64Series predictions)]
  = inl (ValueError "All arrays must be of the same length").
Proof.
  intros H. unfold frame_of_dict. cbn [forallb snd size].
  apply Nat.eqb_neq in H. now rewrite H.
Qed.

(** What a result frame is made of. *)
Lemma predict_frame_inv (m : Artifact) (f result : DataFrame) :
  predict_frame m f = inr result ->
  exists ids predictions,
    scores m (normalised f) = inr predictions
    /\ identifiers f = inr ids
    /\ List.length predictions = size ids
    /\ result = mkFrame (size ids) [("id", ids); ("prediction", Float64Series predictions)].
Proof.
  unfold predict_frame. intros H.
  destruct (scores m (normalised f)) as [e|predictions]; [discriminate|].
  destruct (identifiers f) as [e|ids]; [discriminate|].
  exists ids, predictions. unfold frame_of_dict in H. cbn [forallb snd size] in H.
  destruct (Nat.eqb (List.length predictions) (size ids)) eqn:E; [|discriminate].
  apply Nat.eqb_eq in E. cbn [andb] in H. injection H as <-. now repeat split.
Qed.

(** The batch endpoint on an upload that parses to a frame the
    normalisation accepts. *)
Lemma predict_from_csv_run (m : HeartAttackModel) (filename : string)
    (frame : DataFrame) (st : store) :
  Main.endswith_csv filename = true ->
  ready frame = true ->
  Main.predict_from_csv (Some m) filename (inr frame) st
  = match predict_frame (model m) frame with
    | inl e =>
      (inr (inl (Main.HTTP500 e)), st ++ [frame; lowered frame; normalised frame])
    | inr result =>
      (match select "prediction" result with
       | inr (OneColumn (Float64Series prediction)) =>
         inr (inr (Main.mkResponse (index_len result) result (Main.statistics prediction)))
       | inr _ => inr (inl (Main.HTTP500 (Raised "prediction is not a float column")))
       | inl e => inr (inl (Main.HTTP500 e))
       end,
       st ++ [frame; lowered frame; normalised frame; result])
    end.
Proof.
  intros Hcsv Hready. unfold Main.predict_from_csv. rewrite Hcsv. cbn [negb].
  unfold try_except. cbn [lift]. unfold ret at 1.
  erewrite run_bind by reflexivity. unfold alloc at 1.
  erewrite run_bind by reflexivity.
  pose proof (predict_batch_spec m (st ++ [frame]) (List.length st) frame
                (nth_error_last st frame) Hready) as Hb.
  destruct (predict_frame (model m) frame) as [e|result].
  - unfold bind at 1. rewrite Hb. now rewrite <- app_assoc.
  - rewrite (run_bind _ _ _ _ _ Hb). rewrite <- app_assoc. cbn [app].
    assert (Hr : nth_error (st ++ [frame; lowered frame; normalised frame; result])
                   (List.length (st ++ [frame]) + 2) = Some result).
    { rewrite length_app. cbn [List.length]. rewrite nth_error_app2 by lia.
      now replace (List.length st + 1 + 2 - List.length st) with 3 by lia. }
    unfold getitem, bind, deref. rewrite !Hr.
    destruct (select "prediction" result) as [e|[[v|v|v|v]|ss]]; reflexivity.
Qed.

End BatchFacts.

(** X9. On a raw frame with one cell per row in every column, [predict_batch]
    returns one result row per input row, labelled [id] and [prediction],
    when the classifier gives one prediction per row; when it gives another
    number of predictions, [predict_batch] raises ValueError: predictions
    are never dropped or padded. *)
Theorem batch_has_one_prediction_per_row (self : Model.HeartAttackModel)
    (st : Pandas.store) (df : Pandas.loc) (f : Pandas.DataFrame)
    (ids : Pandas.Series) (predictions : list Num.float64) :
  nth_error st df = Some f ->
  Spec.ready f = true ->
  Shape.well_formed f = true ->
  Spec.identifiers f = inr ids ->
  Spec.scores (Model.model self) (Spec.normalised f) = inr predictions ->
  (List.length predictions = Pandas.index_len f ->
   Model.predict_batch self df st
   = (inr (List.length st + 2)%nat,
      st ++ [Spec.lowered f; Spec.normalised f;
             Pandas.mkFrame (Pandas.index_len f)
               [("id", ids); ("prediction", Pandas.Float64Series predictions)]]))
  /\ (List.length predictions <> Pandas.index_len f ->
      Model.predict_batch self df st
      = (inl (Pandas.ValueError "All arrays must be of the same length"),
         st ++ [Spec.lowered f; Spec.normalised f])).
Proof.
  intros Hat Hready Hwf Hids Hscores.
  pose proof (identifiers_size f ids Hwf Hids) as Hsize.
  pose proof (predict_batch_spec self st df f Hat Hready) as Hb.
  unfold Spec.predict_frame in Hb. rewrite Hscores, Hids in Hb.
  split; intros Hlen.
  - rewrite frame_of_dict_ok in Hb by congruence. now rewrite Hsize in Hb.
  - rewrite frame_of_dict_mismatch in Hb by congruence. exact Hb.
Qed.

Lemma batch_has_one_prediction_per_row_witness :
  Model.predict_batch (Model.mkModel "best_model.pkl" Scenario.constant_classifier ["age"])
    0%nat [Scenario.identified]
  = (inr 3%nat,
     [Scenario.identified; Spec.lowered Scenario.identified;
      Spec.normalised Scenario.identified;
      Pandas.mkFrame 2
        [("id", Pandas.Int64Series [17%Z; 42%Z]);
         ("prediction", Pandas.Float64Series [Some (7 # 10); Some (7 # 10)])]])
  /\ Model.predict_batch
       (Model.mkModel "best_model.pkl"
          (Model.mkArtifact "Stub" None (Some ["age"]) None false None
             (fun _ => inr [Some (1 # 2)])) ["age"])
       0%nat [Scenario.identified]
     = (inl (Pandas.ValueError "All arrays must be of the same length"),
        [Scenario.identified; Spec.lowered Scenario.identified;
         Spec.normalised Scenario.identified]).
Proof.
  split.
  - exact (proj1 (batch_has_one_prediction_per_row
                    (Model.mkModel "best_model.pkl" Scenario.constant_classifier ["age"])
                    [Scenario.identified] 0%nat Scenario.identified
                    (Pandas.Int64Series [17%Z; 42%Z]) [Some (7 # 10); Some (7 # 10)]
                    eq_refl eq_refl eq_refl eq_refl eq_refl) eq_refl).
  - refine (proj2 (batch_has_one_prediction_per_row
                     (Model.mkModel "best_model.pkl"
                        (Model.mkArtifact "Stub" None (Some ["age"]) None false None
                           (fun _ => inr [Some (1 # 2)])) ["age"])
                     [Scenario.identified] 0%nat Scenario.identified
                     (Pandas.Int64Series [17%Z; 42%Z]) [Some (1 # 2)]
                     eq_refl eq_refl eq_refl eq_refl eq_refl) _).
    discriminate.
Defined.

(** X10. [predict_batch] catches nothing: an exception of [predict_proba] or
    of [predict] is the exception of [predict_batch], and a probability
    output with fewer than two columns raises IndexError; the raw frame and
    the two frames of the normalisation are all the store then holds more. *)
Theorem classifier_errors_propagate (self : Model.HeartAttackModel)
    (st : Pandas.store) (df : Pandas.loc) (f : Pandas.DataFrame) :
  nth_error st df = Some f ->
  Spec.ready f = true ->
  (forall proba e,
     Model.predict_proba (Model.model self) = Some proba ->
     proba (Spec.normalised f) = inl e ->
     Model.predict_batch self df st = (inl e, st ++ [Spec.lowered f; Spec.normalised f]))
  /\ (forall proba a,
        Model.predict_proba (Model.model self) = Some proba ->
        proba (Spec.normalised f) = inr a ->
        (Model.n_columns a <= 1)%nat ->
        Model.predict_batch self df st
        = (inl Pandas.IndexError, st ++ [Spec.lowered f; Spec.normalised f]))
  /\ (forall e,
        Model.predict_proba (Model.model self) = None ->
        Model.predict (Model.model self) (Spec.normalised f) = inl e ->
        Model.predict_batch self df st
        = (inl e, st ++ [Spec.lowered f; Spec.normalised f])).
Proof.
  intros Hat Hready.
  pose proof (predict_batch_spec self st df f Hat Hready) as Hb.
  unfold Spec.predict_frame, Spec.scores in Hb.
  split; [|split].
  - intros proba e Hp He. now rewrite Hp, He in Hb.
  - intros proba a Hp Ha Hn. rewrite Hp, Ha in Hb. unfold Model.column in Hb.
    assert (E : (1 <? Model.n_columns a)%nat = false) by (apply Nat.ltb_ge; lia).
    now rewrite E in Hb.
  - intros e Hp He. now rewrite Hp, He in Hb.
Qed.

Lemma classifier_errors_propagate_witness :
  Model.predict_batch
    (Model.mkModel "best_model.pkl"
       (Model.mkArtifact "Stub" None (Some ["age"]) None false
          (Some (fun _ => inl (Pandas.ValueError "X has 1 features")))
          (fun _ => inr [])) ["age"])
    0%nat [Scenario.patient]
  = (inl (Pandas.ValueError "X has 1 features"),
     [Scenario.patient; Spec.lowered Scenario.patient; Spec.normalised Scenario.patient]).
Proof.
  exact (proj1 (classifier_errors_propagate
                  (Model.mkModel "best_model.pkl"
                     (Model.mkArtifact "Stub" None (Some ["age"]) None false
                        (Some (fun _ => inl (Pandas.ValueError "X has 1 features")))
                        (fun _ => inr [])) ["age"])
                  [Scenario.patient] 0%nat Scenario.patient eq_refl eq_refl)
           _ _ eq_refl eq_refl).
Defined.

(** X11. The batch endpoint answers by status: 503 without a model,
    whatever is uploaded; 400 for a file name that does not end in [.csv],
    before the content is looked at; 500 with the cause when the content
    does not parse; and it lets no exception escape. *)
Theorem batch_endpoint_statuses (model : option Model.HeartAttackModel)
    (filename : string) (parsed : Pandas.exn + Pandas.DataFrame) (st : Pandas.store) :
  (model = None ->
   Main.predict_from_csv model filename parsed st = (inr (inl Main.HTTP503), st))
  /\ (model <> None -> Main.endswith_csv filename = false ->
      Main.predict_from_csv model filename parsed st = (inr (inl Main.HTTP400), st))
  /\ (forall e, model <> None -> Main.endswith_csv filename = true -> parsed = inl e ->
      Main.predict_from_csv model filename parsed st = (inr (inl (Main.HTTP500 e)), st))
  /\ exists answer, fst (Main.predict_from_csv model filename parsed st) = inr answer.
Proof.
  unfold Main.predict_from_csv. destruct model as [m|].
  - split; [discriminate|]. split; [|split].
    + intros _ H. now rewrite H.
    + intros e _ H ->. now rewrite H.
    + destruct (Main.endswith_csv filename); cbn [negb]; [|now eexists].
      unfold Pandas.try_except.
      match goal with
      | |- context [match ?m st with _ => _ end] => destruct (m st) as [[e|a] st']
      end; now eexists.
  - split; [reflexivity|]. split; [congruence|]. split; [congruence|]. now eexists.
Qed.

(** X12. On an upload that parses to a frame the normalisation accepts, the
    batch endpoint answers 500 with the cause when the prediction raises,
    and otherwise with the result frame, the number of its rows, which is
    the number of predictions, and the statistics of exactly those
    predictions. *)
Theorem batch_endpoint_answer (m : Model.HeartAttackModel) (filename : string)
    (frame : Pandas.DataFrame) (st : Pandas.store) :
  Main.endswith_csv filename = true ->
  Spec.ready frame = true ->
  match Spec.predict_frame (Model.model m) frame with
  | inl e =>
    fst (Main.predict_from_csv (Some m) filename (inr frame) st)
    = inr (inl (Main.HTTP500 e))
  | inr result =>
    exists (ids : Pandas.Series) (predictions : list Num.float64),
      Pandas.cols result = [("id", ids); ("prediction", Pandas.Float64Series predictions)]
      /\ fst (Main.predict_from_csv (Some m) filename (inr frame) st)
         = inr (inr (Main.mkResponse (List.length predictions) result
                       (Main.statistics predictions)))
  end.
Proof.
  intros Hcsv Hready. rewrite (predict_from_csv_run m filename frame st Hcsv Hready).
  destruct (Spec.predict_frame (Model.model m) frame) as [e|result] eqn:E; [reflexivity|].
  destruct (predict_frame_inv _ _ _ E) as (ids & predictions & _ & _ & Hlen & ->).
  exists ids, predictions. split; [reflexivity|].
  cbn [fst Pandas.index_len]. now rewrite Hlen.
Qed.

Lemma batch_endpoint_answer_witness :
  exists stats,
    fst (Main.predict_from_csv
           (Some (Model.mkModel "best_model.pkl" Scenario.constant_classifier ["age"]))
           "patients.csv" (inr Scenario.identified) [])
    = inr (inr (Main.mkResponse 2
                  (Pandas.mkFrame 2
                     [("id", Pandas.Int64Series [17%Z; 42%Z]);
                      ("prediction", Pandas.Float64Series [Some (7 # 10); Some (7 # 10)])])
                  stats))
    /\ Main.risk_count stats = 2%nat.
Proof.
  pose proof (batch_endpoint_answer
                (Model.mkModel "best_model.pkl" Scenario.constant_classifier ["age"])
                "patients.csv" Scenario.identified [] eq_refl eq_refl) as H.
  change (Spec.predict_frame _ _)
    with (@inr Pandas.exn _
            (Pandas.mkFrame 2
               [("id", Pandas.Int64Series [17%Z; 42%Z]);
                ("prediction", Pandas.Float64Series [Some (7 # 10); Some (7 # 10)])]))
    in H.
  cbv beta iota in H. destruct H as (ids & predictions & Hcols & H).
  injection Hcols as <- <-.
  exists (Main.statistics [Some (7 # 10); Some (7 # 10)]). split; [exact H | reflexivity].
Defined.

(** ** More on the statistics *)

Section StatisticsMore.
Import Pandas.

Lemma fold_Qmin_le_all (r : list Q) (x p : Q) :
  In p (x :: r) -> fold_left Qmin r x <= p.
Proof. intros H. now apply (proj2 (fold_Qmin_least r x)). Qed.

Lemma fold_Qmax_ge_all (r : list Q) (x p : Q) :
  In p (x :: r) -> p <= fold_left Qmax r x.
Proof. intros H. now apply (proj2 (fold_Qmax_greatest r x)). Qed.

End StatisticsMore.

(** X13. The two counts of the statistics partition the predictions that are
    present: a NaN prediction is counted in neither, so the counts add up
    to the number of predictions exactly when none is NaN. *)
Theorem counts_partition_the_present_predictions (prediction : list Num.float64) :
  (Main.risk_count (Main.statistics prediction)
   + Main.no_risk_count (Main.statistics prediction))%nat
  = List.length (Num.dropna prediction)
  /\ ((Main.risk_count (Main.statistics prediction)
       + Main.no_risk_count (Main.statistics prediction))%nat = List.length prediction
      <-> Num.any_null prediction = false).
Proof.
  cbn [Main.statistics Main.risk_count Main.no_risk_count].
  unfold Pandas.count_gt, Pandas.count_le.
  assert (H : (List.length
                 (filter (fun v => match v with
                                   | Some q => negb (Qle_bool q (1 # 2))
                                   | None => false
                                   end) prediction)
               + List.length
                   (filter (fun v => match v with
                                     | Some q => Qle_bool q (1 # 2)
                                     | None => false
                                     end) prediction))%nat
              = List.length (Num.dropna prediction)).
  { induction prediction as [|[q|] r IH]; [reflexivity| |exact IH].
    cbn [filter Num.dropna]. destruct (Qle_bool q (1 # 2)); cbn [negb List.length]; lia. }
  split; [exact H|]. rewrite H. clear H.
  induction prediction as [|[q|] r IH]; cbn [Num.dropna List.length Num.any_null existsb orb].
  - tauto.
  - fold (Num.any_null r). rewrite <- IH. split; intros E; lia.
  - split; [|discriminate]. intros E.
    assert (Hle : (List.length (Num.dropna r) <= List.length r)%nat).
    { clear. induction r as [|[q|] r IH]; simpl; lia. }
    lia.
Qed.

(** X14. For a batch with at least one prediction that is not NaN, the
    min and the max of the statistics are two of the predictions, no
    prediction is below the min or above the max, and min <= max; when the
    predictions are probabilities, so are the min and the max. *)
Theorem min_and_max_are_predictions (prediction : list Num.float64) :
  Num.dropna prediction <> [] ->
  exists lo hi : Q,
    Main.min (Main.statistics prediction) = Some lo
    /\ Main.max (Main.statistics prediction) = Some hi
    /\ In lo (Num.dropna prediction) /\ In hi (Num.dropna prediction)
    /\ (forall p, In p (Num.dropna prediction) -> lo <= p /\ p <= hi)
    /\ lo <= hi
    /\ ((forall p, In p (Num.dropna prediction) -> 0 <= p /\ p <= 1) ->
        0 <= lo /\ lo <= 1 /\ 0 <= hi /\ hi <= 1).
Proof.
  intros Hne. cbn [Main.statistics Main.min Main.max].
  unfold Pandas.min, Pandas.max.
  destruct (Num.dropna prediction) as [|x r] eqn:E; [contradiction|].
  destruct (fold_Qmin_least r x) as [Hlo_in _].
  destruct (fold_Qmax_greatest r x) as [Hhi_in _].
  eexists _, _. repeat (split; [reflexivity|]).
  split; [exact Hlo_in|]. split; [exact Hhi_in|].
  split; [intros p Hp; split; [now apply fold_Qmin_le_all | now apply fold_Qmax_ge_all]|].
  split; [now apply fold_Qmin_le_all|].
  intros Hp. destruct (Hp _ Hlo_in) as [H0 H1]. destruct (Hp _ Hhi_in) as [H2 H3].
  now repeat split.
Qed.

Lemma min_and_max_are_predictions_witness :
  Main.min (Main.statistics [Some (2 # 10); None; Some (9 # 10); Some (1 # 10)])
  = Some (1 # 10)
  /\ Main.max (Main.statistics [Some (2 # 10); None; Some (9 # 10); Some (1 # 10)])
     = Some (9 # 10)
  /\ exists lo hi : Q,
       Main.min (Main.statistics [Some (2 # 10); None; Some (9 # 10); Some (1 # 10)])
       = Some lo
       /\ Main.max (Main.statistics [Some (2 # 10); None; Some (9 # 10); Some (1 # 10)])
          = Some hi
       /\ lo <= hi.
Proof.
  split; [reflexivity|]. split; [reflexivity|].
  destruct (min_and_max_are_predictions
              [Some (2 # 10); None; Some (9 # 10); Some (1 # 10)])
    as (lo & hi & H1 & H2 & _ & _ & _ & H3 & _); [discriminate|].
  exists lo, hi. now repeat split.
Defined.

(** X15. The [std] of the statistics is NaN exactly when fewer than two
    predictions are present; otherwise it is a number that is not
    negative. *)
Theorem std_of_a_batch (prediction : list Num.float64) :
  (Main.std (Main.statistics prediction) = None
   <-> (List.length (Num.dropna prediction) <= 1)%nat)
  /\ (forall sd, Main.std (Main.statistics prediction) = Some sd ->
              Rdefinitions.Rle (Rdefinitions.IZR 0) sd).
Proof.
  cbn [Main.statistics Main.std]. unfold Pandas.std, Pandas.var.
  split.
  - destruct (List.length (Num.dropna prediction) <=? 1)%nat eqn:E.
    + apply Nat.leb_le in E. cbn [option_map]. tauto.
    + apply Nat.leb_gt in E. cbn [option_map]. split; [discriminate | lia].
  - intros sd H.
    destruct (List.length (Num.dropna prediction) <=? 1)%nat; [discriminate|].
    cbn [option_map] in H. injection H as <-. apply R_sqrt.sqrt_pos.
Qed.

Lemma std_of_a_batch_witness :
  Main.std (Main.statistics [Some (7 # 10); None]) = None
  /\ Main.std (Main.statistics [Some (2 # 10); None; Some (9 # 10)]) <> None.
Proof.
  split.
  - exact (proj2 (proj1 (std_of_a_batch [Some (7 # 10); None])) (le_n 1)).
  - intros H.
    apply (proj1 (proj1 (std_of_a_batch [Some (2 # 10); None; Some (9 # 10)]))) in H.
    cbn in H. lia.
Defined.

(** ** The single-prediction endpoint *)

Section SingleEndpoint.
Import Pandas Spec Model.
Local Open Scope nat_scope.

Lemma predict_single_run (self : HeartAttackModel) (st : store) (df : loc)
    (f : DataFrame) :
  nth_error st df = Some f ->
  ready f = true ->
  Model.predict_single self df st
  = match predict_frame (model self) f with
    | inl e => (inl e, st ++ [lowered f; normalised f])
    | inr result =>
      (match select "prediction" result with
       | inl e => inl e
       | inr sel => iloc0 sel
       end,
       st ++ [lowered f; normalised f; result])
    end.
Proof.
  intros Hat Hready. unfold Model.predict_single.
  pose proof (predict_batch_spec self st df f Hat Hready) as Hb.
  destruct (predict_frame (model self) f) as [e|result].
  - unfold bind at 1. now rewrite Hb.
  - rewrite (run_bind _ _ _ _ _ Hb).
    assert (Hr : nth_error (st ++ [lowered f; normalised f; result]) (List.length st + 2)
                 = Some result).
    { rewrite nth_error_app2 by lia.
      now replace (List.length st + 2 - List.length st) with 2 by lia. }
    unfold getitem, bind, deref. rewrite Hr.
    destruct (select "prediction" result) as [e|sel]; [reflexivity|].
    cbn [lift]. unfold ret. now destruct (iloc0 sel).
Qed.

Lemma columns_frame_of_record (data : list (string * Endpoints.json)) :
  columns (Endpoints.frame_of_record data) = map fst data.
Proof.
  unfold columns, Endpoints.frame_of_record. cbn [cols]. rewrite map_map.
  now apply map_ext.
Qed.

Lemma size_cell (v : Endpoints.json) : size (Endpoints.cell v) = 1.
Proof. now destruct v. Qed.

Lemma identifiers_of_record (data : list (string * Endpoints.json)) :
  NoDup (map fst data) ->
  exists ids, identifiers (Endpoints.frame_of_record data) = inr ids /\ size ids = 1.
Proof.
  intros Hn. unfold identifiers.
  destruct (Text.mem "id" (columns (Endpoints.frame_of_record data))) eqn:Hm.
  - destruct (mem_columns _ _ Hm) as [s Hs].
    rewrite (select_unique _ _ _ (eq_ind_r (@NoDup string) Hn
                                    (columns_frame_of_record data)) Hs).
    exists s. split; [reflexivity|].
    unfold Endpoints.frame_of_record in Hs. cbn [cols] in Hs.
    apply in_map_iff in Hs. destruct Hs as (kv & E & _). injection E as _ <-.
    apply size_cell.
  - exists (range 1). split; reflexivity.
Qed.

Lemma single_endpoint_unfold (m : HeartAttackModel)
    (as_str : Endpoints.json -> exn + string)
    (data : list (string * Endpoints.json)) (st : store) :
  Endpoints.predict_single (Some m) as_str data st
  = match Model.predict_single m (List.length st)
            (st ++ [Endpoints.frame_of_record data]) with
    | (inl e, st') => (inr (inl (Endpoints.HTTPException 400 (Some e))), st')
    | (inr p, st') =>
      match as_str (match dict_get data "id" with
                    | Some v => v
                    | None => Endpoints.JStr "unknown"
                    end) with
      | inl e => (inr (inl (Endpoints.HTTPException 400 (Some e))), st')
      | inr patient =>
        (inr (inr (Endpoints.mkPrediction patient p
                     (if Endpoints.above_half p then "Высокий" else "Низкий")
                     (Endpoints.confidence_of p))), st')
      end
    end.
Proof.
  unfold Endpoints.predict_single, try_except, bind, alloc.
  destruct (Model.predict_single m (List.length st)
              (st ++ [Endpoints.frame_of_record data])) as [[e|p] st'];
    [reflexivity|].
  now destruct (as_str _).
Qed.

End SingleEndpoint.

(** X16. The single-prediction endpoint scores the one-row frame made of the
    posted object with the batch code: when the classifier gives that row
    the prediction [p], the answer carries [p], the risk level that
    [p > 0.5] decides and the confidence [2 * |p - 0.5|]; the patient
    identifier is the posted [id], or the text [unknown]. *)
Theorem single_endpoint_answer (m : Model.HeartAttackModel)
    (as_str : Endpoints.json -> Pandas.exn + string)
    (data : list (string * Endpoints.json)) (st : Pandas.store)
    (p : Num.float64) (patient : string) :
  NoDup (map fst data) ->
  Spec.ready (Endpoints.frame_of_record data) = true ->
  Spec.scores (Model.model m) (Spec.normalised (Endpoints.frame_of_record data))
  = inr [p] ->
  as_str (match Pandas.dict_get data "id" with
          | Some v => v
          | None => Endpoints.JStr "unknown"
          end) = inr patient ->
  fst (Endpoints.predict_single (Some m) as_str data st)
  = inr (inr (Endpoints.mkPrediction patient p
                (if Endpoints.above_half p then "Высокий" else "Низкий")
                (Endpoints.confidence_of p))).
Proof.
  intros Hn Hready Hscores Hid.
  destruct (identifiers_of_record data Hn) as (ids & Hids & Hsize).
  pose proof (predict_single_run m _ _ _ (nth_error_last st _) Hready) as Hs.
  unfold Spec.predict_frame in Hs. rewrite Hscores, Hids in Hs.
  rewrite frame_of_dict_ok in Hs by (now rewrite Hsize).
  change (Pandas.select "prediction" _)
    with (@inr Pandas.exn _ (Pandas.OneColumn (Pandas.Float64Series [p]))) in Hs.
  cbn [Model.iloc0] in Hs.
  unfold Endpoints.predict_single, Pandas.try_except.
  unfold Pandas.alloc at 1. erewrite run_bind by reflexivity.
  rewrite (run_bind _ _ _ _ _ Hs). unfold Pandas.bind. now rewrite Hid.
Qed.

Lemma single_endpoint_answer_witness :
  fst (Endpoints.predict_single
         (Some (Model.mkModel "best_model.pkl" Scenario.constant_classifier ["age"]))
         (fun v => match v with
                   | Endpoints.JStr s => inr s
                   | _ => inl (Pandas.ValueError "Input should be a valid string")
                   end)
         [("age", Endpoints.JInt 55); ("gender", Endpoints.JStr "male");
          ("id", Endpoints.JStr "P-17")] [])
  = inr (inr (Endpoints.mkPrediction "P-17" (Some (7 # 10)) "Высокий"
                (Some (Qabs ((7 # 10) - (1 # 2)) * 2)))).
Proof.
  apply (single_endpoint_answer
           (Model.mkModel "best_model.pkl" Scenario.constant_classifier ["age"])
           _ [("age", Endpoints.JInt 55); ("gender", Endpoints.JStr "male");
              ("id", Endpoints.JStr "P-17")] [] (Some (7 # 10)) "P-17").
  - apply distinct_NoDup. reflexivity.
  - reflexivity.
  - reflexivity.
  - reflexivity.
Defined.

(** X17. The single-prediction endpoint answers 503 without a model, and
    otherwise turns every exception, of the prediction or of the validation
    of the answer, into a 400 with its cause; no exception escapes. *)
Theorem single_endpoint_statuses (model : option Model.HeartAttackModel)
    (as_str : Endpoints.json -> Pandas.exn + string)
    (data : list (string * Endpoints.json)) (st : Pandas.store) :
  (model = None ->
   Endpoints.predict_single model as_str data st
   = (inr (inl (Endpoints.HTTPException 503 None)), st))
  /\ (forall m e st',
        model = Some m ->
        Model.predict_single m (List.length st) (st ++ [Endpoints.frame_of_record data])
        = (inl e, st') ->
        Endpoints.predict_single model as_str data st
        = (inr (inl (Endpoints.HTTPException 400 (Some e))), st'))
  /\ (forall m p e st',
        model = Some m ->
        Model.predict_single m (List.length st) (st ++ [Endpoints.frame_of_record data])
        = (inr p, st') ->
        as_str (match Pandas.dict_get data "id" with
                | Some v => v
                | None => Endpoints.JStr "unknown"
                end) = inl e ->
        Endpoints.predict_single model as_str data st
        = (inr (inl (Endpoints.HTTPException 400 (Some e))), st'))
  /\ exists answer, fst (Endpoints.predict_single model as_str data st) = inr answer.
Proof.
  destruct model as [m|].
  - rewrite single_endpoint_unfold. split; [discriminate|]. split; [|split].
    + intros m' e st' E H. injection E as <-. now rewrite H.
    + intros m' p e st' E H Hid. injection E as <-. now rewrite H, Hid.
    + destruct (Model.predict_single m (List.length st)
                  (st ++ [Endpoints.frame_of_record data])) as [[e|p] st'];
        [now eexists|].
      destruct (as_str _); now eexists.
  - split; [reflexivity|]. split; [discriminate|]. split; [discriminate|]. now eexists.
Qed.

(** X18. In every answer of the single-prediction endpoint the risk level is
    the high one exactly when the batch statistics would count the
    prediction as a risk (strictly above 0.5; NaN is not), and for a
    prediction that is a probability the confidence is one too; it is 0
    only at 0.5. *)
Theorem risk_level_and_confidence (model : option Model.HeartAttackModel)
    (as_str : Endpoints.json -> Pandas.exn + string)
    (data : list (string * Endpoints.json)) (st : Pandas.store)
    (r : Endpoints.PredictionResponse) :
  fst (Endpoints.predict_single model as_str data st) = inr (inr r) ->
  (Endpoints.risk_level r = "Высокий" \/ Endpoints.risk_level r = "Низкий")
  /\ (Endpoints.risk_level r = "Высокий"
      <-> Main.risk_count (Main.statistics [Endpoints.prediction r]) = 1%nat)
  /\ (Endpoints.risk_level r = "Высокий"
      <-> exists p, Endpoints.prediction r = Some p /\ 1 # 2 < p)
  /\ (forall p, Endpoints.prediction r = Some p ->
      exists c, Endpoints.confidence r = Some c
                /\ c == Qabs (p - (1 # 2)) * 2
                /\ (0 <= p -> p <= 1 -> 0 <= c /\ c <= 1)
                /\ (c == 0 <-> p == 1 # 2))
  /\ (Endpoints.prediction r = None -> Endpoints.confidence r = None).
Proof.
  intros H.
  assert (Hr : Endpoints.risk_level r
               = (if Endpoints.above_half (Endpoints.prediction r)
                  then "Высокий" else "Низкий")
               /\ Endpoints.confidence r = Endpoints.confidence_of (Endpoints.prediction r)).
  { destruct model as [m|]; [|discriminate].
    rewrite single_endpoint_unfold in H.
    destruct (Model.predict_single m (List.length st)
                (st ++ [Endpoints.frame_of_record data])) as [[e|p] st'];
      [discriminate|].
    destruct (as_str _) as [e|patient]; [discriminate|].
    cbn [fst] in H. injection H as <-. now split. }
  destruct Hr as [Hlevel Hconf]. rewrite Hlevel, Hconf.
  cbn [Main.statistics Main.risk_count]. unfold Pandas.count_gt. cbn [filter].
  destruct (Endpoints.prediction r) as [p|]; cbn [Endpoints.above_half Endpoints.confidence_of option_map].
  - destruct (Qle_bool p (1 # 2)) eqn:E; cbn [negb List.length].
    + apply Qle_bool_iff in E.
      split; [now right|]. split; [split; discriminate|]. split.
      * split; [discriminate|]. intros (p' & Ep & Hp). injection Ep as <-.
        exfalso. now apply (Qlt_not_le _ _ Hp).
      * split; [|discriminate]. intros p' Ep. injection Ep as <-.
        eexists. split; [reflexivity|]. split; [reflexivity|]. split.
        -- intros H0 H1. split.
           ++ apply Qmult_le_0_compat; [apply Qabs_nonneg | discriminate].
           ++ assert (Ha : Qabs (p - (1 # 2)) <= 1 # 2)
                by (apply Qabs_Qle_condition; split; lra).
              lra.
        -- split; intros Hc.
           ++ assert (Ha : Qabs (p - (1 # 2)) == 0) by lra.
              destruct (Qabs_Qle_condition (p - (1 # 2)) 0) as [Hx _].
              rewrite Ha in Hx. specialize (Hx (Qle_refl 0)). lra.
           ++ rewrite Hc. reflexivity.
    + assert (Hgt : 1 # 2 < p).
      { apply Qnot_le_lt. intros Hle. apply Qle_bool_iff in Hle. congruence. }
      split; [now left|]. split; [split; reflexivity|]. split.
      * split; [|reflexivity]. intros _. now exists p.
      * split; [|discriminate]. intros p' Ep. injection Ep as <-.
        eexists. split; [reflexivity|]. split; [reflexivity|]. split.
        -- intros H0 H1. split.
           ++ apply Qmult_le_0_compat; [apply Qabs_nonneg | discriminate].
           ++ assert (Ha : Qabs (p - (1 # 2)) <= 1 # 2)
                by (apply Qabs_Qle_condition; split; lra).
              lra.
        -- split; intros Hc.
           ++ assert (Ha : Qabs (p - (1 # 2)) == 0) by lra.
              destruct (Qabs_Qle_condition (p - (1 # 2)) 0) as [Hx _].
              rewrite Ha in Hx. specialize (Hx (Qle_refl 0)). lra.
           ++ rewrite Hc. reflexivity.
  - cbn [List.length]. split; [now right|]. split; [split; discriminate|]. split.
    + split; [discriminate|]. intros (p & Ep & _). discriminate.
    + split; [discriminate | reflexivity].
Qed.

Lemma risk_level_and_confidence_witness :
  Main.risk_count (Main.statistics [Some (7 # 10)]) = 1%nat
  /\ exists c, Some (Qabs ((7 # 10) - (1 # 2)) * 2) = Some c /\ 0 <= c /\ c <= 1.
Proof.
  destruct (risk_level_and_confidence
              (Some (Model.mkModel "best_model.pkl" Scenario.constant_classifier ["age"]))
              (fun v => match v with
                        | Endpoints.JStr s => inr s
                        | _ => inl (Pandas.ValueError "Input should be a valid string")
                        end)
              [("age", Endpoints.JInt 55); ("id", Endpoints.JStr "P-17")] []
              (Endpoints.mkPrediction "P-17" (Some (7 # 10)) "Высокий"
                 (Some (Qabs ((7 # 10) - (1 # 2)) * 2)))
              eq_refl) as (_ & Hrisk & _ & Hconf & _).
  split.
  - apply Hrisk. reflexivity.
  - destruct (Hconf (7 # 10) eq_refl) as (c & Ec & _ & Hb & _).
    exists c. split; [exact Ec|]. apply Hb; discriminate.
Defined.

(** ** Loading and describing the model *)

Section ModelInfoFacts.
Import Pandas Model.




End ModelInfoFacts.

(** X19. What [load_model] can end with. When it returns, the handle holds
    the path asked for and the artifact of that file, and its feature names
    are those of [feature_names_in_] when the artifact has them, before any
    look at a pipeline. When it raises, the file is absent
    (FileNotFoundError with the path), or deserialising raised that very
    exception, or the artifact has no [feature_names_in_]: an artifact with
    feature names always loads. *)
Theorem load_model_outcomes (joblib_load : string -> option (Pandas.exn + Model.Artifact))
    (path : string) :
  match Model.load_model joblib_load path with
  | inr self =>
    joblib_load path = Some (inr (Model.model self))
    /\ Model.model_path self = path
    /\ match Model.feature_names_in_ (Model.model self) with
       | Some names => Model.feature_names self = names
       | None =>
         exists steps,
           Model.named_steps (Model.model self) = Some steps
           /\ (Model.feature_names self = []
               \/ exists pre,
                    Pandas.dict_get steps "preprocessor" = Some pre
                    /\ Model.get_feature_names_out pre
                       = Some (inr (Model.feature_names self)))
       end
  | inl e =>
    (joblib_load path = None /\ e = Pandas.FileNotFoundError path)
    \/ joblib_load path = Some (inl e)
    \/ (exists a, joblib_load path = Some (inr a) /\ Model.feature_names_in_ a = None)
  end.
Proof.
  unfold Model.load_model.
  destruct (joblib_load path) as [[e|a]|] eqn:E.
  - right. now left.
  - destruct (Model.feature_names_in_ a) as [names|] eqn:En.
    + cbn [Model.model Model.model_path Model.feature_names]. rewrite En. now repeat split.
    + destruct (Model.named_steps a) as [steps|] eqn:Es.
      * destruct (match Pandas.dict_get steps "classifier" with
                  | Some c => Model.has_feature_importances_ c
                  | None => false
                  end).
        -- destruct (Pandas.dict_get steps "preprocessor") as [pre|] eqn:Ep.
           ++ destruct (Model.get_feature_names_out pre) as [[e|names]|] eqn:Eg.
              ** right. right. now exists a.
              ** cbn [Model.model Model.model_path Model.feature_names]. rewrite En.
                 repeat split. exists steps. split; [exact Es|]. right.
                 exists pre. now split.
              ** right. right. now exists a.
           ++ right. right. now exists a.
        -- cbn [Model.model Model.model_path Model.feature_names]. rewrite En.
           repeat split. exists steps. split; [exact Es | now left].
      * right. right. now exists a.
  - left. now split.
Qed.




